(** * likit: importers for atmospheric profiler data

    A shallow embedding of [src/misc.py] and [src/wxprofilers/rrs.py].

    Python [str] values are Rocq [string]s (one [ascii] per character),
    Python [int]s are [Z], [float]s are IEEE binary64 values, written as
    [spec_float] with precision 53 and maximal exponent 1024.  A Python
    exception is a [None] result.  Library entry points whose code is not
    part of the repository (numpy's trigonometry, the statsmodels solver,
    the pandas readers and date parser) are operations of a type class,
    so every theorem holds for every implementation of them. *)

From Stdlib Require Import ZArith Lia Bool List Ascii String SpecFloat.
From Stdlib Require Import DecimalString.
From Stdlib Require DecimalPos DecimalZ.
From stdpp Require Import base option list sorting strings gmap.

Local Open Scope string_scope.
Local Open Scope list_scope.
Local Open Scope Z_scope.

(** ** Python built-ins used by the importers *)

Module Py.

(** [str.isspace] on one ASCII character: TAB, LF, VT, FF, CR, the four
    separators FS, GS, RS, US and the space. *)
Definition isspace (c : ascii) : bool :=
  let n := N_of_ascii c in
  (((9 <=? n) && (n <=? 13)) || ((28 <=? n) && (n <=? 32)))%N.

Fixpoint lstrip (s : string) : string :=
  match s with
  | EmptyString => EmptyString
  | String c s' => if isspace c then lstrip s' else s
  end.

Fixpoint rstrip (s : string) : string :=
  match s with
  | EmptyString => EmptyString
  | String c s' =>
      match rstrip s' with
      | EmptyString => if isspace c then EmptyString else String c EmptyString
      | r => String c r
      end
  end.

(** [s.strip()] *)
Definition strip (s : string) : string := lstrip (rstrip s).

Fixpoint str_drop (n : nat) (s : string) : string :=
  match n, s with
  | O, _ => s
  | S n', String _ s' => str_drop n' s'
  | S _, EmptyString => EmptyString
  end.

(** [s.partition(sep)] at the leftmost occurrence of [sep]: the text before
    it and the text after it, [None] when [sep] does not occur. *)
Fixpoint partition (sep s : string) : option (string * string) :=
  if String.prefix sep s then Some (EmptyString, str_drop (String.length sep) s)
  else match s with
       | EmptyString => None
       | String c s' =>
           match partition sep s' with
           | Some (b, a) => Some (String c b, a)
           | None => None
           end
       end.

Fixpoint split_fuel (fuel : nat) (sep s : string) : list string :=
  match fuel with
  | O => [s]
  | S fuel' =>
      match partition sep s with
      | None => [s]
      | Some (b, a) => b :: split_fuel fuel' sep a
      end
  end.

(** [s.split(sep)] for a non-empty separator: cut at the leftmost
    occurrences, left to right, without overlap.  Every cut removes at least
    one character, so [length s] rounds suffice. *)
Definition split (sep s : string) : list string :=
  split_fuel (String.length s) sep s.

(** [sep.join(parts)] *)
Fixpoint join (sep : string) (parts : list string) : string :=
  match parts with
  | [] => EmptyString
  | [p] => p
  | p :: rest => p +:+ sep +:+ join sep rest
  end.

(** [''.join(parts)] *)
Fixpoint concat (parts : list string) : string :=
  match parts with
  | [] => EmptyString
  | p :: rest => p +:+ concat rest
  end.

Definition digit (c : ascii) : option Z :=
  let n := N_of_ascii c in
  if ((48 <=? n) && (n <=? 57))%N then Some (Z.of_N n - 48) else None.

(** The digits of an integer literal: decimal digits, single underscores
    allowed between two digits. *)
Fixpoint int_digits (acc : Z) (after_digit : bool) (s : string) : option Z :=
  match s with
  | EmptyString => if after_digit then Some acc else None
  | String c s' =>
      match digit c with
      | Some d => int_digits (10 * acc + d) true s'
      | None =>
          if (Ascii.eqb c "_" && after_digit)%bool
          then int_digits acc false s'
          else None
      end
  end.

(** The white space that [int] skips around an ASCII literal: TAB, LF,
    VT, FF, CR and the space.  The separators FS, GS, RS and US, which
    [str.strip] removes, are not among them. *)
Definition int_space (c : ascii) : bool :=
  let n := N_of_ascii c in
  (((9 <=? n) && (n <=? 13)) || (n =? 32))%N.

Fixpoint int_lskip (s : string) : string :=
  match s with
  | EmptyString => EmptyString
  | String c s' => if int_space c then int_lskip s' else s
  end.

Fixpoint int_rskip (s : string) : string :=
  match s with
  | EmptyString => EmptyString
  | String c s' =>
      match int_rskip s' with
      | EmptyString => if int_space c then EmptyString else String c EmptyString
      | r => String c r
      end
  end.

(** [int(s)]: surrounding whitespace is ignored, one sign is allowed;
    [None] stands for [ValueError]. *)
Definition int (s : string) : option Z :=
  match int_lskip (int_rskip s) with
  | String "+" r => int_digits 0 false r
  | String "-" r => Z.opp <$> int_digits 0 false r
  | t => int_digits 0 false t
  end.

(** [str(n)] for an [int]. *)
Definition str_of_int (n : Z) : string :=
  NilZero.string_of_int (Z.to_int n).

(** [s.startswith(p)], also what [re.search('^p', s)] decides for a literal
    [p]. *)
Definition startswith (p s : string) : bool := String.prefix p s.

End Py.

(** ** [wxprofilers/rrs.py]: the wrapper around the RRS decoder *)

Module Rrs.

(** [str(Path(p))] for a POSIX path: the root is kept (two leading slashes
    exactly are kept as they are), empty components and [.] components are
    dropped, the rest is joined by single slashes; the empty path prints as
    a dot. *)
Definition path_root (p : string) : string :=
  match p with
  | String "/" (String "/" (String "/" _)) => "/"
  | String "/" (String "/" _) => "//"
  | String "/" _ => "/"
  | _ => EmptyString
  end.

Definition path_part (x : string) : bool :=
  negb (String.eqb x EmptyString) && negb (String.eqb x ".").

Definition str_Path (p : string) : string :=
  let s := path_root p +:+ Py.join "/" (filter path_part (Py.split "/" p)) in
  match s with
  | EmptyString => "."
  | _ => s
  end.

(** One invocation of the native decoder [rrs_.rrs_decoder], with the
    arguments it received, in order. *)
Record decoder_call := DecoderCall {
  call_bufrin : string;
  call_outputs : string;
  call_outdir : string
}.

(** [decode_rrs(bufrin, outputs, outdir='')].  The decoder is outside the
    repository; what the wrapper does is recorded as the log of the calls
    made to it. *)
Definition decode_rrs (bufrin outputs outdir : string)
    (log : list decoder_call) : list decoder_call :=
  let out := str_Path outdir +:+ "/" in
  log ++ [DecoderCall bufrin outputs out].

(** The default value of [outdir]. *)
Definition default_outdir : string := EmptyString.

End Rrs.


(** ** [misc.py] *)

Module Misc.

(** *** Floating-point values *)

Definition float : Type := spec_float.
Definition prec : Z := 53.
Definition emax : Z := 1024.

Definition nan : float := S754_nan.
Definition fzero : float := S754_zero false.
Definition float_of_int (n : Z) : float := binary_normalize prec emax n 0 false.
Definition fneg (x : float) : float := SFopp x.
Definition fsub (x y : float) : float := SFsub prec emax x y.
Definition fmul (x y : float) : float := SFmul prec emax x y.
Definition fdiv (x y : float) : float := SFdiv prec emax x y.

(** [np.isnan], [np.isfinite], [x > y], [x >= 0] *)
Definition isnan (x : float) : bool :=
  match x with S754_nan => true | _ => false end.
Definition isfinite (x : float) : bool :=
  match x with S754_zero _ | S754_finite _ _ _ => true | _ => false end.
Definition fgt (x y : float) : bool := SFltb y x.
Definition fge0 (x : float) : bool := SFleb fzero x.

(** *** Data frames

    A [pandas.DataFrame] as its columns in order, each with its label.
    A column holds text ([object] dtype) or numbers ([float64]). *)

Inductive column :=
| StrCol (cells : list string)
| NumCol (cells : list float).

Abbreviation DataFrame := (list (string * column)).

(** [df[name]]; [KeyError] is [None]. *)
Fixpoint df_get (name : string) (df : DataFrame) : option column :=
  match df with
  | [] => None
  | (k, c) :: rest => if String.eqb k name then Some c else df_get name rest
  end.

(** [df.drop(columns=name)], as [set_index] does with the index column. *)
Definition df_drop (name : string) (df : DataFrame) : DataFrame :=
  filter (fun kc => negb (String.eqb (fst kc) name)) df.

Definition str_cells (c : column) : option (list string) :=
  match c with StrCol l => Some l | NumCol _ => None end.
Definition num_cells (c : column) : option (list float) :=
  match c with NumCol l => Some l | StrCol _ => None end.

(** The files the importers read: what [open(path).readlines()] returns and
    what [pd.read_csv(path, sep=..., index_col=False, skiprows=...)] returns
    for a path, [None] when the call raises.  The lines are taken as the
    call hands them over, line ends included; which line ends that is
    depends on the newline handling of the interpreter. *)
Record FileSystem := {
  readlines : string -> option (list string);
  read_csv : string -> string -> nat -> option DataFrame
}.

(** The date parser of pandas, [pd.to_datetime(s)], and its CSV reader on
    an in-memory text, [pd.read_csv(io.StringIO(s))].  A timestamp is a
    number of seconds since the epoch. *)
Class Pandas := {
  to_datetime : string -> option Z;
  read_csv_text : string -> option DataFrame
}.

(** *** [weather_balloon] *)

Definition CRLF : string := String "013" (String "010" EmptyString).

(** [np.where([line == '\r\n' for line in lines])[0][0]]: the position of
    the first line that is exactly CR LF; [IndexError] when there is none. *)
Fixpoint header_end (lines : list string) : option nat :=
  match lines with
  | [] => None
  | l :: rest =>
      if String.eqb l CRLF then Some O else S <$> header_end rest
  end.

(** One pass of the [for line in lines] loop over the stripped header
    lines: [metadata[parts[0].strip()] = parts[1]]. *)
Definition metadata_step (metadata : gmap string string) (line : string)
    : option (gmap string string) :=
  match Py.split " : " line with
  | k :: v :: _ => Some (<[Py.strip k := v]> metadata)
  | _ => None
  end.

Fixpoint metadata_loop (metadata : gmap string string) (lines : list string)
    : option (gmap string string) :=
  match lines with
  | [] => Some metadata
  | l :: rest =>
      match metadata_step metadata l with
      | Some m => metadata_loop m rest
      | None => None
      end
  end.

(** Lines 292-304: the header position and the metadata dictionary. *)
Definition read_metadata (lines : list string)
    : option (nat * gmap string string) :=
  h ← header_end lines;
  m ← metadata_loop ∅ (Py.strip <$> take h lines);
  Some (h, m).

Definition day : Z := 86400.

(** [t.date()] as the first second of the day of [t], and the time of day
    of [t]. *)
Definition day_start (t : Z) : Z := day * (t / day).
Definition time_of_day (t : Z) : Z := t mod day.

(** A field of one or two decimal digits below [bound]. *)
Definition two_digits (bound : Z) (s : string) : option Z :=
  match s with
  | String a EmptyString =>
      d ← Py.digit a; if d <? bound then Some d else None
  | String a (String b EmptyString) =>
      d ← Py.digit a; e ← Py.digit b;
      if 10 * d + e <? bound then Some (10 * d + e) else None
  | _ => None
  end.

(** The [%H:%M:%S] part of the format, hours below 24, minutes and seconds
    below 60: the seconds into the day. *)
Definition parse_hms (s : string) : option Z :=
  match Py.split ":" s with
  | [h; m; sec] =>
      h ← two_digits 24 h; m ← two_digits 60 m; sec ← two_digits 60 sec;
      Some (3600 * h + 60 * m + sec)
  | _ => None
  end.

(** Lines 314-315: [str(bdate.date()) + ' ' + stamp] read back with the
    format [%Y-%m-%d %H:%M:%S]. *)
Definition stamp_on (bdate : Z) (stamp : string) : option Z :=
  s ← parse_hms stamp; Some (day_start bdate + s).

(** [v[1:] - v[0:-1]] followed by a test of each difference. *)
Definition steps {A B} (f : A -> A -> B) (v : list A) : list B :=
  zip_with f (drop 1 v) (take (length v - 1) v).

(** [np.cumsum] of a boolean array. *)
Fixpoint cumsum_from (acc : Z) (flags : list bool) : list Z :=
  match flags with
  | [] => []
  | b :: rest =>
      let acc' := acc + (if b then 1 else 0) in acc' :: cumsum_from acc' rest
  end.

Definition cumsum (flags : list bool) : list Z := cumsum_from 0 flags.

(** Lines 318-321: the number of days to add to every row. *)
Definition days_ahead (stamps : list Z) (elapsed : list float) : list Z :=
  let time_lower := steps (fun later earlier => later - earlier <? 0) stamps in
  let elapsed_time := steps (fun later earlier => fge0 (fsub later earlier)) elapsed in
  0 :: cumsum (zip_with andb time_lower elapsed_time).

(** Line 323: [b1['Time Stamp'] += days_ahead], element by element; the
    two sides must have the same length.  For a frame without rows they do
    not: the column is empty and [days_ahead] holds the single 0. *)
Definition add_days (stamps days : list Z) : option (list Z) :=
  if decide (length stamps = length days)
  then Some (zip_with (fun t d => t + d * day) stamps days)
  else None.

Record balloon_dataset := {
  ds_Time : list Z;
  ds_vars : DataFrame;
  ds_Station : string;
  ds_Station_Height : string;
  ds_Station_Latitude : string;
  ds_Station_Longitude : string;
  ds_Profile : Z;
  ds_Flight : string;
  ds_File_Name : string;
  ds_Observer_Initial : string;
  ds_Version : string
}.

Definition balloon_path : string :=
  "../data/balloon/FLT_010117_0000_PROC.txt.TXT".

(** Lines 306-325 once the header is read: the profile start, the data
    frame and its corrected time stamps. *)
Definition balloon_index `{Pandas} (fs : FileSystem) (h : nat)
    (metadata : gmap string string) : option (Z * DataFrame * list Z) :=
  flight ← metadata !! "Flight";
  d ← Py.split ", " flight !! 1%nat;
  bdate ← to_datetime d;
  t ← Py.split ", " flight !! 2%nat;
  btime ← to_datetime t;
  let bstart := day_start bdate + time_of_day btime in
  b1 ← read_csv fs balloon_path ";" (h + 1);
  stamps ← df_get "Time Stamp" b1 ≫= str_cells;
  stamps ← mapM (stamp_on bdate) stamps;
  elapsed ← df_get "Elapsed Time" b1 ≫= num_cells;
  index ← add_days stamps (days_ahead stamps elapsed);
  Some (bstart, b1, index).

(** Lines 330-332: the variables that become coordinates.  [set_coords]
    raises when one of the names is not a variable of the dataset. *)
Definition coordinate_names : list string :=
  [ "Elapsed Time"; "Geopotential Height"; "Corrected Elevation"; "Latitude";
    "Longitude"; "Geometric Height" ].

Definition set_coords (names : list string) (vars : DataFrame)
    : option DataFrame :=
  if forallb (fun name => bool_decide (is_Some (df_get name vars))) names
  then Some vars else None.

(** [weather_balloon(fname)] *)
Definition weather_balloon `{Pandas} (fs : FileSystem) (fname : string)
    : option balloon_dataset :=
  lines ← readlines fs fname;
  '(h, metadata) ← read_metadata lines;
  '(bstart, b1, index) ← balloon_index fs h metadata;
  vars ← set_coords coordinate_names (df_drop "Time Stamp" b1);
  station ← metadata !! "Station Name (WMO #)";
  height ← metadata !! "Station Height";
  latitude ← metadata !! "Station Latitude";
  longitude ← metadata !! "Station Longitude";
  flight ← metadata !! "Flight";
  file_name ← metadata !! "File Name";
  observer ← metadata !! "Observer Initial";
  version ← metadata !! "Version #";
  Some {| ds_Time := index;
          ds_vars := vars;
          ds_Station := station;
          ds_Station_Height := height;
          ds_Station_Latitude := latitude;
          ds_Station_Longitude := longitude;
          ds_Profile := bstart;
          ds_Flight := flight;
          ds_File_Name := file_name;
          ds_Observer_Initial := observer;
          ds_Version := version |}.

(** *** [mwr_from_csv], lines 121-145: the per-record-type tables *)

Definition LF : ascii := "010"%char.

(** [re.sub('^[^,]*,[^,]*,', '', line)]: the first two fields and their
    commas are removed; a line with fewer than two commas is left as it
    is. *)
Definition drop_two_fields (line : string) : string :=
  match Py.partition "," line with
  | Some (_, rest) =>
      match Py.partition "," rest with
      | Some (_, rest') => rest'
      | None => line
      end
  | None => line
  end.

(** [re.sub(',.*', '', s)]: from every comma to the end of its line ([.]
    does not match a line feed). *)
Fixpoint cut_from_comma (cutting : bool) (s : string) : string :=
  match s with
  | EmptyString => EmptyString
  | String c s' =>
      if cutting
      then if Ascii.eqb c LF then String c (cut_from_comma false s')
           else cut_from_comma true s'
      else if Ascii.eqb c "," then cut_from_comma true s'
           else String c (cut_from_comma false s')
  end.

(** The type code of a line. *)
Definition line_type (line : string) : option Z :=
  Py.int (cut_from_comma false (drop_two_fields line)).

(** [np.where(flags)[0]]: the positions of the true entries. *)
Fixpoint where_from (i : nat) (flags : list bool) : list nat :=
  match flags with
  | [] => []
  | b :: rest => if b then i :: where_from (S i) rest else where_from (S i) rest
  end.

Definition np_where (flags : list bool) : list nat := where_from 0 flags.

(** A 64-bit signed integer: the value that [z] wraps around to, and
    whether [z] is one. *)
Definition int64 (z : Z) : Z := (z + 2 ^ 63) mod 2 ^ 64 - 2 ^ 63.
Definition fits_int64 (z : Z) : bool := (- 2 ^ 63 <=? z) && (z <? 2 ^ 63).

(** Lines 133-134: [np.array([1, 2, 3, 4])] is an array of 64-bit signed
    integers and [+= t] adds in place: a sum past the last 64-bit integer
    wraps around, and a [t] that is not itself a 64-bit integer cannot be
    added ([OverflowError], [None] here). *)
Definition acceptable_types (t : Z) : option (list Z) :=
  if fits_int64 t then Some ((fun k => int64 (k + t)) <$> [1; 2; 3; 4])
  else None.

(** Lines 135-136: the positions of the lines whose type code is in the
    array.  A type code is a Python integer and is compared by value, so
    one that is no 64-bit integer is in no array. *)
Definition where_is_type (types : list Z) (acceptable : list Z) : list nat :=
  np_where ((fun tm => bool_decide (tm ∈ acceptable)) <$> types).

(** The text handed to the CSV reader: the header line, then the selected
    lines. *)
Definition csv_lines (lines : list string) (types : list Z) (n : nat)
    : option (list string) :=
  t ← types !! n;
  acceptable ← acceptable_types t;
  header ← lines !! n;
  selected ← mapM (fun m => lines !! m) (where_is_type types acceptable);
  Some (header :: selected).

(** One pass of [for n in np.nditer(headers)]. *)
Definition csvs_step `{Pandas} (lines : list string) (types : list Z)
    (csvs : gmap string DataFrame) (n : nat) : option (gmap string DataFrame) :=
  t ← types !! n;
  acceptable ← acceptable_types t;
  if (0 <? length (where_is_type types acceptable))%nat
  then
    text ← csv_lines lines types n;
    df ← read_csv_text (Py.concat text);
    Some (<[Py.str_of_int t := df]> csvs)
  else Some csvs.

Fixpoint csvs_loop `{Pandas} (lines : list string) (types : list Z)
    (csvs : gmap string DataFrame) (headers : list nat)
    : option (gmap string DataFrame) :=
  match headers with
  | [] => Some csvs
  | n :: rest =>
      match csvs_step lines types csvs n with
      | Some csvs' => csvs_loop lines types csvs' rest
      | None => None
      end
  end.

Definition header_positions (lines : list string) : list nat :=
  np_where (Py.startswith "Record" <$> lines).

(** The dictionary [csvs] that [mwr_from_csv] holds when the loop ends.
    [np.nditer] refuses an empty array, so a file without a header line is
    an error. *)
Definition mwr_csvs `{Pandas} (lines : list string)
    : option (gmap string DataFrame) :=
  types ← mapM line_type lines;
  match header_positions lines with
  | [] => None
  | headers => csvs_loop lines types ∅ headers
  end.

(** Lines 147-152: the record names and units, read off the titles of the
    type-100 table. *)

(** [csvs['100']['Title'].values] *)
Definition record_types (csvs : gmap string DataFrame) : option (list string) :=
  df ← csvs !! "100";
  col ← df_get "Title" df;
  str_cells col.

(** [re.split(' \(', record_type)[0]] *)
Definition record_name (record_type : string) : string :=
  default record_type (head (Py.split " (" record_type)).

(** Whether [c] occurs in [s] before the next line feed. *)
Fixpoint line_has (c : ascii) (s : string) : bool :=
  match s with
  | EmptyString => false
  | String d s' =>
      if Ascii.eqb d LF then false
      else if Ascii.eqb d c then true else line_has c s'
  end.

(** [re.sub('.*\(|\).*', '', s)], scanned from the left: a character with
    an opening parenthesis at or after it on its line lies in a match of
    the first alternative; otherwise a closing parenthesis starts a match
    of the second alternative, which runs to the end of the line ([.] does
    not match a line feed). *)
Fixpoint sub_parens (cutting : bool) (s : string) : string :=
  match s with
  | EmptyString => EmptyString
  | String c s' =>
      if Ascii.eqb c LF then String c (sub_parens false s')
      else if cutting then sub_parens true s'
      else if line_has "(" s then sub_parens false s'
      else if Ascii.eqb c ")" then sub_parens true s'
      else String c (sub_parens false s')
  end.

Definition record_unit (record_type : string) : string :=
  sub_parens false record_type.

Definition names (record_types : list string) : list string :=
  record_name <$> record_types.

Definition units (record_types : list string) : list string :=
  record_unit <$> record_types.

(** Lines 150-152: [record_unit_dict[names[n]] = units[n]] for every [n]. *)
Definition record_unit_dict (names units : list string) : gmap string string :=
  fold_left (fun d nu => <[fst nu := snd nu]> d) (zip names units) ∅.

(** The names and the unit dictionary that [mwr_from_csv] holds after line
    152; [None] when a step up to there raises. *)
Definition mwr_units `{Pandas} (lines : list string)
    : option (list string * gmap string string) :=
  csvs ← mwr_csvs lines;
  titles ← record_types csvs;
  Some (names titles, record_unit_dict (names titles) (units titles)).

(** *** [wind_regression] *)

(** numpy's constant and elementary functions. *)
Class Numpy := {
  np_pi : float;
  np_sin : float -> float;
  np_cos : float -> float
}.

Abbreviation vec3 := (float * float * float)%type.

(** [sm.OLS(ymat, xmat, missing='drop').fit()]: the fitted parameters
    [params] and their standard errors [bse], three of each for a design
    matrix of three columns. *)
Class Statsmodels := {
  OLS_fit : list float -> list vec3 -> vec3 * vec3
}.

(** The frame [wdf]: the LOS ID level of its row index, and its columns
    with their labels. *)
Record wind_frame (L : Type) := {
  los : list Z;
  columns : list (L * list float)
}.
Arguments los {L} _.
Arguments columns {L} _.

(** One row of [resultsdf]: columns x, y, z, xse, yse, zse. *)
Record result_row := {
  r_x : float; r_y : float; r_z : float;
  r_xse : float; r_yse : float; r_zse : float
}.

(** [resultsdf]: one row per column label of [wdf], in order.  A row that
    was never assigned holds the missing value in all six cells and is
    [None] here. *)
Abbreviation results L := (list (L * option result_row)).

(** Lines 204-211: the design matrix.  The parameter [elevation] does not
    occur in it. *)
Definition azimuth `{Numpy} (l : Z) : float :=
  fdiv (fmul (float_of_int l) np_pi) (float_of_int 2).

Definition elevation_angle `{Numpy} (l : Z) : float :=
  if l =? 4 then fdiv np_pi (float_of_int 2)
  else fdiv (fmul np_pi (float_of_int 75)) (float_of_int 180).

Definition xmat_row `{Numpy} (l : Z) : vec3 :=
  let az := azimuth l in
  let el := elevation_angle l in
  (fmul (np_sin az) (np_cos el), fmul (np_cos az) (np_cos el), np_sin el).

Definition xmat `{Numpy} (los : list Z) : list vec3 := xmat_row <$> los.

(** [los[notnan]]: the entries of [los] at the true positions of the mask. *)
Fixpoint mask_select {A} (l : list A) (mask : list bool) : list A :=
  match l, mask with
  | a :: l', b :: mask' =>
      if b then a :: mask_select l' mask' else mask_select l' mask'
  | _, _ => []
  end.

(** Lines 217-221: [ymat], and the distinct LOS IDs with a measurement. *)
Definition ymat (col : list float) : list float := fneg <$> col.

Definition uniq_los (los : list Z) (col : list float) : list Z :=
  remove_dups (mask_select los ((fun y => negb (isnan y)) <$> ymat col)).

(** Lines 223-228: the two [continue] branches. *)
Definition skipped (los : list Z) (col : list float) : bool :=
  let u := uniq_los los col in
  let n_uniq_los := length u in
  if (n_uniq_los <? 3)%nat then true
  else if (n_uniq_los =? 3)%nat then
    (bool_decide (0 ∉ u) && bool_decide (2 ∉ u))
    || (bool_decide (1 ∉ u) && bool_decide (3 ∉ u))
  else false.

(** Line 239 on one component. *)
Definition gate (max_se coef se : float) : float :=
  if fgt se max_se || negb (isfinite se) then nan else coef.

(** Lines 231-240: [df_data] for one column. *)
Definition df_data `{Numpy} `{Statsmodels} (los : list Z) (max_se : float)
    (col : list float) : result_row :=
  let '((cx, cy, cz), (sx, sy, sz)) := OLS_fit (ymat col) (xmat los) in
  {| r_x := gate max_se cx sx; r_y := gate max_se cy sy;
     r_z := gate max_se cz sz;
     r_xse := sx; r_yse := sy; r_zse := sz |}.

Section WindRegression.
Context {L : Type} `{EqDecision L} `{Numpy} `{Statsmodels}.

(** [resultsdf.loc[label, :] = row]: every row carrying the label is
    assigned. *)
Definition loc_set (label : L) (row : result_row) (df : results L)
    : results L :=
  (fun kr => if decide (fst kr = label) then (fst kr, Some row) else kr) <$> df.

(** One pass of [for n in range(ncols)]. *)
Definition regression_step (los : list Z) (max_se : float)
    (resultsdf : results L) (col : L * list float) : results L :=
  if skipped los (snd col) then resultsdf
  else loc_set (fst col) (df_data los max_se (snd col)) resultsdf.

(** [wind_regression(wdf, elevation=75, max_se=1)] *)
Definition wind_regression (wdf : wind_frame L) (elevation max_se : float)
    : results L :=
  let resultsdf := (fun col => (fst col, None)) <$> columns wdf in
  fold_left (regression_step (los wdf) max_se) (columns wdf) resultsdf.

End WindRegression.

(** *** [lidar_from_csv] *)

(** A (Time x Range) array, row by row. *)
Abbreviation grid := (list (list float)).

(** A timestamp column as [pd.read_csv] types it.  [stamp] is the type of
    its cells: text for a column of dtype object, integers for a column of
    digits.  [stamp_le] is the order in which pandas sorts labels of this
    type (the order of the text for text, of the numbers for integers),
    and [stamp_to_datetime] is [pd.to_datetime] on one cell. *)
Class TimestampColumn (stamp : Type) := {
  stamp_eq_dec :: EqDecision stamp;
  stamp_le : relation stamp;
  stamp_le_dec :: RelDecision stamp_le;
  stamp_le_po :: PartialOrder stamp_le;
  stamp_le_total :: Total stamp_le;
  stamp_to_datetime : stamp -> option Z
}.

(** A column of dtype object, its cells compared as Python compares
    [str]. *)
#[export] Instance text_column `{Pandas} : TimestampColumn string :=
  {| stamp_le := String.le; stamp_to_datetime := to_datetime |}.

(** One row of the radial wind CSV.  Of the measurement columns the three
    that the importer requires are kept; the optional ones are pivoted in
    the same way. *)
Record lidar_row (stamp : Type) := {
  Timestamp : stamp;
  Range_m : Z;
  RWS_ms : float;
  DRWS_ms : float;
  CNR_db : float
}.
Arguments Timestamp {stamp} _.
Arguments Range_m {stamp} _.
Arguments RWS_ms {stamp} _.
Arguments DRWS_ms {stamp} _.
Arguments CNR_db {stamp} _.

(** One row of the wind CSV. *)
Record wind_row (stamp : Type) := {
  w_TimeStamp : stamp;
  w_Range_m : Z;
  X_Wind_Speed : float;
  Y_Wind_Speed : float;
  Z_Wind_Speed : float
}.
Arguments w_TimeStamp {stamp} _.
Arguments w_Range_m {stamp} _.
Arguments X_Wind_Speed {stamp} _.
Arguments Y_Wind_Speed {stamp} _.
Arguments Z_Wind_Speed {stamp} _.

Section Pivot.
Context {K : Type} `{EqDecision K} (le : relation K) `{!RelDecision le}.

(** The row labels (or column labels) of a pivot table: the distinct keys
    in increasing order. *)
Definition axis (keys : list K) : list K := merge_sort le (remove_dups keys).

(** The cell of a pivot table at labels [(t, r)]: the value of the entry
    with these labels, the missing value when there is none. *)
Definition pivot_cell (entries : list (K * Z * float)) (t : K) (r : Z)
    : float :=
  match list_find (fun e => e.1 = (t, r)) entries with
  | Some (_, e) => e.2
  | None => nan
  end.

Definition pivot_values (index : list K) (cols : list Z)
    (entries : list (K * Z * float)) : grid :=
  (fun t => (fun r => pivot_cell entries t r) <$> cols) <$> index.

End Pivot.

(** [DataFrame.pivot] raises when an (index, column) pair occurs twice. *)
Definition pivot_keys_ok {K} `{EqDecision K} (keys : list (K * Z)) : bool :=
  bool_decide (NoDup keys).

(** [np.searchsorted(a, v)] (left side) on a sorted array [a]: for every
    element of [v], the number of elements of [a] below it. *)
Definition searchsorted (a v : list Z) : list nat :=
  (fun x => length (filter (fun y => y < x) a)) <$> v.

(** An index along one dimension: an integer, an integer array, or the
    full slice. *)
Inductive indexer :=
| At (i : nat)
| Take (idx : list nat)
| Full.

(** [key.get(dim, slice(None))] *)
Fixpoint key_get (dim : string) (key : list (string * indexer)) : indexer :=
  match key with
  | [] => Full
  | (k, ix) :: rest => if String.eqb k dim then ix else key_get dim rest
  end.

(** How xarray reads a dictionary key on an array with dimensions [dims]:
    each dimension of the array takes its entry of the dictionary, or the
    full slice when the dictionary has none. *)
Definition key_to_tuple (dims : list string) (key : list (string * indexer))
    : list indexer :=
  (fun d => key_get d key) <$> dims.

Definition positions (ix : indexer) (size : nat) : list nat :=
  match ix with
  | At i => [i]
  | Take idx => idx
  | Full => seq 0 size
  end.

(** numpy broadcasting of a list to length [n]: equal length, or length
    one. *)
Definition broadcast {A} (n : nat) (l : list A) : option (list A) :=
  if decide (length l = n) then Some l
  else match l with
       | [x] => Some (replicate n x)
       | _ => None
       end.

(** [a[i] = x]; [IndexError] when out of range. *)
Definition set_at {A} (i : nat) (x : A) (a : list A) : option (list A) :=
  if decide (i < length a)%nat then Some (<[i := x]> a) else None.

Fixpoint set_row (cols : list nat) (vals : list float) (row : list float)
    : option (list float) :=
  match cols, vals with
  | c :: cols', x :: vals' => set_at c x row ≫= set_row cols' vals'
  | _, _ => Some row
  end.

Fixpoint set_block (rows cols : list nat) (value : grid) (a : grid)
    : option grid :=
  match rows, value with
  | r :: rows', vals :: value' =>
      old ← a !! r;
      new ← set_row cols vals old;
      set_block rows' cols value' (<[r := new]> a)
  | _, _ => Some a
  end.

(** [arr[key] = value] for a three-dimensional array and a two-dimensional
    value, the first dimension indexed by an integer (orthogonal
    indexing). *)
Definition setitem (dims : list string) (arr : list grid)
    (key : list (string * indexer)) (value : grid) : option (list grid) :=
  match key_to_tuple dims key with
  | [At c; tsel; rsel] =>
      a ← arr !! c;
      let rows := positions tsel (length a) in
      let cols := positions rsel (length (default [] (head a))) in
      value ← broadcast (length rows) value;
      value ← mapM (broadcast (length cols)) value;
      new ← set_block rows cols value a;
      Some (<[c := new]> arr)
  | _ => None
  end.

Definition gneg (g : grid) : grid :=
  (fun row : list float => fneg <$> row) <$> g.

Record lidar_dataset := {
  Time : list Z;
  Range : list Z;
  RWS : grid;
  DRWS : grid;
  CNR : grid;
  Windspeed : option (list grid)
}.

(** The dimensions of [Windspeed], line 104, after the renaming of line 58. *)
Definition wspeed_dims : list string := ["Component"; "Time"; "Range"].

(** Lines 87-109: the [Windspeed] array.  A pivot table has no columns
    when the frame has no rows; reading a block of it by its name then
    raises [KeyError]. *)
Definition merge_wind {W} `{TimestampColumn W} (time_coord range_coord : list Z)
    (wind_csv : list (wind_row W)) : option (list grid) :=
  stamps ← mapM (fun w => stamp_to_datetime (w_TimeStamp w)) wind_csv;
  let keys := zip stamps (w_Range_m <$> wind_csv) in
  if pivot_keys_ok keys then
    let index := axis Z.le stamps in
    let cols := axis Z.le (w_Range_m <$> wind_csv) in
    let wind_small f := pivot_values index cols (zip keys (f <$> wind_csv)) in
    let row_indices := searchsorted time_coord index in
    let col_indices := searchsorted range_coord cols in
    let full := replicate 3 (replicate (length time_coord)
                               (replicate (length range_coord) nan)) in
    let key c := [("Component", At c); ("Range", Take col_indices);
                  ("Timestamp", Take row_indices)] in
    if decide (cols = []) then None
    else
      w ← setitem wspeed_dims full (key 0%nat)
            (gneg (wind_small Y_Wind_Speed));
      w ← setitem wspeed_dims w (key 1%nat) (gneg (wind_small X_Wind_Speed));
      setitem wspeed_dims w (key 2%nat) (gneg (wind_small Z_Wind_Speed))
  else None.

(** Lines 36-47: the attributes of the dataset.  [scan_info] is the
    attribute dictionary of the scan element when a scan file is given;
    its keys get the prefix [scan_] and the result is written over the
    attributes of the caller. *)
Definition scan_prefix (scan_info : gmap string string) : gmap string string :=
  list_to_map ((fun kv => ("scan_" +:+ fst kv, snd kv))
                 <$> map_to_list scan_info).

Definition lidar_attrs (scan_info attrs : option (gmap string string))
    : option (gmap string string) :=
  match scan_info with
  | Some info =>
      match attrs with
      | None => Some (scan_prefix info)
      | Some attrs => Some (scan_prefix info ∪ attrs)
      end
  | None => attrs
  end.

(** [lidar_from_csv(rws, wind=wind)], with the two CSV files as the rows
    that [pd.read_csv] returns for them.  The pivot table of a CSV without
    rows has no columns, and line 55 raises [KeyError] on it. *)
Definition lidar_from_csv {T W} `{TimestampColumn T} `{TimestampColumn W}
    (csv : list (lidar_row T)) (wind : option (list (wind_row W)))
    : option lidar_dataset :=
  let keys := (fun r => (Timestamp r, Range_m r)) <$> csv in
  if pivot_keys_ok keys then
    let index := axis stamp_le (Timestamp <$> csv) in
    let cols := axis Z.le (Range_m <$> csv) in
    let data f := pivot_values index cols (zip keys (f <$> csv)) in
    time_coord ← mapM stamp_to_datetime index;
    if decide (cols = []) then None
    else
      wspeed ← match wind with
               | Some wind_csv => Some <$> merge_wind time_coord cols wind_csv
               | None => Some None
               end;
      Some {| Time := time_coord; Range := cols;
              RWS := data RWS_ms; DRWS := data DRWS_ms; CNR := data CNR_db;
              Windspeed := wspeed |}
  else None.

End Misc.

(** * Vocabulary of the properties *)

Module Spec.
Import Misc.

(** LOS ID [l] has a measurement in the column: some row of the frame
    carries [l] and holds a number that is not NaN. *)
Definition has_measurement (los : list Z) (col : list float) (l : Z) : Prop :=
  exists i v, los !! i = Some l /\ col !! i = Some v /\ isnan v = false.

(** [ids] lists, without repetition, the LOS IDs with a measurement. *)
Definition distinct_los (los : list Z) (col : list float) (ids : list Z)
    : Prop :=
  NoDup ids /\ forall l, l ∈ ids <-> has_measurement los col l.

(** Fewer than three lines of sight, or three that miss both members of
    an opposite pair. *)
Definition too_few_or_degenerate (ids : list Z) : Prop :=
  (length ids < 3)%nat \/
  (length ids = 3%nat /\ (((0 ∉ ids) /\ (2 ∉ ids)) \/ ((1 ∉ ids) /\ (3 ∉ ids)))).

(** [b] is the text of [s] before the leftmost occurrence of [sep], [a] the
    text after that occurrence. *)
Definition cut_at (sep s b a : string) : Prop :=
  s = b +:+ sep +:+ a /\
  forall b' a', s = b' +:+ sep +:+ a' ->
                (String.length b <= String.length b')%nat.

(** [v] is [s] up to its first [sep], all of [s] when it has none. *)
Definition up_to (sep s v : string) : Prop :=
  (exists a, cut_at sep s v a) \/
  ((forall b a, s <> b +:+ sep +:+ a) /\ v = s).

(** A header line read as one pair: the key is the text before the first
    [" : "], stripped of whitespace; the value is the text after it, up to
    the next [" : "]. *)
Definition key_value (line key value : string) : Prop :=
  exists k rest,
    cut_at " : " line k rest /\ key = Py.strip k /\ up_to " : " rest value.

(** The pair that one pass of the metadata loop stores. *)
Definition header_pair (line : string) : option (string * string) :=
  match Py.split " : " line with
  | k :: v :: _ => Some (Py.strip k, v)
  | _ => None
  end.

(** The value that the metadata loop leaves under a key: the one of the
    last line with this key. *)
Fixpoint last_value (key : string) (lines : list string)
    (init : option string) : option string :=
  match lines with
  | [] => init
  | l :: rest =>
      last_value key rest
        (match header_pair l with
         | Some (k, v) => if decide (k = key) then Some v else init
         | None => init
         end)
  end.

(** The character [c] does not occur in [s]. *)
Definition no_char (c : ascii) (s : string) : Prop :=
  forall b a, s <> b +:+ String c a.




(** The lines whose type code is in the list [codes], in file order. *)
Definition lines_of_codes (lines : list string) (types : list Z)
    (codes : list Z) : list string :=
  (filter (fun lt : string * Z => lt.2 ∈ codes) (zip lines types)).*1.

(** A header of type code [t] selects the type code [x]: [x] is a 64-bit
    signed integer and differs from one of [t+1 .. t+4] by a multiple of
    2^64. *)
Definition selects (t x : Z) : Prop :=
  - 2 ^ 63 <= x < 2 ^ 63 /\
  Exists (fun k => (x - (t + k)) mod 2 ^ 64 = 0) [1; 2; 3; 4].

#[global] Instance selects_dec (t x : Z) : Decision (selects t x).
Proof. unfold selects. apply _. Defined.

(** The lines that a header of type code [t] selects, in file order. *)
Definition lines_selected (lines : list string) (types : list Z) (t : Z)
    : list string :=
  (filter (fun lt : string * Z => selects t lt.2) (zip lines types)).*1.

(** Position [n] holds a header line. *)
Definition header_at (lines : list string) (n : nat) : Prop :=
  exists header, lines !! n = Some header /\
                 Py.startswith "Record" header = true.

(** A list of timestamps that never goes down. *)
Definition non_decreasing (l : list Z) : Prop :=
  forall i j a b, (i <= j)%nat -> l !! i = Some a -> l !! j = Some b -> a <= b.


(** A standard error that fails the quality gate: above the threshold, or
    not finite. *)
Definition rejected (max_se se : float) : Prop :=
  fgt se max_se = true \/ isfinite se = false.

(** The returned coefficient [x] of a component fitted as [coef] with
    standard error [se]. *)
Definition gated_as (max_se coef se x : float) : Prop :=
  (rejected max_se se -> x = nan) /\ (~ rejected max_se se -> x = coef).

(** The row that the loop leaves under a label: every pass over a fitted
    column with this label overwrites it. *)
Fixpoint final_row `{Numpy} `{Statsmodels} {L} `{EqDecision L}
    (los : list Z) (max_se : float) (cols : list (L * list float))
    (label : L) (row : option result_row) : option result_row :=
  match cols with
  | [] => row
  | col :: rest =>
      final_row los max_se rest label
        (if decide (fst col = label)
         then if skipped los (snd col) then row
              else Some (df_data los max_se (snd col))
         else row)
  end.

(** The header keys that [weather_balloon] looks up. *)
Definition required_keys : list string :=
  [ "Flight"; "Station Name (WMO #)"; "Station Height"; "Station Latitude";
    "Station Longitude"; "File Name"; "Observer Initial"; "Version #" ].

(** The standard-error columns of a result frame, with its labels. *)
Definition standard_errors {L} (df : Misc.results L)
    : list (L * option (Misc.float * Misc.float * Misc.float)) :=
  (fun kr : L * option Misc.result_row =>
     (fst kr,
      (fun r => (Misc.r_xse r, Misc.r_yse r, Misc.r_zse r)) <$> snd kr))
    <$> df.

End Spec.

(** * Sample implementations of the library operations

    Stand-ins for evaluating the functions on concrete inputs. *)

Module Sample.
Import Misc.

Definition f (n : Z) : float := float_of_int n.

(** The binary64 value nearest to pi. *)
Definition pi64 : float := S754_finite false 7074237752028440 (-51).

(** Low-order Taylor polynomials. *)
Definition sin3 (x : float) : float :=
  fsub x (fdiv (fmul x (fmul x x)) (f 6)).
Definition cos2 (x : float) : float :=
  fsub (f 1) (fdiv (fmul x x) (f 2)).

#[export] Instance numpy : Numpy :=
  {| np_pi := pi64; np_sin := sin3; np_cos := cos2 |}.

(** A solver that reports the first three observations as parameters and
    their magnitudes as standard errors. *)
Definition first3 (y : list float) : vec3 :=
  match filter (fun v => isnan v = false) y with
  | a :: b :: c :: _ => (a, b, c)
  | _ => (nan, nan, nan)
  end.

#[export] Instance statsmodels : Statsmodels :=
  {| OLS_fit y _ := let '(a, b, c) := first3 y in
                    ((a, b, c), (SFabs a, SFabs b, SFabs c)) |}.

(** Timestamps written as seconds since the epoch; a CSV text kept as one
    text cell. *)
#[export] Instance pandas : Pandas :=
  {| to_datetime := Py.int;
     read_csv_text s := Some [("text", StrCol [s])] |}.

(** A balloon file: eight header lines, the blank line, then data lines. *)
Definition header : list string :=
  (fun l => l +:+ CRLF) <$>
  [ "Flight           : OKX, 86400, 90000";
    "Station Name (WMO #) : Upton";
    "Station Height   : 20";
    "Station Latitude : 40.87";
    "Station Longitude : -72.86";
    "File Name        : FLT";
    "Observer Initial : ab";
    "Version #        : 1";
    EmptyString ].

Definition flight_a : list string := header ++ ["23:59:58;0.0" +:+ CRLF].
Definition flight_b : list string := header ++ ["00:00:07;9.5" +:+ CRLF].

(** The other columns that the importer turns into coordinates, for a
    table of [n] rows. *)
Definition coordinate_columns (n : nat) : DataFrame :=
  (fun name => (name, NumCol (replicate n (f 0)))) <$>
  [ "Geopotential Height"; "Corrected Elevation"; "Latitude"; "Longitude";
    "Geometric Height" ].

(** A flight over midnight. *)
Definition frame_midnight : DataFrame :=
  [ ("Time Stamp", StrCol ["23:59:58"; "23:59:59"; "00:00:00"]);
    ("Elapsed Time", NumCol [f 0; f 1; f 2]);
    ("Pressure", NumCol [f 1000; f 999; f 998]) ] ++ coordinate_columns 3.


Definition files (data : DataFrame) : FileSystem :=
  {| readlines path :=
       if String.eqb path "a.txt" then Some flight_a
       else if String.eqb path "b.txt" then Some flight_b
       else None;
     read_csv path sep skiprows :=
       if String.eqb path balloon_path then Some data else None |}.

(** A radiometer dump: two header lines, each followed by one record. *)
Definition mwr_lines : list string :=
  (fun l => l +:+ String LF EmptyString) <$>
  [ "Record,Date/Time,100,Title";
    "1,01/01/17 00:00:00,101,Temperature (K)";
    "Record,Date/Time,400,LV2 Processor,0.00";
    "2,01/01/17 00:00:05,401,Zenith,280.1" ].

(** A timestamp column of digits: [pd.read_csv] reads integers, pandas
    sorts them as numbers, and [pd.to_datetime] takes an integer as a time
    counted from the epoch. *)
#[export] Instance integer_column : TimestampColumn Z :=
  {| stamp_le := Z.le; stamp_to_datetime := Some |}.

(** A lidar file of two profiles at one range gate, and a wind file with
    one row, for the second profile. *)
Definition lidar2 : list (lidar_row Z) :=
  [ {| Timestamp := 100; Range_m := 50;
       RWS_ms := f 1; DRWS_ms := f 0; CNR_db := f (-20) |};
    {| Timestamp := 200; Range_m := 50;
       RWS_ms := f 2; DRWS_ms := f 0; CNR_db := f (-21) |} ].

Definition wind1 : list (wind_row Z) :=
  [ {| w_TimeStamp := 200; w_Range_m := 50;
       X_Wind_Speed := f 3; Y_Wind_Speed := f 4; Z_Wind_Speed := f 5 |} ].

(** A frame of three lines of sight and two range bins: the bin at 100 m
    has all three measurements, the bin at 125 m only one. *)
Definition wdf3 : wind_frame Z :=
  {| los := [0; 1; 2];
     columns := [(100, [f 1; f (-2); f 3]); (125, [nan; f 4; nan])] |}.

(** Two columns under one label: the first has four lines of sight, the
    second only one. *)
Definition wdf_repeated : wind_frame Z :=
  {| los := [0; 1; 2; 3];
     columns := [(100, [f 1; f 2; f 3; f 4]); (100, [nan; f 4; nan; nan])] |}.

(** Two columns under one label, both with four lines of sight. *)
Definition wdf_repeated4 : wind_frame Z :=
  {| los := [0; 1; 2; 3];
     columns := [(100, [f 1; f 2; f 3; f 4]); (100, [f 2; f 4; f 6; f 8])] |}.

(** A flight within one day. *)
Definition frame_day : DataFrame :=
  [ ("Time Stamp", StrCol ["10:00:00"; "10:00:01"; "10:00:01"]);
    ("Elapsed Time", NumCol [f 0; f 1; f 1]);
    ("Pressure", NumCol [f 1000; f 999; f 999]) ] ++ coordinate_columns 3.

(** Balloon files that the importer rejects: one without a blank line, one
    with a header line that has no separator, one without a Flight line. *)
Definition rejected_files : FileSystem :=
  {| readlines path :=
       if String.eqb path "noblank.txt"
       then Some ["Flight : OKX, 86400, 90000" +:+ CRLF]
       else if String.eqb path "nosep.txt"
       then Some ["Flight" +:+ CRLF; CRLF]
       else if String.eqb path "nokey.txt"
       then Some ["Station Name (WMO #) : Upton" +:+ CRLF; CRLF]
       else None;
     read_csv path sep skiprows :=
       if String.eqb path balloon_path then Some frame_day else None |}.

(** A frame with two lines of sight only. *)
Definition wdf_two : wind_frame Z :=
  {| los := [0; 1; 0; 1];
     columns := [(100, [f 1; f 2; f 3; f 4]); (125, [f 2; f 4; f 6; f 8])] |}.


(** A radiometer dump without the table of record titles. *)
Definition mwr_lines_400 : list string :=
  (fun l => l +:+ String LF EmptyString) <$>
  [ "Record,Date/Time,400,LV2 Processor,0.00";
    "2,01/01/17 00:00:05,401,Zenith,280.1" ].

(** Two profiles, at 10 and at 9, in this order, at two range gates. *)
Definition lidar_10_9 : list (lidar_row Z) :=
  [ {| Timestamp := 10; Range_m := 75;
       RWS_ms := f 1; DRWS_ms := f 0; CNR_db := f (-20) |};
    {| Timestamp := 9; Range_m := 50;
       RWS_ms := f 2; DRWS_ms := f 0; CNR_db := f (-21) |} ].

(** The two profiles of [lidar2], the later one first. *)
Definition lidar2_reversed : list (lidar_row Z) := reverse lidar2.

End Sample.

(** * Properties *)

(** ** Strings *)

Lemma append_empty_r (s : string) : s +:+ EmptyString = s.
Proof. induction s as [|c s IH]; [done|]. unfold String.app in *. simpl. by rewrite IH. Qed.

Lemma append_assoc (s t u : string) : (s +:+ t) +:+ u = s +:+ t +:+ u.
Proof. induction s as [|c s IH]; [done|]. unfold String.app in *. simpl. by rewrite IH. Qed.

Lemma append_cons (c : ascii) (s t : string) : String c s +:+ t = String c (s +:+ t).
Proof. done. Qed.

Lemma append_length (s t : string) :
  String.length (s +:+ t) = (String.length s + String.length t)%nat.
Proof. induction s as [|c s IH]; [done|]. rewrite append_cons. simpl. by rewrite IH. Qed.

Lemma prefix_spec (p s : string) :
  String.prefix p s = true <-> exists r, s = p +:+ r.
Proof.
  revert s. induction p as [|c p IH]; intros s.
  - split; [intros _; by exists s|]. intros _. by destruct s.
  - destruct s as [|d s]; simpl.
    + split; [done|]. intros [r Hr]. done.
    + destruct (ascii_dec c d) as [->|Hne].
      * rewrite IH. split; intros [r Hr]; exists r.
        -- by rewrite append_cons, <- Hr.
        -- rewrite append_cons in Hr. by injection Hr.
      * split; [done|]. intros [r Hr]. rewrite append_cons in Hr.
        injection Hr as ? ?. congruence.
Qed.

Lemma str_drop_app (p r : string) : Py.str_drop (String.length p) (p +:+ r) = r.
Proof. induction p as [|c p IH]; [by destruct r|]. by rewrite append_cons. Qed.

Lemma partition_unfold (sep s : string) :
  Py.partition sep s =
    if String.prefix sep s
    then Some (EmptyString, Py.str_drop (String.length sep) s)
    else match s with
         | EmptyString => None
         | String c s' =>
             match Py.partition sep s' with
             | Some (b, a) => Some (String c b, a)
             | None => None
             end
         end.
Proof. by destruct s. Qed.

Lemma prefix_drop (sep s : string) :
  String.prefix sep s = true -> s = sep +:+ Py.str_drop (String.length sep) s.
Proof. intros [r ->]%prefix_spec. by rewrite str_drop_app. Qed.

Lemma partition_Some (sep s b a : string) :
  Py.partition sep s = Some (b, a) -> s = b +:+ sep +:+ a.
Proof.
  revert b. induction s as [|c s IH]; intros b; rewrite partition_unfold;
    destruct (String.prefix sep _) eqn:Hp; try done.
  - intros [= <- <-]. by apply prefix_drop.
  - intros [= <- <-]. by apply prefix_drop.
  - destruct (Py.partition sep s) as [[b' a']|] eqn:Hs; [|done].
    intros [= <- <-]. rewrite append_cons. f_equal. by apply IH.
Qed.

(** The cut is at the leftmost occurrence. *)
Lemma partition_leftmost (sep s b a b' a' : string) :
  Py.partition sep s = Some (b, a) -> s = b' +:+ sep +:+ a' ->
  (String.length b <= String.length b')%nat.
Proof.
  revert b b'. induction s as [|c s IH]; intros b b'; rewrite partition_unfold;
    destruct (String.prefix sep _) eqn:Hp; try done.
  - intros [= <- <-] _. simpl. lia.
  - intros [= <- <-] _. simpl. lia.
  - destruct (Py.partition sep s) as [[b0 a0]|] eqn:Hs; [|done].
    intros [= <- <-] Heq. destruct b' as [|d b'].
    + exfalso. assert (String.prefix sep (String c s) = true); [|congruence].
      apply prefix_spec. by exists a'.
    + rewrite append_cons in Heq. injection Heq as -> Heq.
      simpl. apply le_n_S. by eapply IH.
Qed.

Lemma partition_None (sep s b a : string) :
  Py.partition sep s = None -> s <> b +:+ sep +:+ a.
Proof.
  revert b. induction s as [|c s IH]; intros b; rewrite partition_unfold;
    destruct (String.prefix sep _) eqn:Hp; try done.
  - intros _ Heq. assert (String.prefix sep EmptyString = true); [|congruence].
    apply prefix_spec. destruct b; [by exists a|done].
  - destruct (Py.partition sep s) as [[b0 a0]|] eqn:Hs; [done|].
    intros _ Heq. destruct b as [|d b].
    + assert (String.prefix sep (String c s) = true); [|congruence].
      apply prefix_spec. by exists a.
    + rewrite append_cons in Heq. injection Heq as -> Heq. by eapply IH.
Qed.

Lemma partition_shorter (sep s b a : string) :
  sep <> EmptyString -> Py.partition sep s = Some (b, a) ->
  (String.length a < String.length s)%nat.
Proof.
  intros Hsep Hp. apply partition_Some in Hp as ->.
  rewrite !append_length. destruct sep; [done|]. simpl. lia.
Qed.

Lemma split_fuel_enough (sep : string) (n m : nat) (s : string) :
  sep <> EmptyString ->
  (String.length s <= n)%nat -> (String.length s <= m)%nat ->
  Py.split_fuel n sep s = Py.split_fuel m sep s.
Proof.
  intros Hsep. revert m s. induction n as [|n IH]; intros m s Hn Hm.
  - destruct s; [|simpl in Hn; lia]. destruct m; [done|]. simpl.
    destruct sep; done.
  - destruct m as [|m].
    + destruct s; [|simpl in Hm; lia]. simpl. destruct sep; done.
    + simpl. destruct (Py.partition sep s) as [[b a]|] eqn:Hp; [|done].
      f_equal. pose proof (partition_shorter _ _ _ _ Hsep Hp).
      apply IH; lia.
Qed.

(** [split] cuts at the leftmost occurrence and goes on with the rest. *)
Lemma split_unfold (sep s : string) :
  sep <> EmptyString ->
  Py.split sep s =
    match Py.partition sep s with
    | None => [s]
    | Some (b, a) => b :: Py.split sep a
    end.
Proof.
  intros Hsep. unfold Py.split.
  destruct (String.length s) as [|n] eqn:Hlen.
  - destruct s; [|done]. simpl. destruct sep; done.
  - simpl. destruct (Py.partition sep s) as [[b a]|] eqn:Hp; [|done].
    f_equal. pose proof (partition_shorter _ _ _ _ Hsep Hp).
    apply split_fuel_enough; [done|lia..].
Qed.

(** Joining the parts with the separator gives the string back. *)
Lemma join_split (sep s : string) :
  sep <> EmptyString -> Py.join sep (Py.split sep s) = s.
Proof.
  intros Hsep. remember (String.length s) as n eqn:Hn.
  revert s Hn. induction (lt_wf n) as [n _ IH]; intros s ->.
  rewrite split_unfold by done.
  destruct (Py.partition sep s) as [[b a]|] eqn:Hp; [|done].
  pose proof (partition_shorter _ _ _ _ Hsep Hp) as Hlt.
  pose proof (IH _ Hlt a eq_refl) as IHa.
  apply partition_Some in Hp as ->.
  change (Py.join sep (b :: Py.split sep a)) with
    (match Py.split sep a with
     | [] => b
     | _ :: _ => b +:+ sep +:+ Py.join sep (Py.split sep a)
     end).
  rewrite IHa. rewrite (split_unfold sep a) by done.
  by destruct (Py.partition sep a) as [[? ?]|].
Qed.

Lemma no_char_nil (c : ascii) : Spec.no_char c EmptyString.
Proof. intros [|e b] a'; done. Qed.

Lemma no_char_cons (c d : ascii) (s : string) :
  Spec.no_char c (String d s) <-> d <> c /\ Spec.no_char c s.
Proof.
  split.
  - intros Hno. split.
    + intros ->. by apply (Hno EmptyString s).
    + intros b a ->. by apply (Hno (String d b) a).
  - intros [Hne Hno] [|e b] a; rewrite ?append_cons; intros [= ? ?];
      [done|by eapply Hno].
Qed.

Lemma no_char_app (c : ascii) (s t : string) :
  Spec.no_char c (s +:+ t) <-> Spec.no_char c s /\ Spec.no_char c t.
Proof.
  induction s as [|d s IH].
  - split; [intros ?; split; [apply no_char_nil|done]|by intros [_ ?]].
  - rewrite append_cons, !no_char_cons, IH. tauto.
Qed.

Lemma partition_no_char (c : ascii) (field rest : string) :
  Spec.no_char c field ->
  Py.partition (String c EmptyString) (field +:+ String c rest) =
    Some (field, rest).
Proof.
  induction field as [|d field IH]; intros Hno.
  - rewrite partition_unfold. simpl.
    destruct (ascii_dec c c); [|done]. by destruct rest.
  - apply no_char_cons in Hno as [Hne Hno].
    rewrite partition_unfold, append_cons. simpl.
    destruct (ascii_dec c d); [congruence|]. by rewrite IH.
Qed.

Lemma partition_absent (c : ascii) (s : string) :
  Spec.no_char c s -> Py.partition (String c EmptyString) s = None.
Proof.
  induction s as [|d s IH]; intros Hno; [done|].
  apply no_char_cons in Hno as [Hne Hno].
  rewrite partition_unfold. simpl.
  destruct (ascii_dec c d); [congruence|]. by rewrite IH.
Qed.

(** ** The decoder wrapper *)

(** A plain directory name is printed by [Path] as it is. *)
Lemma str_Path_plain (d : string) :
  Spec.no_char "/" d -> d <> EmptyString -> d <> "." -> Rrs.str_Path d = d.
Proof.
  intros Hno Hne Hdot. unfold Rrs.str_Path.
  rewrite split_unfold by done. rewrite (partition_absent "/" d Hno).
  assert (Rrs.path_part d = true) as Hpart.
  { unfold Rrs.path_part.
    destruct (String.eqb_spec d EmptyString); [done|].
    by destruct (String.eqb_spec d "."). }
  rewrite filter_cons_True by by rewrite Hpart.
  rewrite filter_nil. simpl.
  destruct d as [|c d]; [done|].
  apply no_char_cons in Hno as [Hc _].
  unfold Rrs.path_root.
  destruct (Ascii.eqb_spec c "/") as [->|Hne']; [done|].
  destruct c as [[] [] [] [] [] [] [] []]; try done.
Qed.

(** C7, as amended: [decode_rrs] appends exactly one call to the log; the
    call carries [bufrin] and [outputs] as they were given, and as output
    directory the printed form of [Path(outdir)] followed by a slash: for
    a plain directory name, the name and a slash. *)
Theorem decode_rrs_one_call (bufrin outputs outdir : string)
    (log : list Rrs.decoder_call) :
  exists out,
    Rrs.decode_rrs bufrin outputs outdir log =
      log ++ [Rrs.DecoderCall bufrin outputs out] /\
    out = Rrs.str_Path outdir +:+ "/" /\
    (Spec.no_char "/" outdir -> outdir <> EmptyString -> outdir <> "." ->
     out = outdir +:+ "/").
Proof.
  exists (Rrs.str_Path outdir +:+ "/"). split_and!; [done..|].
  intros Hno Hne Hdot. by rewrite str_Path_plain.
Qed.

Lemma decode_rrs_one_call_witness :
  exists out,
    Rrs.decode_rrs "flight.bufr" "1" "out" [] =
      [] ++ [Rrs.DecoderCall "flight.bufr" "1" out] /\
    out = Rrs.str_Path "out" +:+ "/" /\
    (Spec.no_char "/" "out" -> "out" <> EmptyString -> "out" <> "." ->
     out = "out" +:+ "/").
Proof. exact (decode_rrs_one_call "flight.bufr" "1" "out" []). Defined.

(** C7 as stated fails: called with the default output directory, the
    wrapper hands the decoder the directory [./], not the empty string it
    was given. *)
Lemma decode_rrs_outdir_modified :
  Rrs.decode_rrs "flight.bufr" "1" Rrs.default_outdir [] =
    [Rrs.DecoderCall "flight.bufr" "1" "./"] /\
  Rrs.decode_rrs "flight.bufr" "1" Rrs.default_outdir [] <>
    [Rrs.DecoderCall "flight.bufr" "1" Rrs.default_outdir].
Proof. split; [reflexivity|discriminate]. Qed.

(** ** Wind regression *)

Section WindRegressionFacts.
Import Misc Spec.
Context {L : Type} `{EqDecision L} `{Numpy} `{Statsmodels}.

Lemma isnan_fneg (x : float) : isnan (fneg x) = isnan x.
Proof. by destruct x. Qed.

Lemma mask_select_elem {A} (l : list A) (mask : list bool) (x : A) :
  x ∈ mask_select l mask <->
  exists i, l !! i = Some x /\ mask !! i = Some true.
Proof.
  revert mask. induction l as [|a l IH]; intros [|b mask]; simpl.
  - rewrite elem_of_nil. split; [done|]. by intros [i [? _]].
  - rewrite elem_of_nil. split; [done|]. by intros [i [? _]].
  - rewrite elem_of_nil. split; [done|]. by intros [i [_ ?]].
  - destruct b.
    + rewrite elem_of_cons, IH. split.
      * intros [->|[i Hi]]; [by exists 0%nat|by exists (S i)].
      * intros [[|i] [Hl Hm]]; simplify_eq/=; [by left|right; eauto].
    + rewrite IH. split.
      * intros [i Hi]. by exists (S i).
      * intros [[|i] [Hl Hm]]; simplify_eq/=. eauto.
Qed.

Lemma uniq_los_spec (los : list Z) (col : list float) :
  distinct_los los col (uniq_los los col).
Proof.
  split; [apply NoDup_remove_dups|].
  intros l. unfold uniq_los, ymat, has_measurement.
  rewrite elem_of_remove_dups, mask_select_elem.
  split.
  - intros (i & Hl & Hm). rewrite !list_lookup_fmap in Hm.
    destruct (col !! i) as [v|] eqn:Hv; simplify_eq/=.
    exists i, v. rewrite isnan_fneg in Hm.
    split_and!; [done..|]. by destruct (isnan v).
  - intros (i & v & Hl & Hv & Hn). exists i. split; [done|].
    rewrite !list_lookup_fmap, Hv. simpl. by rewrite isnan_fneg, Hn.
Qed.

Lemma distinct_los_unique (los : list Z) (col : list float) (a b : list Z) :
  distinct_los los col a -> distinct_los los col b -> a ≡ₚ b.
Proof.
  intros [Ha Ha'] [Hb Hb']. apply NoDup_Permutation; [done..|].
  intros l. by rewrite Ha', Hb'.
Qed.

(** The two [continue] branches are taken exactly for the frames the
    specification describes. *)
Lemma skipped_spec (los : list Z) (col : list float) (ids : list Z) :
  distinct_los los col ids ->
  skipped los col = true <-> too_few_or_degenerate ids.
Proof.
  intros Hids.
  pose proof (distinct_los_unique _ _ _ _ (uniq_los_spec los col) Hids) as Hp.
  unfold skipped, too_few_or_degenerate.
  rewrite <- Hp. 
  destruct (Nat.ltb_spec (length (uniq_los los col)) 3) as [Hlt|Hge].
  { split; [by left|done]. }
  destruct (Nat.eqb_spec (length (uniq_los los col)) 3) as [Heq|Hne].
  - rewrite orb_true_iff, !andb_true_iff, !bool_decide_eq_true.
    split.
    + intros Hd. right. done.
    + intros [?|[_ Hd]]; [lia|done].
  - split; [done|]. intros [?|[? _]]; lia.
Qed.

Lemma loc_set_lookup (label : L) (row : result_row) (df : results L)
    (n : nat) (k : L) (r : option result_row) :
  df !! n = Some (k, r) ->
  loc_set label row df !! n =
    Some (k, if decide (k = label) then Some row else r).
Proof.
  intros Hn. unfold loc_set. rewrite list_lookup_fmap, Hn. simpl.
  by destruct (decide (k = label)).
Qed.

Lemma regression_loop_lookup (los : list Z) (max_se : float)
    (cols : list (L * list float)) (df : results L)
    (n : nat) (k : L) (r : option result_row) :
  df !! n = Some (k, r) ->
  fold_left (regression_step los max_se) cols df !! n =
    Some (k, final_row los max_se cols k r).
Proof.
  revert df r. induction cols as [|[k0 c0] cols IH]; intros df r Hn; [done|].
  simpl. apply IH. unfold regression_step. simpl.
  destruct (skipped los c0).
  - by destruct (decide (k0 = k)).
  - rewrite (loc_set_lookup _ _ _ _ _ _ Hn).
    destruct (decide (k = k0)), (decide (k0 = k)); congruence.
Qed.

Lemma final_row_other (los : list Z) (max_se : float)
    (cols : list (L * list float)) (k : L) (r : option result_row) :
  k ∉ cols.*1 -> final_row los max_se cols k r = r.
Proof.
  revert r. induction cols as [|[k0 c0] cols IH]; intros r Hk; [done|].
  simpl in *. rewrite not_elem_of_cons in Hk. destruct Hk as [Hne Hk].
  rewrite IH by done. destruct (decide (k0 = k)); congruence.
Qed.

Lemma final_row_distinct (los : list Z) (max_se : float)
    (cols : list (L * list float)) (n : nat) (k : L) (col : list float)
    (r : option result_row) :
  NoDup cols.*1 -> cols !! n = Some (k, col) ->
  final_row los max_se cols k r =
    if skipped los col then r else Some (df_data los max_se col).
Proof.
  revert n r. induction cols as [|[k0 c0] cols IH]; intros n r Hnd Hn; [done|].
  simpl in *. apply NoDup_cons in Hnd as [Hk0 Hnd].
  destruct n as [|n]; simplify_eq/=.
  - rewrite final_row_other by done. by rewrite decide_True.
  - rewrite decide_False; [by eapply IH|].
    intros ->. apply Hk0. apply list_elem_of_fmap. exists (k, col).
    split; [done|]. by eapply list_elem_of_lookup_2.
Qed.

(** The returned row of a column whose label no other column carries. *)
Lemma wind_regression_row (wdf : wind_frame L) (elevation max_se : float)
    (n : nat) (label : L) (col : list float) :
  NoDup (columns wdf).*1 ->
  columns wdf !! n = Some (label, col) ->
  wind_regression wdf elevation max_se !! n =
    Some (label, if skipped (los wdf) col then None
                 else Some (df_data (los wdf) max_se col)).
Proof.
  intros Hnd Hn. unfold wind_regression.
  assert (((fun c : L * list float => (c.1, @None result_row)) <$> columns wdf) !! n
          = Some (label, None)) as Hinit.
  { by rewrite list_lookup_fmap, Hn. }
  rewrite (regression_loop_lookup _ _ _ _ _ _ _ Hinit).
  by erewrite final_row_distinct.
Qed.

Lemma gate_spec (max_se coef se : float) :
  gated_as max_se coef se (gate max_se coef se).
Proof.
  unfold gated_as, rejected, gate.
  destruct (fgt se max_se), (isfinite se); simpl; split; intros Hr;
    try done; try (by destruct Hr); exfalso; apply Hr; auto.
Qed.

(** C1, as amended: in a frame whose column labels are pairwise distinct,
    the result row of a column stays unset (no fit, all six cells missing)
    exactly when the measurements of the column that are not NaN come from
    fewer than three distinct LOS IDs, or from exactly three that leave out
    both LOS 0 and LOS 2, or both LOS 1 and LOS 3; in every other case the
    row holds the least-squares fit of the column. *)
Theorem wind_regression_skips (wdf : wind_frame L) (elevation max_se : float)
    (n : nat) (label : L) (col : list float) (ids : list Z) :
  NoDup (columns wdf).*1 ->
  columns wdf !! n = Some (label, col) ->
  distinct_los (los wdf) col ids ->
  (wind_regression wdf elevation max_se !! n = Some (label, None)
     <-> too_few_or_degenerate ids) /\
  (~ too_few_or_degenerate ids ->
   wind_regression wdf elevation max_se !! n =
     Some (label, Some (df_data (los wdf) max_se col))).
Proof.
  intros Hnd Hn Hids.
  rewrite (wind_regression_row _ _ _ _ _ _ Hnd Hn).
  pose proof (skipped_spec _ _ _ Hids) as Hs.
  destruct (skipped (los wdf) col); split.
  - split; [intros _; by apply Hs|done].
  - intros Hno. exfalso. apply Hno. by apply Hs.
  - split; [done|]. intros Hd. apply Hs in Hd. done.
  - done.
Qed.

(** C2, as amended: in a frame whose column labels are pairwise
    distinct, the row returned for a fitted column holds the standard
    errors of the fit unchanged, and for each of x, y, z the fitted
    coefficient, replaced by NaN when its standard error exceeds [max_se]
    or is not finite. *)
Theorem wind_regression_gates (wdf : wind_frame L) (elevation max_se : float)
    (n : nat) (label : L) (col : list float) :
  NoDup (columns wdf).*1 ->
  columns wdf !! n = Some (label, col) ->
  skipped (los wdf) col = false ->
  exists row cx cy cz sx sy sz,
    OLS_fit (ymat col) (xmat (los wdf)) = ((cx, cy, cz), (sx, sy, sz)) /\
    wind_regression wdf elevation max_se !! n = Some (label, Some row) /\
    r_xse row = sx /\ r_yse row = sy /\ r_zse row = sz /\
    gated_as max_se cx sx (r_x row) /\
    gated_as max_se cy sy (r_y row) /\
    gated_as max_se cz sz (r_z row).
Proof.
  intros Hnd Hn Hfit.
  rewrite (wind_regression_row _ _ _ _ _ _ Hnd Hn), Hfit.
  unfold df_data.
  destruct (OLS_fit (ymat col) (xmat (los wdf))) as [[[cx cy] cz] [[sx sy] sz]].
  eexists _, cx, cy, cz, sx, sy, sz.
  split_and!; try reflexivity; simpl; apply gate_spec.
Qed.

(** With a label carried by two fitted columns, both rows end with the
    fit of the second column. *)
Lemma wind_regression_last_fit (los : list Z) (label : L)
    (c0 c1 : list float) (elevation max_se : float) :
  skipped los c1 = false ->
  wind_regression {| los := los; columns := [(label, c0); (label, c1)] |}
    elevation max_se
  = [(label, Some (df_data los max_se c1));
     (label, Some (df_data los max_se c1))].
Proof.
  intros Hfit. unfold wind_regression, regression_step, loc_set. simpl.
  rewrite Hfit. destruct (skipped los c0); simpl;
    repeat case_decide; done.
Qed.

(** C5: the parameter [elevation] has no effect on the result; the angle
    in the design matrix is 75 degrees, and 90 degrees for LOS ID 4,
    whatever its value. *)
Theorem wind_regression_ignores_elevation (wdf : wind_frame L)
    (e1 e2 max_se : float) :
  wind_regression wdf e1 max_se = wind_regression wdf e2 max_se /\
  forall l : Z,
    elevation_angle l =
      if decide (l = 4) then fdiv np_pi (float_of_int 2)
      else fdiv (fmul np_pi (float_of_int 75)) (float_of_int 180).
Proof.
  split; [reflexivity|]. intros l. unfold elevation_angle.
  destruct (Z.eqb_spec l 4), (decide (l = 4)); congruence.
Qed.

End WindRegressionFacts.

Section WindRegressionWitnesses.
Import Misc Spec Sample.

Lemma wdf3_labels : NoDup (columns wdf3).*1.
Proof. apply (bool_decide_unpack _). vm_compute. exact I. Defined.

Lemma wind_regression_skips_witness :
  (wind_regression wdf3 (f 75) (f 1) !! 1%nat = Some (125, None)
     <-> too_few_or_degenerate (uniq_los (los wdf3) [nan; f 4; nan])) /\
  (~ too_few_or_degenerate (uniq_los (los wdf3) [nan; f 4; nan]) ->
   wind_regression wdf3 (f 75) (f 1) !! 1%nat =
     Some (125, Some (df_data (los wdf3) (f 1) [nan; f 4; nan]))).
Proof.
  apply (wind_regression_skips wdf3 (f 75) (f 1) 1 125 [nan; f 4; nan]).
  - exact wdf3_labels.
  - reflexivity.
  - apply uniq_los_spec.
Defined.

Lemma wind_regression_gates_witness :
  exists row cx cy cz sx sy sz,
    OLS_fit (ymat [f 1; f (-2); f 3]) (xmat (los wdf3))
      = ((cx, cy, cz), (sx, sy, sz)) /\
    wind_regression wdf3 (f 75) (f 1) !! 0%nat = Some (100, Some row) /\
    r_xse row = sx /\ r_yse row = sy /\ r_zse row = sz /\
    gated_as (f 1) cx sx (r_x row) /\
    gated_as (f 1) cy sy (r_y row) /\
    gated_as (f 1) cz sz (r_z row).
Proof.
  apply (wind_regression_gates wdf3 (f 75) (f 1) 0 100 [f 1; f (-2); f 3]).
  - exact wdf3_labels.
  - reflexivity.
  - vm_compute. reflexivity.
Defined.

(** C1 as stated fails: the second column has measurements from one line
    of sight only, yet its result row is set, because the first column
    carries the same label and is fitted. *)
Lemma wind_regression_repeated_label_row_set :
  exists ids,
    columns wdf_repeated !! 1%nat = Some (100, [nan; f 4; nan; nan]) /\
    distinct_los (los wdf_repeated) [nan; f 4; nan; nan] ids /\
    too_few_or_degenerate ids /\
    wind_regression wdf_repeated (f 75) (f 1) !! 1%nat =
      Some (100, Some (df_data (los wdf_repeated) (f 1)
                               [f 1; f 2; f 3; f 4])) /\
    wind_regression wdf_repeated (f 75) (f 1) !! 1%nat <> Some (100, None).
Proof.
  exists (uniq_los (los wdf_repeated) [nan; f 4; nan; nan]).
  split_and!; [reflexivity|apply uniq_los_spec|left; vm_compute; lia
              |reflexivity|discriminate].
Qed.

(** C2 as stated fails: the first column is fitted, yet the standard
    errors returned in its row are not those of its fit but those of the
    second column, which carries the same label. *)
Lemma wind_regression_repeated_label_row_replaced :
  exists row,
    columns wdf_repeated4 !! 0%nat = Some (100, [f 1; f 2; f 3; f 4]) /\
    skipped (los wdf_repeated4) [f 1; f 2; f 3; f 4] = false /\
    wind_regression wdf_repeated4 (f 75) (f 1) !! 0%nat
      = Some (100, Some row) /\
    (r_xse row, r_yse row, r_zse row) <>
      (OLS_fit (ymat [f 1; f 2; f 3; f 4]) (xmat (los wdf_repeated4))).2.
Proof.
  eexists. split_and!; [reflexivity|by vm_compute|reflexivity|].
  vm_compute. discriminate.
Qed.

End WindRegressionWitnesses.

(** ** The balloon importer: header and metadata *)

Section BalloonHeader.
Import Misc Spec.

Lemma append_same_length (b b' x y : string) :
  b +:+ x = b' +:+ y -> String.length b = String.length b' ->
  b = b' /\ x = y.
Proof.
  revert b'. induction b as [|c b IH]; intros [|c' b'] Heq Hlen; try done.
  rewrite !append_cons in Heq. injection Heq as -> Heq.
  destruct (IH b' Heq) as [-> ->]; [by injection Hlen|done].
Qed.

Lemma cut_at_partition (sep s b a : string) :
  Py.partition sep s = Some (b, a) <-> cut_at sep s b a.
Proof.
  split.
  - intros Hp. split; [by apply partition_Some|].
    intros b' a'. by apply (partition_leftmost _ _ _ a).
  - intros [Heq Hleft].
    destruct (Py.partition sep s) as [[b0 a0]|] eqn:Hp.
    + pose proof (partition_Some _ _ _ _ Hp) as Heq0.
      pose proof (partition_leftmost _ _ _ _ _ _ Hp Heq) as Hle.
      pose proof (Hleft _ _ Heq0) as Hge.
      rewrite Heq in Heq0.
      destruct (append_same_length _ _ _ _ Heq0) as [-> Hrest]; [lia|].
      apply (inj (String.app sep)) in Hrest. by subst.
    + by apply partition_None with (b := b) (a := a) in Hp.
Qed.

Lemma sep_nonempty : " : " <> EmptyString.
Proof. done. Qed.

Lemma header_pair_spec (line key value : string) :
  header_pair line = Some (key, value) <-> key_value line key value.
Proof.
  unfold header_pair, key_value. rewrite split_unfold by apply sep_nonempty.
  split.
  - destruct (Py.partition " : " line) as [[k rest]|] eqn:Hp; [|done].
    rewrite split_unfold by apply sep_nonempty.
    intros Hv. exists k, rest. split; [by apply cut_at_partition|].
    destruct (Py.partition " : " rest) as [[v a]|] eqn:Hr; simplify_eq.
    + split; [done|]. left. exists a. by apply cut_at_partition.
    + split; [done|]. right. split; [|done].
      intros b a. by apply partition_None.
  - intros (k & rest & Hk%cut_at_partition & -> & Hv). rewrite Hk.
    rewrite split_unfold by apply sep_nonempty.
    destruct Hv as [[a Ha%cut_at_partition]|[Hno ->]].
    + by rewrite Ha.
    + destruct (Py.partition " : " rest) as [[v a]|] eqn:Hr; [|done].
      apply partition_Some in Hr. by apply Hno in Hr.
Qed.

Lemma metadata_step_pair (m : gmap string string) (line : string) :
  metadata_step m line =
    match header_pair line with
    | Some (k, v) => Some (<[k := v]> m)
    | None => None
    end.
Proof.
  unfold metadata_step, header_pair.
  by destruct (Py.split " : " line) as [|k [|v rest]].
Qed.

Lemma metadata_loop_spec (m0 m : gmap string string) (ls : list string) :
  metadata_loop m0 ls = Some m ->
  Forall (fun l => is_Some (header_pair l)) ls /\
  forall key, m !! key = last_value key ls (m0 !! key).
Proof.
  revert m0. induction ls as [|l ls IH]; intros m0; simpl.
  - intros [= ->]. by split.
  - rewrite metadata_step_pair.
    destruct (header_pair l) as [[k v]|] eqn:Hl; [|done].
    intros [Hall Hm]%IH. split.
    + constructor; [by eexists|done].
    + intros key. rewrite Hm. f_equal.
      destruct (decide (k = key)) as [->|Hne].
      * by rewrite lookup_insert_eq.
      * by rewrite lookup_insert_ne.
Qed.

Lemma last_value_spec (key value : string) (ls : list string)
    (init : option string) :
  last_value key ls init = Some value <->
  (exists i l, ls !! i = Some l /\ header_pair l = Some (key, value) /\
     forall j l' v', (i < j)%nat -> ls !! j = Some l' ->
                     header_pair l' <> Some (key, v')) \/
  (init = Some value /\
   forall j l' v', ls !! j = Some l' -> header_pair l' <> Some (key, v')).
Proof.
  revert init. induction ls as [|l ls IH]; intros init; simpl.
  - split.
    + intros ->. right. split; [done|]. by intros j l' v'.
    + intros [(i & l & Hi & _)|[-> _]]; done.
  - rewrite IH. split.
    + intros [(i & l0 & Hi & Hp & Hlater)|[Hinit Hnone]].
      * left. exists (S i), l0. split_and!; [done..|].
        intros [|j] l' v' Hj Hl'; [lia|]. apply (Hlater j); [lia|done].
      * destruct (header_pair l) as [[k v]|] eqn:Hl.
        -- destruct (decide (k = key)) as [->|Hne].
           ++ left. exists 0%nat, l. simplify_eq. split_and!; [done..|].
              intros [|j] l' v' Hj Hl'; [lia|]. by apply (Hnone j).
           ++ right. split; [done|]. intros [|j] l' v' Hl'; simplify_eq/=.
              ** rewrite Hl. congruence.
              ** by apply (Hnone j).
        -- right. split; [done|]. intros [|j] l' v' Hl'; simplify_eq/=.
           ** by rewrite Hl.
           ** by apply (Hnone j).
    + intros [(i & l0 & Hi & Hp & Hlater)|[Hinit Hnone]].
      * destruct i as [|i]; simplify_eq/=.
        -- right. rewrite Hp, decide_True by done. split; [done|].
           intros j l' v' Hl'. apply (Hlater (S j)); [lia|done].
        -- left. exists i, l0. split_and!; [done..|].
           intros j l' v' Hj Hl'. apply (Hlater (S j)); [lia|done].
      * right. split.
        -- destruct (header_pair l) as [[k v]|] eqn:Hl; [|done].
           destruct (decide (k = key)) as [->|Hne]; [|done].
           exfalso. by apply (Hnone 0%nat l v).
        -- intros j l' v' Hl'. by apply (Hnone (S j)).
Qed.

Lemma header_end_spec (lines : list string) (h : nat) :
  header_end lines = Some h ->
  lines !! h = Some CRLF /\
  forall i l, (i < h)%nat -> lines !! i = Some l -> l <> CRLF.
Proof.
  revert h. induction lines as [|l0 lines IH]; intros h; simpl; [done|].
  destruct (String.eqb_spec l0 CRLF) as [->|Hne].
  - intros [= <-]. split; [done|]. intros i l Hi. lia.
  - destruct (header_end lines) as [h'|]; [|done]. intros [= <-].
    destruct (IH h' eq_refl) as [Hh Hbefore]. split; [done|].
    intros [|i] l Hi Hl; simplify_eq/=; [done|].
    apply (Hbefore i); [lia|done].
Qed.

Lemma header_lines_lookup (lines : list string) (h i : nat) (l' : string) :
  (Py.strip <$> take h lines) !! i = Some l' <->
  (i < h)%nat /\ exists l, lines !! i = Some l /\ l' = Py.strip l.
Proof.
  rewrite list_lookup_fmap. split.
  - destruct (take h lines !! i) as [l|] eqn:Hl; [|done].
    intros [= <-]. apply lookup_take_Some in Hl as [Hl Hi]. eauto.
  - intros (Hi & l & Hl & ->). by rewrite lookup_take_lt, Hl by done.
Qed.

(** Lines 292-304: the header runs up to the first CR LF line, and the
    dictionary holds, under every key, the value of the last header line
    with this key. *)
Lemma read_metadata_spec (lines : list string) (h : nat)
    (metadata : gmap string string) :
  read_metadata lines = Some (h, metadata) ->
  lines !! h = Some CRLF /\
  (forall i l, (i < h)%nat -> lines !! i = Some l ->
     l <> CRLF /\ exists key value, key_value (Py.strip l) key value) /\
  (forall key value,
     metadata !! key = Some value <->
     exists i l, (i < h)%nat /\ lines !! i = Some l /\
       key_value (Py.strip l) key value /\
       forall j l' v', (i < j < h)%nat -> lines !! j = Some l' ->
                       ~ key_value (Py.strip l') key v').
Proof.
  unfold read_metadata. intros Hrm.
  destruct (header_end lines) as [h'|] eqn:Hh; [|done]. simpl in Hrm.
  destruct (metadata_loop ∅ (Py.strip <$> take h' lines)) as [m|] eqn:Hm;
    [|done].
  simpl in Hrm. injection Hrm as -> ->.
  apply header_end_spec in Hh as [Hh Hbefore].
  apply metadata_loop_spec in Hm as [Hall Hm].
  split_and!; [done| |].
  - intros i l Hi Hl. split; [by eapply Hbefore|].
    rewrite Forall_lookup in Hall.
    destruct (Hall i (Py.strip l)) as [[key value] Hp].
    { apply header_lines_lookup. eauto. }
    exists key, value. by apply header_pair_spec.
  - intros key value. rewrite Hm, lookup_empty, last_value_spec. split.
    + intros [(i & l' & Hi & Hp & Hlater)|[? _]]; [|done].
      apply header_lines_lookup in Hi as (Hi & l & Hl & ->).
      exists i, l. split_and!; [done..|by apply header_pair_spec|].
      intros j l' v' Hj Hl' Hkv%header_pair_spec.
      apply (Hlater j (Py.strip l') v'); [lia| |done].
      apply header_lines_lookup. split; [lia|eauto].
    + intros (i & l & Hi & Hl & Hkv%header_pair_spec & Hlater). left.
      exists i, (Py.strip l). split_and!; [|done|].
      * apply header_lines_lookup. eauto.
      * intros j l' v' Hj Hl' Hp.
        apply header_lines_lookup in Hl' as (Hjh & l0 & Hl0 & ->).
        apply (Hlater j l0 v'); [lia|done|by apply header_pair_spec].
Qed.

End BalloonHeader.

(** ** The balloon importer: time stamps *)

Section BalloonTime.
Import Misc Spec.

Lemma steps_lookup {A B} (g : A -> A -> B) (v : list A) (i : nat) (a b : A) :
  v !! i = Some a -> v !! S i = Some b -> steps g v !! i = Some (g b a).
Proof.
  intros Ha Hb. unfold steps. rewrite lookup_zip_with, lookup_drop.
  apply lookup_lt_Some in Hb as Hlt.
  rewrite lookup_take_lt by lia. simpl. by rewrite Hb, Ha.
Qed.

Lemma steps_lookup_inv {A B} (g : A -> A -> B) (v : list A) (i : nat) (y : B) :
  steps g v !! i = Some y ->
  exists a b, v !! i = Some a /\ v !! S i = Some b /\ y = g b a.
Proof.
  unfold steps. intros (b & a & -> & Hb & Ha)%lookup_zip_with_Some.
  rewrite lookup_drop in Hb. apply lookup_take_Some in Ha as [Ha _]. eauto.
Qed.



Lemma two_digits_bound (bound : Z) (s : string) (d : Z) :
  two_digits bound s = Some d -> 0 <= d < bound.
Proof.
  assert (forall c x, Py.digit c = Some x -> 0 <= x <= 9) as Hdigit.
  { intros c x. unfold Py.digit.
    destruct (_ && _)%bool eqn:Hc; [|done]. intros [= <-].
    apply andb_true_iff in Hc as [H1%N.leb_le H2%N.leb_le]. lia. }
  unfold two_digits. destruct s as [|a [|b [|? ?]]]; try done.
  - destruct (Py.digit a) as [x|] eqn:Ha; [|done]. simpl.
    destruct (Z.ltb_spec x bound); [|done]. intros [= <-].
    apply Hdigit in Ha. lia.
  - destruct (Py.digit a) as [x|] eqn:Ha; [|done]. simpl.
    destruct (Py.digit b) as [y|] eqn:Hb; [|done]. simpl.
    destruct (Z.ltb_spec (10 * x + y) bound); [|done]. intros [= <-].
    apply Hdigit in Ha, Hb. lia.
Qed.

(** A parsed time stamp is a second of the day. *)
Lemma parse_hms_bound (s : string) (t : Z) :
  parse_hms s = Some t -> 0 <= t < day.
Proof.
  unfold parse_hms. destruct (Py.split ":" s) as [|h [|m [|sec [|? ?]]]]; try done.
  destruct (two_digits 24 h) as [x|] eqn:Hh; [|done]. simpl.
  destruct (two_digits 60 m) as [y|] eqn:Hm; [|done]. simpl.
  destruct (two_digits 60 sec) as [z|] eqn:Hs; [|done]. simpl.
  intros [= <-].
  apply two_digits_bound in Hh, Hm, Hs. unfold day. lia.
Qed.

Lemma stamps_on_day (bdate : Z) (strs : list string) (stamps : list Z) :
  mapM (stamp_on bdate) strs = Some stamps ->
  exists tods, mapM parse_hms strs = Some tods /\
               stamps = (fun t => day_start bdate + t) <$> tods /\
               Forall (fun t => 0 <= t < day) tods.
Proof.
  rewrite mapM_Some. induction 1 as [|s t strs stamps Hs _ IH].
  - by exists [].
  - destruct IH as (tods & Htods & -> & Hall).
    unfold stamp_on in Hs. destruct (parse_hms s) as [tod|] eqn:Hp; [|done].
    simpl in Hs. injection Hs as <-. exists (tod :: tods). split_and!.
    + apply mapM_Some. constructor; [done|by apply mapM_Some].
    + done.
    + constructor; [by eapply parse_hms_bound|done].
Qed.



Lemma balloon_index_inv `{Pandas} (fs : FileSystem) (h : nat)
    (metadata : gmap string string) (bstart : Z) (b1 : DataFrame)
    (index : list Z) :
  balloon_index fs h metadata = Some (bstart, b1, index) ->
  exists bdate strs stamps elapsed,
    read_csv fs balloon_path ";" (h + 1) = Some b1 /\
    df_get "Time Stamp" b1 = Some (StrCol strs) /\
    mapM (stamp_on bdate) strs = Some stamps /\
    df_get "Elapsed Time" b1 = Some (NumCol elapsed) /\
    add_days stamps (days_ahead stamps elapsed) = Some index.
Proof.
  unfold balloon_index. intros Hb.
  destruct (metadata !! "Flight") as [flight|]; [|done]. simpl in Hb.
  destruct (Py.split ", " flight !! 1%nat) as [d|]; [|done]. simpl in Hb.
  destruct (to_datetime d) as [bdate|]; [|done]. simpl in Hb.
  destruct (Py.split ", " flight !! 2%nat) as [t|]; [|done]. simpl in Hb.
  destruct (to_datetime t) as [btime|]; [|done]. simpl in Hb.
  destruct (read_csv fs balloon_path ";" (h + 1)) as [df|] eqn:Hcsv; [|done].
  simpl in Hb.
  destruct (df_get "Time Stamp" df) as [[strs|?]|] eqn:Hts; try done.
  simpl in Hb.
  destruct (mapM (stamp_on bdate) strs) as [stamps|] eqn:Hst; [|done].
  simpl in Hb.
  destruct (df_get "Elapsed Time" df) as [[?|elapsed]|] eqn:Het; try done.
  simpl in Hb.
  destruct (add_days stamps (days_ahead stamps elapsed)) as [ix|] eqn:Hadd;
    [|done].
  simpl in Hb. injection Hb as <- <- <-.
  by exists bdate, strs, stamps, elapsed.
Qed.

Lemma weather_balloon_inv `{Pandas} (fs : FileSystem) (fname : string)
    (ds : balloon_dataset) :
  weather_balloon fs fname = Some ds ->
  exists lines h metadata bstart b1,
    readlines fs fname = Some lines /\
    read_metadata lines = Some (h, metadata) /\
    balloon_index fs h metadata = Some (bstart, b1, ds_Time ds) /\
    ds_vars ds = df_drop "Time Stamp" b1 /\
    ds_Profile ds = bstart /\
    metadata !! "Station Name (WMO #)" = Some (ds_Station ds) /\
    metadata !! "Station Height" = Some (ds_Station_Height ds) /\
    metadata !! "Station Latitude" = Some (ds_Station_Latitude ds) /\
    metadata !! "Station Longitude" = Some (ds_Station_Longitude ds) /\
    metadata !! "Flight" = Some (ds_Flight ds) /\
    metadata !! "File Name" = Some (ds_File_Name ds) /\
    metadata !! "Observer Initial" = Some (ds_Observer_Initial ds) /\
    metadata !! "Version #" = Some (ds_Version ds).
Proof.
  unfold weather_balloon. intros Hw.
  destruct (readlines fs fname) as [lines|] eqn:Hl; [|done]. simpl in Hw.
  destruct (read_metadata lines) as [[h metadata]|] eqn:Hm; [|done].
  simpl in Hw.
  destruct (balloon_index fs h metadata) as [[[bstart b1] index]|] eqn:Hb;
    [|done].
  simpl in Hw.
  destruct (set_coords coordinate_names (df_drop "Time Stamp" b1))
    as [vars|] eqn:Hvars; [|done].
  simpl in Hw.
  assert (vars = df_drop "Time Stamp" b1) as ->.
  { unfold set_coords in Hvars. destruct (forallb _ _); by simplify_eq. }
  repeat (match type of Hw with
          | context [metadata !! ?k] =>
              destruct (metadata !! k) eqn:?; [|done]; simpl in Hw
          end).
  injection Hw as <-. simpl.
  by exists lines, h, metadata, bstart, b1.
Qed.

End BalloonTime.

Section BalloonClaims.
Import Misc Spec.
Context `{Pandas}.

(** C10: the metadata header of an accepted file is exactly the lines
    before the first line equal to CR LF; each of these lines is read as
    one key and value, cut at [" : "], the key stripped of whitespace; the
    dictionary holds under a key the value of the last header line with
    that key, and the station and profile coordinates of the dataset are
    its entries. *)
Theorem weather_balloon_header (fs : FileSystem) (fname : string)
    (ds : balloon_dataset) :
  weather_balloon fs fname = Some ds ->
  exists lines h (metadata : gmap string string),
    readlines fs fname = Some lines /\
    lines !! h = Some CRLF /\
    (forall i l, (i < h)%nat -> lines !! i = Some l ->
       l <> CRLF /\ exists key value, key_value (Py.strip l) key value) /\
    (forall key value,
       metadata !! key = Some value <->
       exists i l, (i < h)%nat /\ lines !! i = Some l /\
         key_value (Py.strip l) key value /\
         forall j l' v', (i < j < h)%nat -> lines !! j = Some l' ->
                         ~ key_value (Py.strip l') key v') /\
    metadata !! "Flight" = Some (ds_Flight ds) /\
    metadata !! "Station Name (WMO #)" = Some (ds_Station ds) /\
    metadata !! "File Name" = Some (ds_File_Name ds).
Proof.
  intros (lines & h & metadata & bstart & b1 & Hl & Hm & _ & _ & _ & Hst & _
          & _ & _ & Hfl & Hfn & _)%weather_balloon_inv.
  exists lines, h, metadata.
  destruct (read_metadata_spec _ _ _ Hm) as (Hh & Hlines & Hmd).
  by split_and!.
Qed.

(** C4: of the file [fname] only the header is used; the data rows are
    those of the fixed path.  Two files with the same header give the
    same result, whatever follows their headers, and the data variables
    are the columns read from the fixed path. *)
Theorem weather_balloon_data_from_fixed_path (fs : FileSystem)
    (fname1 fname2 : string) (lines1 lines2 : list string) (h : nat) :
  readlines fs fname1 = Some lines1 ->
  readlines fs fname2 = Some lines2 ->
  header_end lines1 = Some h ->
  header_end lines2 = Some h ->
  take h lines1 = take h lines2 ->
  weather_balloon fs fname1 = weather_balloon fs fname2 /\
  forall ds, weather_balloon fs fname1 = Some ds ->
    exists b1, read_csv fs balloon_path ";" (h + 1) = Some b1 /\
               ds_vars ds = df_drop "Time Stamp" b1.
Proof.
  intros Hl1 Hl2 Hh1 Hh2 Htake.
  assert (read_metadata lines1 = read_metadata lines2) as Hmeta.
  { unfold read_metadata. rewrite Hh1, Hh2. simpl. by rewrite Htake. }
  split.
  - unfold weather_balloon. rewrite Hl1, Hl2. simpl. by rewrite Hmeta.
  - intros ds (lines & h' & metadata & bstart & b1 & Hl & Hm & Hb & Hv & _)
             %weather_balloon_inv.
    rewrite Hl1 in Hl. injection Hl as <-.
    assert (h' = h) as ->.
    { unfold read_metadata in Hm. rewrite Hh1 in Hm. simpl in Hm.
      destruct (metadata_loop _ _); [|done]. by injection Hm. }
    apply balloon_index_inv in Hb as (? & ? & ? & ? & Hcsv & _).
    by exists b1.
Qed.


End BalloonClaims.

Section BalloonWitnesses.
Import Misc Spec Sample.




Lemma weather_balloon_header_witness :
  exists ds, weather_balloon (files frame_midnight) "a.txt" = Some ds /\
  exists lines h (metadata : gmap string string),
    readlines (files frame_midnight) "a.txt" = Some lines /\
    lines !! h = Some CRLF /\
    (forall i l, (i < h)%nat -> lines !! i = Some l ->
       l <> CRLF /\ exists key value, key_value (Py.strip l) key value) /\
    (forall key value,
       metadata !! key = Some value <->
       exists i l, (i < h)%nat /\ lines !! i = Some l /\
         key_value (Py.strip l) key value /\
         forall j l' v', (i < j < h)%nat -> lines !! j = Some l' ->
                         ~ key_value (Py.strip l') key v') /\
    metadata !! "Flight" = Some (ds_Flight ds) /\
    metadata !! "Station Name (WMO #)" = Some (ds_Station ds) /\
    metadata !! "File Name" = Some (ds_File_Name ds).
Proof.
  destruct (weather_balloon (files frame_midnight) "a.txt") as [ds|] eqn:E;
    [|vm_compute in E; discriminate].
  exists ds. split; [reflexivity|].
  exact (weather_balloon_header (files frame_midnight) "a.txt" ds E).
Defined.

Lemma weather_balloon_data_from_fixed_path_witness :
  weather_balloon (files frame_midnight) "a.txt" =
    weather_balloon (files frame_midnight) "b.txt" /\
  forall ds, weather_balloon (files frame_midnight) "a.txt" = Some ds ->
    exists b1, read_csv (files frame_midnight) balloon_path ";" (8 + 1)
                 = Some b1 /\
               ds_vars ds = df_drop "Time Stamp" b1.
Proof.
  apply (weather_balloon_data_from_fixed_path
           (files frame_midnight) "a.txt" "b.txt" flight_a flight_b 8);
    reflexivity.
Defined.

End BalloonWitnesses.

(** ** The radiometer importer: type codes *)

Section RadiometerFields.
Import Misc Spec.


Lemma cut_keep (field rest : string) :
  no_char "," field ->
  cut_from_comma false (field +:+ rest) = field +:+ cut_from_comma false rest.
Proof.
  induction field as [|d field IH]; intros Hno; [done|].
  apply no_char_cons in Hno as [Hne Hno].
  rewrite !append_cons. simpl.
  destruct (Ascii.eqb_spec d ","); [done|]. by rewrite IH.
Qed.

Lemma cut_skip (m rest : string) :
  no_char LF m ->
  cut_from_comma true (m +:+ rest) = cut_from_comma true rest.
Proof.
  induction m as [|d m IH]; intros Hno; [done|].
  apply no_char_cons in Hno as [Hne Hno].
  rewrite append_cons. simpl.
  destruct (Ascii.eqb_spec d LF); [done|]. by apply IH.
Qed.

Lemma int_rskip_space (s : string) (c : ascii) :
  Py.int_space c = true ->
  Py.int_rskip (s +:+ String c EmptyString) = Py.int_rskip s.
Proof.
  intros Hc. induction s as [|d s IH].
  - simpl. by rewrite Hc.
  - rewrite append_cons. simpl. by rewrite IH.
Qed.

Lemma int_eol (s : string) : Py.int (s +:+ String LF EmptyString) = Py.int s.
Proof. unfold Py.int. by rewrite int_rskip_space. Qed.


Lemma str_of_int_inj (a b : Z) : Py.str_of_int a = Py.str_of_int b -> a = b.
Proof.
  unfold Py.str_of_int. intros Heq.
  assert (forall z, NilZero.int_of_string (NilZero.string_of_int (Z.to_int z))
                    = Some (Z.to_int z)) as Hisi.
  { intros z. apply NilZero.isi; destruct z; simpl; try done;
      intros [= Hnil]; by apply DecimalPos.Unsigned.to_uint_nonnil in Hnil. }
  pose proof (Hisi a) as Ha. rewrite Heq, Hisi in Ha. injection Ha as Ha.
  rewrite <- (DecimalZ.of_to a), <- (DecimalZ.of_to b). by rewrite Ha.
Qed.

End RadiometerFields.

(** ** The radiometer importer: the tables *)

Section RadiometerTables.
Import Misc Spec.
Context `{Pandas}.

Lemma where_from_elem (i : nat) (flags : list bool) (n : nat) :
  n ∈ where_from i flags <->
  exists k, n = (i + k)%nat /\ flags !! k = Some true.
Proof.
  revert i. induction flags as [|b flags IH]; intros i; simpl.
  - rewrite elem_of_nil. split; [done|]. by intros (k & _ & ?).
  - assert (n ∈ where_from (S i) flags <->
            exists k, n = (i + S k)%nat /\ flags !! k = Some true) as IH'.
    { rewrite IH. split; intros (k & -> & Hk); exists k; (split; [lia|done]). }
    destruct b.
    + rewrite elem_of_cons, IH'. split.
      * intros [->|(k & -> & Hk)]; [exists 0%nat; split; [lia|done]|].
        by exists (S k).
      * intros ([|k] & -> & Hk); [left; lia|right; by exists k].
    + rewrite IH'. split.
      * intros (k & -> & Hk). by exists (S k).
      * intros ([|k] & -> & Hk); [done|by exists k].
Qed.


(** The header positions are the positions of the header lines. *)
Lemma header_positions_elem (lines : list string) (n : nat) :
  n ∈ header_positions lines <-> header_at lines n.
Proof.
  unfold header_positions, np_where, header_at. rewrite where_from_elem.
  split.
  - intros (k & -> & Hk). rewrite list_lookup_fmap in Hk. simpl.
    destruct (lines !! k) as [l|]; [|done]. simplify_eq/=. by exists l.
  - intros (l & Hl & Hrec). exists n. split; [done|].
    by rewrite list_lookup_fmap, Hl; simpl; rewrite Hrec.
Qed.

Lemma mapM_cons_Some {A B} (g : A -> option B) (x : A) (l : list A)
    (y : B) (k : list B) :
  g x = Some y -> mapM g l = Some k -> mapM g (x :: l) = Some (y :: k).
Proof. intros Hx Hl. apply mapM_Some. constructor; [done|by apply mapM_Some]. Qed.

Lemma select_lines (P : Z -> bool) (Q : Z -> Prop) `{!forall x, Decision (Q x)}
    (pre lines : list string) (types : list Z) :
  (forall x, P x = true <-> Q x) ->
  length lines = length types ->
  mapM (fun m => (pre ++ lines) !! m) (where_from (length pre) (P <$> types))
  = Some (filter (fun lt : string * Z => Q lt.2) (zip lines types)).*1.
Proof.
  intros HPQ. revert pre types.
  induction lines as [|l lines IH]; intros pre [|ty types] Hlen;
    simplify_eq/=; [done|].
  specialize (IH (pre ++ [l]) types Hlen).
  rewrite length_app in IH. simpl in IH.
  rewrite <- (assoc_L (++)) in IH. simpl in IH.
  replace (length pre + 1)%nat with (S (length pre)) in IH by lia.
  change (where_from (length pre) (P <$> ty :: types))
    with (if P ty then length pre :: where_from (S (length pre)) (P <$> types)
          else where_from (S (length pre)) (P <$> types)).
  change (zip (l :: lines) (ty :: types)) with ((l, ty) :: zip lines types).
  destruct (P ty) eqn:HP.
  - rewrite filter_cons_True by (simpl; by apply HPQ).
    rewrite fmap_cons.
    apply mapM_cons_Some; [by apply list_lookup_middle|done].
  - rewrite filter_cons_False; [done|].
    simpl. intros HQ%HPQ. congruence.
Qed.


Lemma fits_int64_spec (z : Z) :
  fits_int64 z = true <-> - 2 ^ 63 <= z < 2 ^ 63.
Proof. unfold fits_int64. rewrite andb_true_iff. lia. Qed.

Lemma acceptable_types_fits (t : Z) (codes : list Z) :
  acceptable_types t = Some codes ->
  - 2 ^ 63 <= t < 2 ^ 63 /\
  codes = (fun k => int64 (k + t)) <$> [1; 2; 3; 4].
Proof.
  unfold acceptable_types. destruct (fits_int64 t) eqn:Hfits; [|done].
  intros [= <-]. by apply fits_int64_spec in Hfits.
Qed.


Lemma int64_selects (z x : Z) :
  x = int64 z <-> - 2 ^ 63 <= x < 2 ^ 63 /\ (x - z) mod 2 ^ 64 = 0.
Proof.
  unfold int64. split.
  - intros ->. split.
    + pose proof (Z.mod_pos_bound (z + 2 ^ 63) (2 ^ 64)). lia.
    + rewrite (Z.mod_eq (z + 2 ^ 63)) by lia.
      replace (z + 2 ^ 63 - 2 ^ 64 * ((z + 2 ^ 63) / 2 ^ 64) - 2 ^ 63 - z)
        with (- ((z + 2 ^ 63) / 2 ^ 64) * 2 ^ 64) by lia.
      apply Z.mod_mul. lia.
  - intros [Hx Hmod].
    apply Z.mod_divide in Hmod as [q Hq]; [|lia].
    replace (z + 2 ^ 63) with ((x + 2 ^ 63) + (- q) * 2 ^ 64) by lia.
    rewrite Z.mod_add by lia. rewrite Z.mod_small; lia.
Qed.

(** The array holds exactly the type codes that the header selects. *)
Lemma acceptable_types_selects (t x : Z) (codes : list Z) :
  acceptable_types t = Some codes -> x ∈ codes <-> selects t x.
Proof.
  intros [_ ->]%acceptable_types_fits. unfold selects.
  rewrite list_elem_of_fmap, Exists_exists. split.
  - intros (k & Hx & Hk). apply int64_selects in Hx as [Hfit Hmod].
    split; [done|]. exists k. split; [done|].
    by replace (t + k) with (k + t) by lia.
  - intros (Hfit & k & Hk & Hmod). exists k. split; [|done].
    apply int64_selects. split; [done|].
    by replace (k + t) with (t + k) by lia.
Qed.

(** The selected positions hold exactly the lines with a type code in the
    array. *)
Lemma selected_lines (lines : list string) (types : list Z)
    (codes : list Z) :
  length lines = length types ->
  mapM (fun m => lines !! m) (where_is_type types codes)
  = Some (lines_of_codes lines types codes).
Proof.
  intros Hlen. unfold where_is_type, np_where, lines_of_codes.
  exact (select_lines (fun tm => bool_decide (tm ∈ codes))
           (fun x => x ∈ codes) [] lines types
           (fun x => bool_decide_eq_true _) Hlen).
Qed.

Lemma where_is_type_nil (lines : list string) (types : list Z)
    (codes : list Z) :
  length lines = length types ->
  where_is_type types codes = [] <-> lines_of_codes lines types codes = [].
Proof.
  intros Hlen. pose proof (selected_lines lines types codes Hlen) as Hsel.
  apply length_mapM in Hsel.
  split; intros Hnil; rewrite Hnil in Hsel; simpl in Hsel.
  - by destruct (lines_of_codes lines types codes).
  - by destruct (where_is_type types codes).
Qed.


Lemma lines_of_codes_selected (lines : list string) (types : list Z) (t : Z)
    (codes : list Z) :
  acceptable_types t = Some codes ->
  lines_of_codes lines types codes = lines_selected lines types t.
Proof.
  intros Hcodes. unfold lines_of_codes, lines_selected. f_equal.
  apply list_filter_iff. intros [l x]. simpl.
  by apply acceptable_types_selects.
Qed.

Lemma csvs_step_inv (lines : list string) (types : list Z)
    (csvs csvs' : gmap string DataFrame) (n : nat) :
  csvs_step lines types csvs n = Some csvs' ->
  exists t codes, types !! n = Some t /\ acceptable_types t = Some codes /\
    ((where_is_type types codes = [] /\ csvs' = csvs) \/
     (where_is_type types codes <> [] /\
      exists text df, csv_lines lines types n = Some text /\
                      read_csv_text (Py.concat text) = Some df /\
                      csvs' = <[Py.str_of_int t := df]> csvs)).
Proof.
  unfold csvs_step. destruct (types !! n) as [t|] eqn:Ht; [|done].
  simpl. destruct (acceptable_types t) as [codes|] eqn:Hcodes; [|done].
  simpl. intros Hstep. exists t, codes. split_and!; [done..|].
  destruct (where_is_type types codes) as [|m ms] eqn:Hw.
  - left. by simplify_eq/=.
  - right. split; [done|].
    change (0 <? length (m :: ms))%nat with true in Hstep.
    destruct (csv_lines lines types n) as [text|] eqn:Htext; [|done].
    simpl in Hstep.
    destruct (read_csv_text (Py.concat text)) as [df|] eqn:Hdf; [|done].
    injection Hstep as <-. by exists text, df.
Qed.

Lemma csv_lines_inv (lines : list string) (types : list Z) (n : nat)
    (t : Z) (codes : list Z) (text : list string) :
  length lines = length types ->
  types !! n = Some t -> acceptable_types t = Some codes ->
  csv_lines lines types n = Some text ->
  exists header, lines !! n = Some header /\
                 text = header :: lines_of_codes lines types codes.
Proof.
  intros Hlen Ht Hcodes. unfold csv_lines. rewrite Ht. simpl.
  rewrite Hcodes. simpl.
  destruct (lines !! n) as [header|]; [|done]. simpl.
  rewrite (selected_lines lines types codes Hlen). simpl.
  intros [= <-]. by exists header.
Qed.




End RadiometerTables.

Section RadiometerClaims.
Import Misc Spec.
Context `{Pandas}.



End RadiometerClaims.

Section RadiometerWitness.
Import Misc Spec Sample.



End RadiometerWitness.

(** ** The lidar importer *)

Section LidarFacts.
Import Misc Spec.
Context {T W : Type} `{TimestampColumn T} `{TimestampColumn W}.

Lemma axis_spec {K} `{EqDecision K} (le : relation K) `{!RelDecision le}
    (keys : list K) :
  NoDup (axis le keys) /\ forall k, k ∈ axis le keys <-> k ∈ keys.
Proof.
  unfold axis. split.
  - rewrite merge_sort_Permutation. apply NoDup_remove_dups.
  - intros k. by rewrite merge_sort_Permutation, elem_of_remove_dups.
Qed.

Lemma pivot_values_lookup {K} `{EqDecision K} (index : list K)
    (cols : list Z) (entries : list (K * Z * float)) (i j : nat) (t : K)
    (r : Z) :
  index !! i = Some t -> cols !! j = Some r ->
  pivot_values index cols entries !! i ≫= (fun row => row !! j) =
    Some (pivot_cell entries t r).
Proof.
  intros Hi Hj. unfold pivot_values.
  rewrite list_lookup_fmap, Hi. simpl. by rewrite list_lookup_fmap, Hj.
Qed.

(** A pivot table without repeated (index, column) pair holds, at the
    labels of an entry, the value of that entry. *)
Lemma pivot_cell_entry {K A} `{EqDecision K} (key : A -> K * Z)
    (val : A -> float) (rows : list A) (row : A) :
  NoDup (key <$> rows) -> row ∈ rows ->
  pivot_cell (zip (key <$> rows) (val <$> rows)) (key row).1 (key row).2
    = val row.
Proof.
  intros Hnd [p Hp]%list_elem_of_lookup. unfold pivot_cell.
  assert (forall q e, zip (key <$> rows) (val <$> rows) !! q = Some e ->
            exists row', rows !! q = Some row' /\ e = (key row', val row'))
    as Hzip.
  { intros q e (k & v & -> & Hk & Hv)%lookup_zip_with_Some.
    rewrite list_lookup_fmap in Hk. rewrite list_lookup_fmap in Hv.
    destruct (rows !! q) as [row'|]; simplify_eq/=. by exists row'. }
  destruct (list_find _ _) as [[q e]|] eqn:Hfind.
  - apply list_find_Some in Hfind as (Hq & He & _).
    apply Hzip in Hq as (row' & Hq & ->). simpl in He.
    assert (q = p) as ->.
    { apply (NoDup_lookup _ _ _ (key row) Hnd).
      - rewrite list_lookup_fmap, Hq. simpl. f_equal.
        rewrite He. by destruct (key row).
      - by rewrite list_lookup_fmap, Hp. }
    by simplify_eq.
  - exfalso. rewrite list_find_None, Forall_lookup in Hfind.
    apply (Hfind p (key row, val row)).
    + apply lookup_zip_with_Some. exists (key row), (val row).
      by rewrite !list_lookup_fmap, Hp.
    + simpl. by destruct (key row).
Qed.

(** A pivot table holds the missing value at labels that no entry has. *)
Lemma pivot_cell_missing {K A} `{EqDecision K} (key : A -> K * Z)
    (val : A -> float) (rows : list A) (t : K) (r : Z) :
  (forall row, row ∈ rows -> ~ ((key row).1 = t /\ (key row).2 = r)) ->
  pivot_cell (zip (key <$> rows) (val <$> rows)) t r = nan.
Proof.
  intros Hnone. unfold pivot_cell.
  destruct (list_find _ _) as [[q e]|] eqn:Hfind; [|done].
  apply list_find_Some in Hfind as (Hq & He & _).
  apply lookup_zip_with_Some in Hq as (k & v & -> & Hk & Hv).
  rewrite list_lookup_fmap in Hk.
  destruct (rows !! q) as [row|] eqn:Hrow; [|done].
  injection Hk as <-. simpl in He.
  exfalso. apply (Hnone row); [by eapply list_elem_of_lookup_2|].
  by rewrite He.
Qed.

(** What an accepted CSV gives: no repeated (timestamp, range) pair, every
    distinct timestamp parsed, at least one range, and the fields as the
    pivot table has them. *)
Lemma lidar_from_csv_inv (csv : list (lidar_row T))
    (wind : option (list (wind_row W))) (ds : lidar_dataset) :
  lidar_from_csv csv wind = Some ds ->
  NoDup ((fun r => (Timestamp r, Range_m r)) <$> csv) /\
  exists time_coord,
    mapM stamp_to_datetime (axis stamp_le (Timestamp <$> csv))
      = Some time_coord /\
    axis Z.le (Range_m <$> csv) <> [] /\
    ds = {| Time := time_coord;
            Range := axis Z.le (Range_m <$> csv);
            RWS := pivot_values (axis stamp_le (Timestamp <$> csv))
                     (axis Z.le (Range_m <$> csv))
                     (zip ((fun r => (Timestamp r, Range_m r)) <$> csv)
                          (RWS_ms <$> csv));
            DRWS := pivot_values (axis stamp_le (Timestamp <$> csv))
                      (axis Z.le (Range_m <$> csv))
                      (zip ((fun r => (Timestamp r, Range_m r)) <$> csv)
                           (DRWS_ms <$> csv));
            CNR := pivot_values (axis stamp_le (Timestamp <$> csv))
                     (axis Z.le (Range_m <$> csv))
                     (zip ((fun r => (Timestamp r, Range_m r)) <$> csv)
                          (CNR_db <$> csv));
            Windspeed := Windspeed ds |} /\
    match wind with
    | Some wind_csv =>
        exists w, merge_wind time_coord (axis Z.le (Range_m <$> csv)) wind_csv
                    = Some w /\ Windspeed ds = Some w
    | None => Windspeed ds = None
    end.
Proof.
  unfold lidar_from_csv. intros Hds.
  destruct (pivot_keys_ok _) eqn:Hkeys; [|done].
  apply bool_decide_eq_true in Hkeys. split; [done|].
  destruct (mapM stamp_to_datetime (axis stamp_le (Timestamp <$> csv)))
    as [time_coord|] eqn:Htime; [|done].
  simpl in Hds. destruct (decide _) as [|Hcols]; [done|].
  exists time_coord. split; [done|]. split; [done|].
  destruct wind as [wind_csv|]; simpl in Hds.
  - destruct (merge_wind _ _ _) as [w|] eqn:Hw; [|done].
    simpl in Hds. injection Hds as <-. simpl. split; [done|]. by exists w.
  - by injection Hds as <-.
Qed.

(** C8: the Time coordinate of the returned dataset is made of the
    distinct timestamps of the CSV, the Range coordinate of its distinct
    ranges, and the RWS grid holds, at the position of the timestamp and of
    the range of every CSV row, the RWS value of that row, and the missing
    value where the CSV has no row. *)
Theorem lidar_from_csv_grid (csv : list (lidar_row T))
    (wind : option (list (wind_row W))) (ds : lidar_dataset) :
  lidar_from_csv csv wind = Some ds ->
  exists index : list T,
    mapM stamp_to_datetime index = Some (Time ds) /\
    NoDup index /\
    (forall t, t ∈ index <-> exists row, row ∈ csv /\ Timestamp row = t) /\
    NoDup (Range ds) /\
    (forall r, r ∈ Range ds <-> exists row, row ∈ csv /\ Range_m row = r) /\
    length (RWS ds) = length index /\
    (forall i j row,
       row ∈ csv ->
       index !! i = Some (Timestamp row) ->
       Range ds !! j = Some (Range_m row) ->
       RWS ds !! i ≫= (fun cells => cells !! j) = Some (RWS_ms row)) /\
    (forall i j t r,
       index !! i = Some t -> Range ds !! j = Some r ->
       (forall row, row ∈ csv -> ~ (Timestamp row = t /\ Range_m row = r)) ->
       RWS ds !! i ≫= (fun cells => cells !! j) = Some nan).
Proof.
  intros (Hkeys & time_coord & Htime & _ & -> & _)%lidar_from_csv_inv.
  simpl.
  exists (axis stamp_le (Timestamp <$> csv)).
  destruct (axis_spec stamp_le (Timestamp <$> csv)) as [Hnd1 Hel1].
  destruct (axis_spec Z.le (Range_m <$> csv)) as [Hnd2 Hel2].
  split_and!; try done.
  - intros t. rewrite Hel1, list_elem_of_fmap.
    split; [intros (row & -> & ?)|intros (row & ? & <-)]; by exists row.
  - intros r. rewrite Hel2, list_elem_of_fmap.
    split; [intros (row & -> & ?)|intros (row & ? & <-)]; by exists row.
  - unfold pivot_values. by rewrite length_fmap.
  - intros i j row Hrow Hi Hj.
    rewrite (pivot_values_lookup _ _ _ _ _ _ _ Hi Hj).
    f_equal.
    apply (pivot_cell_entry (fun r : lidar_row T => (Timestamp r, Range_m r))
             RWS_ms); done.
  - intros i j t r Hi Hj Hnone.
    rewrite (pivot_values_lookup _ _ _ _ _ _ _ Hi Hj).
    f_equal.
    by apply (pivot_cell_missing
                (fun r : lidar_row T => (Timestamp r, Range_m r)) RWS_ms).
Qed.

(** The key of lines 107-109 names the dimension [Timestamp]; the array
    has the dimensions of line 104, so its Time axis takes the full slice
    and the row indices found by [searchsorted] are not used. *)
Lemma wind_key_drops_row_indices (c : nat) (col_indices row_indices : list nat) :
  key_to_tuple wspeed_dims
    [("Component", At c); ("Range", Take col_indices);
     ("Timestamp", Take row_indices)]
  = [At c; Full; Take col_indices].
Proof. reflexivity. Qed.

End LidarFacts.

Section LidarWitnesses.
Import Misc Spec Sample.

Lemma lidar_from_csv_grid_witness :
  exists ds, lidar_from_csv lidar2 None = Some ds /\
  exists index : list Z,
    mapM stamp_to_datetime index = Some (Time ds) /\
    NoDup index /\
    (forall t, t ∈ index <-> exists row, row ∈ lidar2 /\ Timestamp row = t) /\
    NoDup (Range ds) /\
    (forall r, r ∈ Range ds <-> exists row, row ∈ lidar2 /\ Range_m row = r) /\
    length (RWS ds) = length index /\
    (forall i j row,
       row ∈ lidar2 ->
       index !! i = Some (Timestamp row) ->
       Range ds !! j = Some (Range_m row) ->
       RWS ds !! i ≫= (fun cells => cells !! j) = Some (RWS_ms row)) /\
    (forall i j t r,
       index !! i = Some t -> Range ds !! j = Some r ->
       (forall row, row ∈ lidar2 ->
                    ~ (Timestamp row = t /\ Range_m row = r)) ->
       RWS ds !! i ≫= (fun cells => cells !! j) = Some nan).
Proof.
  destruct (lidar_from_csv lidar2 None) as [ds|] eqn:E;
    [|vm_compute in E; discriminate].
  exists ds. split; [reflexivity|].
  exact (lidar_from_csv_grid lidar2 None ds E).
Defined.

(** C6 on a wind file with one row, for the second of two profiles: the
    row index found for it is 1, yet the wind is written to both
    profiles, so the first profile, which has no wind row, is not NaN. *)
Lemma lidar_wind_written_to_every_profile :
  exists ds,
    lidar_from_csv lidar2 (Some wind1) = Some ds /\
    Time ds = [100; 200] /\ Range ds = [50] /\
    searchsorted (Time ds) [200] = [1%nat] /\
    Windspeed ds = Some [ [[f (-4)]; [f (-4)]];
                          [[f (-3)]; [f (-3)]];
                          [[f (-5)]; [f (-5)]] ].
Proof. eexists. split; [vm_compute; reflexivity|]. by vm_compute. Qed.

End LidarWitnesses.

(** * Further properties *)

(** ** The decoder wrapper: how the output directory is normalised *)

Section DecoderPaths.
Import Spec.

Lemma partition_snoc (c : ascii) (s : string) :
  Py.partition (String c EmptyString) (s +:+ String c EmptyString) =
    match Py.partition (String c EmptyString) s with
    | Some (b, a) => Some (b, a +:+ String c EmptyString)
    | None => Some (s, EmptyString)
    end.
Proof.
  induction s as [|d s IH].
  - rewrite partition_unfold. simpl. by destruct (ascii_dec c c).
  - rewrite append_cons, (partition_unfold _ (String d (s +:+ _))),
      (partition_unfold _ (String d s)). simpl.
    destruct (ascii_dec c d) as [->|Hne].
    + by destruct s.
    + rewrite IH. by destruct (Py.partition _ s) as [[b a]|].
Qed.

(** Splitting a text that ends with the separator gives one more, empty,
    part. *)
Lemma split_snoc (c : ascii) (s : string) :
  Py.split (String c EmptyString) (s +:+ String c EmptyString) =
    Py.split (String c EmptyString) s ++ [EmptyString].
Proof.
  remember (String.length s) as n eqn:Hn. revert s Hn.
  induction (lt_wf n) as [n _ IH]; intros s ->.
  rewrite (split_unfold _ (s +:+ _)), (split_unfold _ s) by done.
  rewrite partition_snoc.
  destruct (Py.partition (String c EmptyString) s) as [[b a]|] eqn:Hp.
  - simpl. f_equal.
    apply (IH (String.length a)); [|done].
    by apply (partition_shorter (String c EmptyString) s b a).
  - by rewrite split_unfold.
Qed.

Lemma path_root_slash (d : string) :
  d <> EmptyString -> d <> "/" -> d <> "//" ->
  Rrs.path_root (d +:+ "/") = Rrs.path_root d.
Proof.
  intros Hne H1 H2.
  destruct d as [|a [|b [|c d]]]; [done| | |done].
  - destruct (Ascii.eqb_spec a "/") as [->|Ha]; [done|].
    by destruct a as [[] [] [] [] [] [] [] []].
  - destruct (Ascii.eqb_spec a "/") as [->|Ha].
    + destruct (Ascii.eqb_spec b "/") as [->|Hb]; [done|].
      by destruct b as [[] [] [] [] [] [] [] []].
    + by destruct a as [[] [] [] [] [] [] [] []].
Qed.

Lemma filter_path_part_empty (parts : list string) :
  filter Rrs.path_part (parts ++ [EmptyString]) = filter Rrs.path_part parts.
Proof. rewrite filter_app. simpl. by rewrite app_nil_r. Qed.

(** X1: a slash at the end of the output directory makes no difference to the
    call of the decoder, for every directory but the empty one and the
    roots [/] and [//]. *)
Theorem decode_rrs_trailing_slash (bufrin outputs outdir : string)
    (log : list Rrs.decoder_call) :
  outdir <> EmptyString -> outdir <> "/" -> outdir <> "//" ->
  Rrs.decode_rrs bufrin outputs (outdir +:+ "/") log =
    Rrs.decode_rrs bufrin outputs outdir log.
Proof.
  intros Hne H1 H2. unfold Rrs.decode_rrs, Rrs.str_Path.
  rewrite path_root_slash by done.
  change "/" with (String "/" EmptyString) at 2.
  by rewrite split_snoc, filter_path_part_empty.
Qed.

Lemma decode_rrs_trailing_slash_witness :
  Rrs.decode_rrs "flight.bufr" "1" ("out/sub" +:+ "/") [] =
    Rrs.decode_rrs "flight.bufr" "1" "out/sub" [].
Proof.
  apply (decode_rrs_trailing_slash "flight.bufr" "1" "out/sub" []);
    discriminate.
Defined.

(** X2: a relative output directory and the same directory written after [./]
    give the same call of the decoder. *)
Theorem decode_rrs_leading_dot (bufrin outputs outdir : string)
    (log : list Rrs.decoder_call) :
  Rrs.path_root outdir = EmptyString ->
  Rrs.decode_rrs bufrin outputs ("./" +:+ outdir) log =
    Rrs.decode_rrs bufrin outputs outdir log.
Proof.
  intros Hrel. unfold Rrs.decode_rrs, Rrs.str_Path.
  rewrite (split_unfold "/" ("./" +:+ outdir)) by done.
  change ("./" +:+ outdir) with ("." +:+ String "/" outdir).
  rewrite (partition_no_char "/" "." outdir).
  2:{ apply no_char_cons. split; [done|apply no_char_nil]. }
  rewrite filter_cons_False by (by intros ?).
  by rewrite Hrel.
Qed.

Lemma decode_rrs_leading_dot_witness :
  Rrs.decode_rrs "flight.bufr" "1" ("./" +:+ "out") [] =
    Rrs.decode_rrs "flight.bufr" "1" "out" [].
Proof.
  apply (decode_rrs_leading_dot "flight.bufr" "1" "out" []). reflexivity.
Defined.

End DecoderPaths.

(** ** The balloon importer: rejected files and the shape of the result *)

Section BalloonEdges.
Import Misc Spec.
Context `{Pandas}.

Lemma header_end_None (lines : list string) :
  CRLF ∉ lines -> header_end lines = None.
Proof.
  induction lines as [|l lines IH]; intros Hno; [done|].
  apply not_elem_of_cons in Hno as [Hne Hno]. simpl.
  destruct (String.eqb_spec l CRLF); [congruence|]. by rewrite IH.
Qed.

(** X3: a file without a line that is exactly CR LF is rejected. *)
Theorem weather_balloon_no_blank_line (fs : FileSystem) (fname : string)
    (lines : list string) :
  readlines fs fname = Some lines -> CRLF ∉ lines ->
  weather_balloon fs fname = None.
Proof.
  intros Hl Hno. unfold weather_balloon, read_metadata.
  rewrite Hl. simpl. by rewrite header_end_None.
Qed.

Lemma metadata_loop_None (m : gmap string string) (ls : list string)
    (i : nat) (l : string) :
  ls !! i = Some l -> header_pair l = None -> metadata_loop m ls = None.
Proof.
  revert m i. induction ls as [|l0 ls IH]; intros m i Hi Hp; [done|].
  simpl. rewrite metadata_step_pair.
  destruct i as [|i]; simplify_eq/=; [by rewrite Hp|].
  destruct (header_pair l0) as [[k v]|]; [|done]. by eapply IH.
Qed.

(** X4: a header line without the separator [" : "] (once stripped) makes the
    importer raise. *)
Theorem weather_balloon_line_without_separator (fs : FileSystem)
    (fname : string) (lines : list string) (h i : nat) (l : string) :
  readlines fs fname = Some lines ->
  header_end lines = Some h ->
  (i < h)%nat -> lines !! i = Some l ->
  (forall b a, Py.strip l <> b +:+ " : " +:+ a) ->
  weather_balloon fs fname = None.
Proof.
  intros Hl Hh Hi Hli Hno. unfold weather_balloon, read_metadata.
  rewrite Hl. simpl. rewrite Hh. simpl.
  rewrite (metadata_loop_None _ _ i (Py.strip l)); [done| |].
  - apply header_lines_lookup. eauto.
  - destruct (header_pair (Py.strip l)) as [[k v]|] eqn:Hp; [|done].
    apply header_pair_spec in Hp as (k' & rest & [Hcut _] & _).
    by apply Hno in Hcut.
Qed.

(** X5: a header that has no line for one of the keys the importer looks up
    makes it raise. *)
Theorem weather_balloon_missing_key (fs : FileSystem) (fname : string)
    (lines : list string) (h : nat) (metadata : gmap string string)
    (key : string) :
  readlines fs fname = Some lines ->
  read_metadata lines = Some (h, metadata) ->
  key ∈ required_keys ->
  (forall i l v, (i < h)%nat -> lines !! i = Some l ->
                 ~ key_value (Py.strip l) key v) ->
  weather_balloon fs fname = None.
Proof.
  intros Hl Hm Hkey Hno.
  assert (metadata !! key = None) as Hnone.
  { destruct (metadata !! key) as [v|] eqn:Hv; [|done].
    destruct (read_metadata_spec _ _ _ Hm) as (_ & _ & Hspec).
    apply Hspec in Hv as (i & l & Hi & Hli & Hkv & _).
    by destruct (Hno i l v Hi Hli). }
  destruct (weather_balloon fs fname) as [ds|] eqn:Hw; [|done].
  apply weather_balloon_inv in Hw
    as (lines' & h' & md & bstart & b1 & Hl' & Hm' & _ & _ & _
        & H1 & H2 & H3 & H4 & H5 & H6 & H7 & H8).
  rewrite Hl in Hl'. injection Hl' as <-.
  rewrite Hm in Hm'. injection Hm' as <- <-.
  unfold required_keys in Hkey.
  repeat (apply elem_of_cons in Hkey as [->|Hkey]; [congruence|]).
  by apply elem_of_nil in Hkey.
Qed.

Lemma balloon_index_parts (fs : FileSystem) (h : nat)
    (metadata : gmap string string) (bstart : Z) (b1 : DataFrame)
    (index : list Z) :
  balloon_index fs h metadata = Some (bstart, b1, index) ->
  exists bdate btime strs stamps elapsed,
    bstart = day_start bdate + time_of_day btime /\
    read_csv fs balloon_path ";" (h + 1) = Some b1 /\
    df_get "Time Stamp" b1 = Some (StrCol strs) /\
    mapM (stamp_on bdate) strs = Some stamps /\
    df_get "Elapsed Time" b1 = Some (NumCol elapsed) /\
    add_days stamps (days_ahead stamps elapsed) = Some index.
Proof.
  unfold balloon_index. intros Hb.
  destruct (metadata !! "Flight") as [flight|]; [|done]. simpl in Hb.
  destruct (Py.split ", " flight !! 1%nat) as [d|]; [|done]. simpl in Hb.
  destruct (to_datetime d) as [bdate|]; [|done]. simpl in Hb.
  destruct (Py.split ", " flight !! 2%nat) as [t|]; [|done]. simpl in Hb.
  destruct (to_datetime t) as [btime|]; [|done]. simpl in Hb.
  destruct (read_csv fs balloon_path ";" (h + 1)) as [df|] eqn:Hcsv; [|done].
  simpl in Hb.
  destruct (df_get "Time Stamp" df) as [[strs|?]|] eqn:Hts; try done.
  simpl in Hb.
  destruct (mapM (stamp_on bdate) strs) as [stamps|] eqn:Hst; [|done].
  simpl in Hb.
  destruct (df_get "Elapsed Time" df) as [[?|elapsed]|] eqn:Het; try done.
  simpl in Hb.
  destruct (add_days stamps (days_ahead stamps elapsed)) as [ix|] eqn:Hadd;
    [|done].
  simpl in Hb. injection Hb as <- <- <-.
  by exists bdate, btime, strs, stamps, elapsed.
Qed.

Lemma day_start_add (t s : Z) :
  0 <= s < day -> day_start (day_start t + s) = day_start t.
Proof.
  intros Hs. unfold day_start, day in *. f_equal.
  rewrite Z.mul_comm, Z.div_add_l by lia. rewrite (Z.div_small s) by lia. lia.
Qed.

Lemma cumsum_from_bounds (acc : Z) (flags : list bool) (i : nat) (d : Z) :
  cumsum_from acc flags !! i = Some d -> acc <= d <= acc + Z.of_nat i + 1.
Proof.
  revert acc i. induction flags as [|b flags IH]; intros acc i; [done|].
  destruct i as [|i]; simpl.
  - intros [= <-]. destruct b; lia.
  - intros Hd%IH. destruct b; lia.
Qed.

Lemma days_ahead_bounds (stamps : list Z) (elapsed : list float) (i : nat)
    (k : Z) :
  days_ahead stamps elapsed !! i = Some k -> 0 <= k <= Z.of_nat i.
Proof.
  unfold days_ahead, cumsum. destruct i as [|i]; simpl.
  - intros [= <-]. lia.
  - intros Hk%cumsum_from_bounds. lia.
Qed.

Lemma add_days_lookup (stamps days index : list Z) (i : nat) (t : Z) :
  add_days stamps days = Some index -> index !! i = Some t ->
  exists s k, stamps !! i = Some s /\ days !! i = Some k /\ t = s + k * day.
Proof.
  unfold add_days. destruct (decide _); [|done].
  intros [= <-] (s & k & -> & Hs & Hk)%lookup_zip_with_Some. eauto.
Qed.

Lemma add_days_length (stamps days index : list Z) :
  add_days stamps days = Some index -> length index = length stamps.
Proof.
  unfold add_days. destruct (decide _) as [Hlen|]; [|done].
  intros [= <-]. rewrite length_zip_with. lia.
Qed.

Lemma stamps_on_lookup (bdate : Z) (strs : list string) (stamps : list Z)
    (i : nat) (s : Z) :
  mapM (stamp_on bdate) strs = Some stamps -> stamps !! i = Some s ->
  exists str tod, strs !! i = Some str /\ parse_hms str = Some tod /\
                  s = day_start bdate + tod.
Proof.
  rewrite mapM_Some. intros Hall Hs.
  destruct (Forall2_lookup_r _ _ _ _ _ Hall Hs) as (str & Hstr & Hon).
  unfold stamp_on in Hon. destruct (parse_hms str) as [tod|] eqn:Hp; [|done].
  simpl in Hon. injection Hon as <-. by exists str, tod.
Qed.

(** X6: the time index has one entry per data row; each entry keeps the time
    of day of its row and lies a whole number of days after the date of the
    Profile coordinate, at most as many days as rows precede it.  The first
    row is never moved. *)
Theorem weather_balloon_time_index (fs : FileSystem) (fname : string)
    (ds : balloon_dataset) :
  weather_balloon fs fname = Some ds ->
  exists lines h b1 strs,
    readlines fs fname = Some lines /\
    header_end lines = Some h /\
    read_csv fs balloon_path ";" (h + 1) = Some b1 /\
    df_get "Time Stamp" b1 = Some (StrCol strs) /\
    length (ds_Time ds) = length strs /\
    forall i t, ds_Time ds !! i = Some t ->
      exists str tod k,
        strs !! i = Some str /\ parse_hms str = Some tod /\
        0 <= k <= Z.of_nat i /\
        t = day_start (ds_Profile ds) + tod + k * day.
Proof.
  intros (lines & h & metadata & bstart & b1 & Hl & Hm & Hb & _ & Hp & _)
         %weather_balloon_inv.
  apply balloon_index_parts in Hb
    as (bdate & btime & strs & stamps & elapsed & -> & Hcsv & Hts & Hst & Het
        & Hadd).
  exists lines, h, b1, strs. split_and!; try done.
  - unfold read_metadata in Hm. destruct (header_end lines); [|done].
    simpl in Hm. destruct (metadata_loop _ _); [|done]. by simplify_eq/=.
  - rewrite (add_days_length _ _ _ Hadd). symmetry. by eapply length_mapM.
  - intros i t Hi.
    destruct (add_days_lookup _ _ _ _ _ Hadd Hi) as (s & k & Hs & Hk & ->).
    destruct (stamps_on_lookup _ _ _ _ _ Hst Hs) as (str & tod & Hstr & Htod & ->).
    exists str, tod, k. split_and!; [done..|by eapply days_ahead_bounds
                                     |by eapply days_ahead_bounds|].
    rewrite Hp, day_start_add; [done|].
    unfold time_of_day, day. apply Z.mod_pos_bound. lia.
Qed.

Lemma cumsum_from_false (acc : Z) (flags : list bool) (i : nat) (d : Z) :
  Forall (fun b => b = false) flags ->
  cumsum_from acc flags !! i = Some d -> d = acc.
Proof.
  intros Hall. revert acc i.
  induction Hall as [|b flags -> _ IH]; intros acc i; [done|].
  destruct i as [|i]; simpl.
  - intros [= <-]. lia.
  - intros Hd%IH. lia.
Qed.

(** X7: when the time of day never goes down from one row to the next, no day
    is added: every entry of the time index is on the date of the Profile
    coordinate. *)
Theorem weather_balloon_same_day (fs : FileSystem) (fname : string)
    (ds : balloon_dataset) :
  weather_balloon fs fname = Some ds ->
  (forall skiprows b1 strs tods,
     read_csv fs balloon_path ";" skiprows = Some b1 ->
     df_get "Time Stamp" b1 = Some (StrCol strs) ->
     mapM parse_hms strs = Some tods ->
     non_decreasing tods) ->
  forall i t, ds_Time ds !! i = Some t ->
              day_start t = day_start (ds_Profile ds).
Proof.
  intros (lines & h & metadata & bstart & b1 & Hl & Hm & Hb & _ & Hp & _)
         %weather_balloon_inv Hmono i t Hi.
  apply balloon_index_parts in Hb
    as (bdate & btime & strs & stamps & elapsed & -> & Hcsv & Hts & Hst & Het
        & Hadd).
  destruct (add_days_lookup _ _ _ _ _ Hadd Hi) as (s & k & Hs & Hk & ->).
  destruct (stamps_on_lookup _ _ _ _ _ Hst Hs) as (str & tod & Hstr & Htod & ->).
  apply stamps_on_day in Hst as (tods & Htods & -> & Hday).
  specialize (Hmono _ _ _ _ Hcsv Hts Htods).
  assert (k = 0) as ->.
  { unfold days_ahead, cumsum in Hk. destruct i as [|i]; simplify_eq/=; [done|].
    eapply cumsum_from_false; [|done].
    apply Forall_lookup. intros j b Hb.
    apply lookup_zip_with_Some in Hb as (lo & ok & -> & Hlo & _).
    apply steps_lookup_inv in Hlo as (x & x' & Hx & Hx' & ->).
    rewrite list_lookup_fmap in Hx. rewrite list_lookup_fmap in Hx'.
    destruct (tods !! j) as [a|] eqn:Ha; [|done].
    destruct (tods !! S j) as [a'|] eqn:Ha'; [|done]. simplify_eq/=.
    pose proof (Hmono j (S j) a a' (le_S _ _ (le_n _)) Ha Ha').
    destruct (Z.ltb_spec (day_start bdate + a' - (day_start bdate + a)) 0);
      [lia|done]. }
  rewrite Hp, Z.mul_0_l, Z.add_0_r.
  rewrite !day_start_add; [done| |].
  - unfold time_of_day, day. apply Z.mod_pos_bound. lia.
  - by eapply parse_hms_bound.
Qed.

End BalloonEdges.

Section BalloonEdgesWitnesses.
Import Misc Spec Sample.

Lemma weather_balloon_no_blank_line_witness :
  weather_balloon rejected_files "noblank.txt" = None.
Proof.
  apply (weather_balloon_no_blank_line rejected_files "noblank.txt"
           ["Flight : OKX, 86400, 90000" +:+ CRLF]); [reflexivity|].
  intros [Heq|Hin%elem_of_nil]%elem_of_cons; [discriminate|done].
Defined.

Lemma weather_balloon_line_without_separator_witness :
  weather_balloon rejected_files "nosep.txt" = None.
Proof.
  apply (weather_balloon_line_without_separator rejected_files "nosep.txt"
           ["Flight" +:+ CRLF; CRLF] 1 0 ("Flight" +:+ CRLF));
    [reflexivity|reflexivity|lia|reflexivity|].
  intros b a. apply partition_None. reflexivity.
Defined.

Lemma weather_balloon_missing_key_witness :
  weather_balloon rejected_files "nokey.txt" = None.
Proof.
  apply (weather_balloon_missing_key rejected_files "nokey.txt"
           ["Station Name (WMO #) : Upton" +:+ CRLF; CRLF] 1
           {[ "Station Name (WMO #)" := "Upton" ]} "Flight");
    [reflexivity|reflexivity|by left|].
  intros i l v Hi Hl. destruct i as [|i]; [|lia]. injection Hl as <-.
  intros Hkv%header_pair_spec. discriminate.
Defined.

Lemma weather_balloon_time_index_witness :
  exists ds, weather_balloon (files frame_midnight) "a.txt" = Some ds /\
  exists lines h b1 strs,
    readlines (files frame_midnight) "a.txt" = Some lines /\
    header_end lines = Some h /\
    read_csv (files frame_midnight) balloon_path ";" (h + 1) = Some b1 /\
    df_get "Time Stamp" b1 = Some (StrCol strs) /\
    length (ds_Time ds) = length strs /\
    forall i t, ds_Time ds !! i = Some t ->
      exists str tod k,
        strs !! i = Some str /\ parse_hms str = Some tod /\
        0 <= k <= Z.of_nat i /\
        t = day_start (ds_Profile ds) + tod + k * day.
Proof.
  destruct (weather_balloon (files frame_midnight) "a.txt") as [ds|] eqn:E;
    [|vm_compute in E; discriminate].
  exists ds. split; [reflexivity|].
  exact (weather_balloon_time_index (files frame_midnight) "a.txt" ds E).
Defined.

Lemma frame_day_ordered :
  forall (skiprows : nat) (b1 : DataFrame) strs tods,
    read_csv (files frame_day) balloon_path ";" skiprows = Some b1 ->
    df_get "Time Stamp" b1 = Some (StrCol strs) ->
    mapM parse_hms strs = Some tods ->
    non_decreasing tods.
Proof.
  intros skiprows b1 strs tods [= <-] [= <-] [= <-].
  intros [|[|[|i]]] [|[|[|j]]] a b Hij Ha Hb; simplify_eq/=; lia.
Defined.

Lemma weather_balloon_same_day_witness :
  exists ds, weather_balloon (files frame_day) "a.txt" = Some ds /\
  forall i t, ds_Time ds !! i = Some t ->
              day_start t = day_start (ds_Profile ds).
Proof.
  destruct (weather_balloon (files frame_day) "a.txt") as [ds|] eqn:E;
    [|vm_compute in E; discriminate].
  exists ds. split; [reflexivity|].
  exact (weather_balloon_same_day (files frame_day) "a.txt" ds E
           frame_day_ordered).
Defined.

End BalloonEdgesWitnesses.

(** ** The wind regression: frames with repeated labels, and what
       [max_se] can change *)

Section WindRegressionRows.
Import Misc Spec.
Context {L : Type} `{EqDecision L} `{Numpy} `{Statsmodels}.

Lemma loc_set_labels (label : L) (row : result_row) (df : results L) :
  (loc_set label row df).*1 = df.*1.
Proof.
  unfold loc_set. rewrite <- list_fmap_compose. apply list_fmap_ext.
  intros _ [k r] _. simpl. by destruct (decide (k = label)).
Qed.

Lemma regression_loop_labels (los : list Z) (max_se : float)
    (cols : list (L * list float)) (df : results L) :
  (fold_left (regression_step los max_se) cols df).*1 = df.*1.
Proof.
  revert df. induction cols as [|col cols IH]; intros df; [done|].
  simpl. rewrite IH. unfold regression_step.
  destruct (skipped _ _); [done|]. apply loc_set_labels.
Qed.

Lemma wind_regression_fst (wdf : wind_frame L) (elevation max_se : float) :
  (wind_regression wdf elevation max_se).*1 = (columns wdf).*1.
Proof.
  unfold wind_regression. rewrite regression_loop_labels.
  rewrite <- list_fmap_compose. by apply list_fmap_ext.
Qed.

(** X8: the result has one row per column of the frame, under the labels
    of the columns, in their order. *)
Theorem wind_regression_labels (wdf : wind_frame L) (elevation max_se : float) :
  (wind_regression wdf elevation max_se).*1 = (columns wdf).*1 /\
  length (wind_regression wdf elevation max_se) = length (columns wdf).
Proof.
  split; [apply wind_regression_fst|].
  by rewrite <- (length_fmap fst), wind_regression_fst, length_fmap.
Qed.

Lemma final_row_None (los : list Z) (max_se : float)
    (cols : list (L * list float)) (k : L) (r : option result_row) :
  final_row los max_se cols k r = None <->
  r = None /\ forall i c, cols !! i = Some (k, c) -> skipped los c = true.
Proof.
  revert r. induction cols as [|[k0 c0] cols IH]; intros r; simpl.
  { split; [by intros ->|by intros [-> _]]. }
  rewrite IH. destruct (decide (k0 = k)) as [->|Hne];
    [destruct (skipped los c0) eqn:Hs|].
  - split; intros [-> Hall]; (split; [done|]).
    + intros [|i] c Hi; simplify_eq/=; eauto.
    + intros i c Hi. by apply (Hall (S i)).
  - split; [by intros [? _]|]. intros [_ Hall].
    specialize (Hall 0%nat c0 eq_refl). congruence.
  - split; intros [-> Hall]; (split; [done|]).
    + intros [|i] c Hi; simplify_eq/=; eauto.
    + intros i c Hi. by apply (Hall (S i)).
Qed.

Lemma final_row_Some (los : list Z) (max_se : float)
    (cols : list (L * list float)) (k : L) (r : option result_row)
    (row : result_row) :
  final_row los max_se cols k r = Some row <->
  (r = Some row /\
   forall i c, cols !! i = Some (k, c) -> skipped los c = true) \/
  (exists i c, cols !! i = Some (k, c) /\ skipped los c = false /\
     row = df_data los max_se c /\
     forall j c', (i < j)%nat -> cols !! j = Some (k, c') ->
                  skipped los c' = true).
Proof.
  revert r. induction cols as [|[k0 c0] cols IH]; intros r; simpl.
  { split; [by left|]. intros [[-> _]|(i & c & ? & _)]; done. }
  rewrite IH. clear IH.
  assert (forall r', 
    (k0 = k -> skipped los c0 = false -> r' = Some (df_data los max_se c0)) ->
    (~ (k0 = k /\ skipped los c0 = false) -> r' = r) ->
    ((r' = Some row /\
      forall i c, cols !! i = Some (k, c) -> skipped los c = true) \/
     (exists i c, cols !! i = Some (k, c) /\ skipped los c = false /\
        row = df_data los max_se c /\
        forall j c', (i < j)%nat -> cols !! j = Some (k, c') ->
                     skipped los c' = true)) <->
    ((r = Some row /\
      forall i c, ((k0, c0) :: cols) !! i = Some (k, c) ->
                  skipped los c = true) \/
     (exists i c, ((k0, c0) :: cols) !! i = Some (k, c) /\
        skipped los c = false /\ row = df_data los max_se c /\
        forall j c', (i < j)%nat -> ((k0, c0) :: cols) !! j = Some (k, c') ->
                     skipped los c' = true))) as Hcase.
  { intros r' Hfit Hkeep.
    destruct (decide (k0 = k /\ skipped los c0 = false)) as [[-> Hs]|Hno].
    - rewrite (Hfit eq_refl Hs). split.
      + intros [[[= <-] Hall]|(i & c & Hi & Hc & -> & Hlater)]; right.
        * exists 0%nat, c0. split_and!; [done..|].
          intros [|j] c' Hj Hc'; [lia|]. by apply (Hall j).
        * exists (S i), c. split_and!; [done..|].
          intros [|j] c' Hj Hc'; [lia|]. apply (Hlater j); [lia|done].
      + intros [[_ Hall]|(i & c & Hi & Hc & -> & Hlater)].
        * specialize (Hall 0%nat c0 eq_refl). congruence.
        * destruct i as [|i]; simplify_eq/=.
          -- left. split; [done|]. intros j c' Hj.
             apply (Hlater (S j)); [lia|done].
          -- right. exists i, c. split_and!; [done..|].
             intros j c' Hj Hc'. apply (Hlater (S j)); [lia|done].
    - rewrite (Hkeep Hno). split.
      + intros [[-> Hall]|(i & c & Hi & Hc & -> & Hlater)].
        * left. split; [done|]. intros [|i] c Hi; simplify_eq/=; [|eauto].
          destruct (skipped los c) eqn:Hs; [done|]. by destruct Hno.
        * right. exists (S i), c. split_and!; [done..|].
          intros [|j] c' Hj Hc'; [lia|]. apply (Hlater j); [lia|done].
      + intros [[-> Hall]|(i & c & Hi & Hc & -> & Hlater)].
        * left. split; [done|]. intros i c Hi. by apply (Hall (S i)).
        * destruct i as [|i]; simplify_eq/=; [by destruct Hno|].
          right. exists i, c. split_and!; [done..|].
          intros j c' Hj Hc'. apply (Hlater (S j)); [lia|done]. }
  apply Hcase.
  - intros -> Hs. by rewrite decide_True, Hs.
  - intros Hno. destruct (decide (k0 = k)) as [->|]; [|done].
    destruct (skipped los c0) eqn:Hs; [done|]. by destruct Hno.
Qed.

Lemma wind_regression_lookup (wdf : wind_frame L) (elevation max_se : float)
    (n : nat) (label : L) (col : list float) :
  columns wdf !! n = Some (label, col) ->
  wind_regression wdf elevation max_se !! n =
    Some (label, final_row (los wdf) max_se (columns wdf) label None).
Proof.
  intros Hn. unfold wind_regression.
  apply regression_loop_lookup. by rewrite list_lookup_fmap, Hn.
Qed.

(** X9: whatever the labels: the result row of a column stays unset exactly
    when every column that carries its label is skipped. *)
Theorem wind_regression_unset (wdf : wind_frame L) (elevation max_se : float)
    (n : nat) (label : L) (col : list float) :
  columns wdf !! n = Some (label, col) ->
  wind_regression wdf elevation max_se !! n = Some (label, None) <->
  forall i c, columns wdf !! i = Some (label, c) ->
              skipped (los wdf) c = true.
Proof.
  intros Hn. rewrite (wind_regression_lookup _ _ _ _ _ _ Hn).
  split.
  - intros [= Hr]. by apply final_row_None in Hr as [_ Hall].
  - intros Hall. do 2 f_equal. by apply final_row_None.
Qed.

(** X10: whatever the labels: a result row that is set holds the fit of the last
    column with its label that is not skipped. *)
Theorem wind_regression_last_fitted (wdf : wind_frame L)
    (elevation max_se : float) (n : nat) (label : L) (col : list float)
    (row : result_row) :
  columns wdf !! n = Some (label, col) ->
  wind_regression wdf elevation max_se !! n = Some (label, Some row) <->
  exists i c,
    columns wdf !! i = Some (label, c) /\
    skipped (los wdf) c = false /\
    row = df_data (los wdf) max_se c /\
    forall j c', (i < j)%nat -> columns wdf !! j = Some (label, c') ->
                 skipped (los wdf) c' = true.
Proof.
  intros Hn. rewrite (wind_regression_lookup _ _ _ _ _ _ Hn).
  split.
  - intros [= Hr]. by apply final_row_Some in Hr as [[? _]|Hr].
  - intros Hr. do 2 f_equal. apply final_row_Some. by right.
Qed.

Lemma gate_not_nan (max_se coef se : float) :
  isnan (gate max_se coef se) = false ->
  isfinite se = true /\ fgt se max_se = false.
Proof.
  unfold gate. by destruct (fgt se max_se), (isfinite se).
Qed.

(** X11: in every row of the result, a coefficient that is not NaN has a
    standard error that is finite and not above [max_se]. *)
Theorem wind_regression_quality (wdf : wind_frame L)
    (elevation max_se : float) (n : nat) (label : L) (row : result_row) :
  wind_regression wdf elevation max_se !! n = Some (label, Some row) ->
  (isnan (r_x row) = false ->
   isfinite (r_xse row) = true /\ fgt (r_xse row) max_se = false) /\
  (isnan (r_y row) = false ->
   isfinite (r_yse row) = true /\ fgt (r_yse row) max_se = false) /\
  (isnan (r_z row) = false ->
   isfinite (r_zse row) = true /\ fgt (r_zse row) max_se = false).
Proof.
  intros Hrow.
  assert (exists col, columns wdf !! n = Some (label, col)) as [col Hn].
  { assert ((wind_regression wdf elevation max_se).*1 !! n = Some label)
      as Hl by (by rewrite list_lookup_fmap, Hrow).
    rewrite wind_regression_fst, list_lookup_fmap in Hl.
    destruct (columns wdf !! n) as [[k col]|]; simplify_eq/=. by exists col. }
  rewrite (wind_regression_lookup _ _ _ _ _ _ Hn) in Hrow.
  injection Hrow as Hrow.
  apply final_row_Some in Hrow as [[? _]|(i & c & _ & _ & -> & _)]; [done|].
  unfold df_data.
  destruct (OLS_fit (ymat c) (xmat (los wdf))) as [[[cx cy] cz] [[sx sy] sz]].
  simpl. split_and!; apply gate_not_nan.
Qed.

Lemma mask_select_subseteq {A} (l : list A) (mask : list bool) :
  mask_select l mask ⊆ l.
Proof.
  intros x (i & Hi & _)%mask_select_elem. by eapply list_elem_of_lookup_2.
Qed.

Lemma uniq_los_length (los : list Z) (col : list float) :
  (length (uniq_los los col) <= length (remove_dups los))%nat.
Proof.
  apply submseteq_length, NoDup_submseteq; [apply NoDup_remove_dups|].
  intros x. unfold uniq_los. rewrite !elem_of_remove_dups.
  apply mask_select_subseteq.
Qed.

(** X12: a frame whose LOS IDs take fewer than three distinct values yields no
    fit at all: every row of the result stays unset. *)
Theorem wind_regression_too_few_los (wdf : wind_frame L)
    (elevation max_se : float) (n : nat) (label : L) (col : list float) :
  (length (remove_dups (los wdf)) < 3)%nat ->
  columns wdf !! n = Some (label, col) ->
  wind_regression wdf elevation max_se !! n = Some (label, None).
Proof.
  intros Hfew Hn. rewrite (wind_regression_lookup _ _ _ _ _ _ Hn).
  do 2 f_equal. apply final_row_None. split; [done|].
  intros i c _. unfold skipped.
  pose proof (uniq_los_length (los wdf) c).
  destruct (Nat.ltb_spec (length (uniq_los (los wdf) c)) 3); [done|lia].
Qed.

Lemma final_row_standard_errors (los : list Z) (m1 m2 : float)
    (cols : list (L * list float)) (k : L) (r1 r2 : option result_row) :
  (fun r => (r_xse r, r_yse r, r_zse r)) <$> r1 =
    (fun r => (r_xse r, r_yse r, r_zse r)) <$> r2 ->
  (fun r => (r_xse r, r_yse r, r_zse r)) <$> final_row los m1 cols k r1 =
    (fun r => (r_xse r, r_yse r, r_zse r)) <$> final_row los m2 cols k r2.
Proof.
  revert r1 r2. induction cols as [|[k0 c0] cols IH]; intros r1 r2 Hr; [done|].
  simpl. apply IH. destruct (decide (k0 = k)); [|done].
  destruct (skipped los c0); [done|]. simpl. unfold df_data.
  by destruct (OLS_fit (ymat c0) (xmat los)) as [[[cx cy] cz] [[sx sy] sz]].
Qed.

(** X13: the threshold [max_se] only blanks coefficients: which rows are set,
    and the standard errors in them, do not depend on it. *)
Theorem wind_regression_max_se_keeps_errors (wdf : wind_frame L)
    (elevation m1 m2 : float) :
  standard_errors (wind_regression wdf elevation m1) =
    standard_errors (wind_regression wdf elevation m2).
Proof.
  apply list_eq. intros n. unfold standard_errors.
  rewrite !list_lookup_fmap.
  destruct (columns wdf !! n) as [[k col]|] eqn:Hn.
  - rewrite !(wind_regression_lookup _ _ _ _ _ _ Hn). simpl. do 2 f_equal.
    by apply final_row_standard_errors.
  - assert (forall m, wind_regression wdf elevation m !! n = None) as Hout.
    { intros m. apply lookup_ge_None.
      rewrite <- (length_fmap fst), wind_regression_fst, length_fmap.
      by apply lookup_ge_None. }
    by rewrite !Hout.
Qed.

End WindRegressionRows.

Section WindRegressionRowsWitnesses.
Import Misc Spec Sample.

Lemma wind_regression_unset_witness :
  wind_regression wdf3 (f 75) (f 1) !! 1%nat = Some (125, None) <->
  forall i c, columns wdf3 !! i = Some (125, c) ->
              skipped (los wdf3) c = true.
Proof.
  apply (wind_regression_unset wdf3 (f 75) (f 1) 1 125 [nan; f 4; nan]).
  reflexivity.
Defined.

Lemma wind_regression_last_fitted_witness :
  wind_regression wdf_repeated4 (f 75) (f 10) !! 0%nat
    = Some (100, Some (df_data (los wdf_repeated4) (f 10)
                         [f 2; f 4; f 6; f 8])) <->
  exists i c,
    columns wdf_repeated4 !! i = Some (100, c) /\
    skipped (los wdf_repeated4) c = false /\
    df_data (los wdf_repeated4) (f 10) [f 2; f 4; f 6; f 8]
      = df_data (los wdf_repeated4) (f 10) c /\
    forall j c', (i < j)%nat -> columns wdf_repeated4 !! j = Some (100, c') ->
                 skipped (los wdf_repeated4) c' = true.
Proof.
  apply (wind_regression_last_fitted wdf_repeated4 (f 75) (f 10) 0 100
           [f 1; f 2; f 3; f 4]).
  reflexivity.
Defined.

Lemma wind_regression_quality_witness :
  exists row,
    wind_regression wdf3 (f 75) (f 1) !! 0%nat = Some (100, Some row) /\
    (isnan (r_x row) = false ->
     isfinite (r_xse row) = true /\ fgt (r_xse row) (f 1) = false) /\
    (isnan (r_y row) = false ->
     isfinite (r_yse row) = true /\ fgt (r_yse row) (f 1) = false) /\
    (isnan (r_z row) = false ->
     isfinite (r_zse row) = true /\ fgt (r_zse row) (f 1) = false).
Proof.
  exists (df_data (los wdf3) (f 1) [f 1; f (-2); f 3]).
  assert (wind_regression wdf3 (f 75) (f 1) !! 0%nat
          = Some (100, Some (df_data (los wdf3) (f 1) [f 1; f (-2); f 3])))
    as E by (vm_compute; reflexivity).
  split; [exact E|].
  exact (wind_regression_quality wdf3 (f 75) (f 1) 0 100 _ E).
Defined.

Lemma wind_regression_too_few_los_witness :
  wind_regression wdf_two (f 75) (f 1) !! 1%nat = Some (125, None).
Proof.
  apply (wind_regression_too_few_los wdf_two (f 75) (f 1) 1 125
           [f 2; f 4; f 6; f 8]).
  - vm_compute. lia.
  - reflexivity.
Defined.

End WindRegressionRowsWitnesses.

(** ** The radiometer importer: rejected files, the keys of the tables,
       names and units *)

Section RadiometerEdges.
Import Misc Spec.
Context `{Pandas}.

Lemma where_from_false (i : nat) (flags : list bool) :
  Forall (fun b => b = false) flags -> where_from i flags = [].
Proof.
  intros Hall. revert i. induction Hall as [|b flags -> _ IH]; intros i; [done|].
  simpl. apply IH.
Qed.

(** X14: a file without a line that starts with [Record], the empty file among
    them, is rejected. *)
Theorem mwr_from_csv_no_header (lines : list string) :
  (forall l, l ∈ lines -> Py.startswith "Record" l = false) ->
  mwr_csvs lines = None.
Proof.
  intros Hno. unfold mwr_csvs.
  destruct (mapM line_type lines) as [types|]; [|done]. simpl.
  unfold header_positions, np_where. rewrite where_from_false; [done|].
  apply Forall_fmap, Forall_forall. intros l Hl. by apply Hno.
Qed.

Lemma rstrip_empty (s : string) (c : ascii) :
  Py.rstrip s = EmptyString -> Py.isspace c = false -> no_char c s.
Proof.
  intros Hs Hc. induction s as [|d s IH]; [apply no_char_nil|].
  simpl in Hs. destruct (Py.rstrip s) eqn:Hr; [|done].
  destruct (Py.isspace d) eqn:Hd; [|done].
  apply no_char_cons. split; [congruence|by apply IH].
Qed.

Lemma strip_empty (s : string) :
  Py.strip s = EmptyString -> Py.rstrip s = EmptyString.
Proof.
  unfold Py.strip.
  assert (Py.rstrip s = EmptyString \/ Py.lstrip (Py.rstrip s) <> EmptyString)
    as [?|?]; [|done|done].
  induction s as [|d s IH]; [by left|]. simpl.
  destruct (Py.rstrip s) as [|e r] eqn:Hr.
  - destruct (Py.isspace d) eqn:Hd; [by left|]. right. simpl. by rewrite Hd.
  - right. destruct IH as [?|IH]; [done|].
    simpl. simpl in IH. by destruct (Py.isspace d).
Qed.

Lemma blank_cons (d : ascii) (s : string) :
  (forall c, Py.isspace c = false -> no_char c (String d s)) ->
  Py.isspace d = true /\ forall c, Py.isspace c = false -> no_char c s.
Proof.
  intros Hblank. split.
  - destruct (Py.isspace d) eqn:Hd; [done|].
    apply Hblank, no_char_cons in Hd as [? _]. done.
  - intros c Hc. by apply Hblank, no_char_cons in Hc as [_ ?].
Qed.

Lemma int_rskip_blank (s : string) :
  (forall c, Py.isspace c = false -> no_char c s) ->
  forall c, Py.isspace c = false -> no_char c (Py.int_rskip s).
Proof.
  induction s as [|d s IH]; intros Hblank c Hc; [apply no_char_nil|].
  apply blank_cons in Hblank as [Hd Hblank]. simpl.
  specialize (IH Hblank c Hc).
  destruct (Py.int_rskip s) as [|e r].
  - destruct (Py.int_space d); [apply no_char_nil|].
    apply no_char_cons. split; [congruence|apply no_char_nil].
  - apply no_char_cons. split; [congruence|done].
Qed.

Lemma int_lskip_blank (s : string) :
  (forall c, Py.isspace c = false -> no_char c s) ->
  forall c, Py.isspace c = false -> no_char c (Py.int_lskip s).
Proof.
  induction s as [|d s IH]; intros Hblank c Hc; [apply no_char_nil|].
  simpl. destruct (Py.int_space d); [|by apply Hblank].
  apply blank_cons in Hblank as [_ Hblank]. by apply IH.
Qed.

(** A text of white space only is no integer literal, also when it holds
    separators that [int] does not skip. *)
Lemma int_blank (s : string) :
  Py.rstrip s = EmptyString -> Py.int s = None.
Proof.
  intros Hs. unfold Py.int.
  assert (forall c, Py.isspace c = false ->
                    no_char c (Py.int_lskip (Py.int_rskip s))) as Hblank.
  { apply int_lskip_blank, int_rskip_blank. intros c. by apply rstrip_empty. }
  destruct (Py.int_lskip (Py.int_rskip s)) as [|d r]; [done|].
  apply blank_cons in Hblank as [Hd _].
  destruct d as [b0 b1 b2 b3 b4 b5 b6 b7].
  destruct b0, b1, b2, b3, b4, b5, b6, b7; try discriminate Hd; reflexivity.
Qed.

Lemma cut_from_comma_none (s : string) :
  no_char "," s -> cut_from_comma false s = s.
Proof.
  intros Hno. rewrite <- (append_empty_r s) at 1.
  rewrite cut_keep by done. simpl. apply append_empty_r.
Qed.

Lemma drop_two_fields_none (s : string) :
  no_char "," s -> drop_two_fields s = s.
Proof.
  intros Hno. unfold drop_two_fields.
  by rewrite (partition_absent "," s Hno).
Qed.

(** X15: a file with a line of white space only, a blank line among them, is
    rejected. *)
Theorem mwr_from_csv_blank_line (lines : list string) (l : string) :
  l ∈ lines -> Py.strip l = EmptyString -> mwr_csvs lines = None.
Proof.
  intros Hl Hblank. unfold mwr_csvs.
  destruct (mapM line_type lines) as [types|] eqn:Htypes; [|done].
  assert (is_Some (line_type l)) as [t Ht].
  { assert (is_Some (mapM line_type lines)) as Hsome by done.
    rewrite mapM_is_Some, Forall_forall in Hsome. by apply Hsome. }
  assert (no_char "," l) as Hno.
  { apply rstrip_empty; [by apply strip_empty|done]. }
  unfold line_type in Ht.
  rewrite drop_two_fields_none, cut_from_comma_none in Ht by done.
  rewrite int_blank in Ht; [done|by apply strip_empty].
Qed.

(** X16: a line with two fields only is not rejected as such: it is classified
    by its first field. *)
Theorem line_type_two_fields (f1 f2 : string) :
  no_char "," f1 -> no_char "," f2 -> no_char LF f2 ->
  line_type (f1 +:+ "," +:+ f2 +:+ String LF EmptyString) = Py.int f1.
Proof.
  intros H1 H2 Hlf. unfold line_type, drop_two_fields.
  change (f1 +:+ "," +:+ f2 +:+ String LF EmptyString)
    with (f1 +:+ String "," (f2 +:+ String LF EmptyString)).
  rewrite partition_no_char by done.
  rewrite partition_absent.
  2:{ apply no_char_app. split; [done|].
      apply no_char_cons. split; [done|apply no_char_nil]. }
  rewrite cut_keep by done. simpl.
  rewrite cut_skip by done. simpl.
  apply int_eol.
Qed.

Lemma csvs_loop_keys (lines : list string) (types : list Z)
    (headers : list nat) (csvs0 csvs : gmap string DataFrame)
    (key : string) (df : DataFrame) :
  length types = length lines ->
  (forall n, n ∈ headers -> header_at lines n) ->
  csvs_loop lines types csvs0 headers = Some csvs ->
  csvs !! key = Some df ->
  csvs0 !! key = Some df \/
  exists n t header,
    lines !! n = Some header /\ Py.startswith "Record" header = true /\
    types !! n = Some t /\ key = Py.str_of_int t /\
    - 2 ^ 63 <= t < 2 ^ 63 /\
    lines_selected lines types t <> [] /\
    read_csv_text (Py.concat (header :: lines_selected lines types t))
      = Some df.
Proof.
  intros Hlen. revert csvs0.
  induction headers as [|n headers IH]; intros csvs0 Hhead; simpl.
  { intros [= ->] Hkey. by left. }
  destruct (csvs_step lines types csvs0 n) as [csvs1|] eqn:Hstep; [|done].
  intros Hrest Hkey.
  destruct (IH csvs1) as [Hin|?]; [|done|done| |by right].
  { intros n' Hn'. apply Hhead. by right. }
  apply csvs_step_inv in Hstep
    as (t & codes & Ht & Hcodes
        & [[_ ->]|(Hsel & text & df' & Htext & Hdf & ->)]);
    [by left|].
  destruct (decide (key = Py.str_of_int t)) as [->|Hne].
  2:{ left. by rewrite lookup_insert_ne in Hin. }
  rewrite lookup_insert_eq in Hin. injection Hin as ->.
  right.
  destruct (csv_lines_inv lines types n t codes text) as (header & Hheader & ->);
    [done..|].
  destruct (Hhead n) as (header' & Hheader' & Hrec); [by left|].
  rewrite Hheader in Hheader'. injection Hheader' as <-.
  rewrite (lines_of_codes_selected _ _ t) in Hdf by done.
  exists n, t, header. split_and!; try done.
  - by apply acceptable_types_fits in Hcodes as [[? ?] _].
  - by apply acceptable_types_fits in Hcodes as [[? ?] _].
  - rewrite <- (lines_of_codes_selected _ _ t codes) by done.
    by rewrite <- (where_is_type_nil lines types codes).
Qed.

Lemma mwr_csvs_loop (lines : list string) (csvs : gmap string DataFrame) :
  mwr_csvs lines = Some csvs ->
  exists types, mapM line_type lines = Some types /\
    csvs_loop lines types ∅ (header_positions lines) = Some csvs.
Proof.
  unfold mwr_csvs. intros Hcsvs.
  destruct (mapM line_type lines) as [types|]; [|done].
  simpl in Hcsvs. exists types. split; [done|].
  by destruct (header_positions lines).
Qed.


(** X18: a file whose header lines all have a type code other than 100 has no
    table of record titles: the step that reads the titles raises. *)
Theorem mwr_from_csv_no_titles (lines : list string) :
  (forall l, l ∈ lines -> Py.startswith "Record" l = true ->
             line_type l <> Some 100) ->
  mwr_units lines = None.
Proof.
  intros Hno. unfold mwr_units.
  destruct (mwr_csvs lines) as [csvs|] eqn:Hcsvs; [|done]. simpl.
  unfold record_types.
  destruct (csvs !! "100") as [df|] eqn:Hdf; [|done]. exfalso.
  apply mwr_csvs_loop in Hcsvs as (types & Htypes & Hloop).
  destruct (csvs_loop_keys lines types (header_positions lines) ∅ csvs
              "100" df)
    as [Hin|(n & t & header & Hheader & Hrec & Ht & Hkey & _)];
    [symmetry; by eapply length_mapM
    |intros n; apply header_positions_elem
    |done|done
    |by rewrite lookup_empty in Hin
    |].
  apply (Hno header); [by eapply list_elem_of_lookup_2|done|].
  rewrite mapM_Some in Htypes.
  destruct (Forall2_lookup_l _ _ _ _ _ Htypes Hheader) as (t' & Ht' & ->).
  rewrite Ht in Ht'. injection Ht' as <-. f_equal.
  apply str_of_int_inj. by rewrite <- Hkey.
Qed.

Lemma partition_paren (name rest : string) :
  no_char "(" name ->
  Py.partition " (" (name +:+ " (" +:+ rest) = Some (name, rest).
Proof.
  induction name as [|d name IH]; intros Hno.
  - rewrite partition_unfold. simpl. by destruct rest.
  - apply no_char_cons in Hno as [Hne Hno].
    rewrite append_cons, partition_unfold.
    assert (String.prefix " (" (String d (name +:+ " (" +:+ rest)) = false)
      as ->.
    { destruct (String.prefix " (" _) eqn:Hp; [|done].
      apply prefix_spec in Hp as [r Hr].
      change (" (" +:+ r) with (String " " (String "(" r)) in Hr.
      injection Hr as _ Hr.
      destruct name as [|e name]; [done|].
      apply no_char_cons in Hno as [Hne' _].
      rewrite append_cons in Hr. by injection Hr as -> _. }
    by rewrite IH.
Qed.

Lemma partition_no_paren (s : string) :
  no_char "(" s -> Py.partition " (" s = None.
Proof.
  intros Hno. destruct (Py.partition " (" s) as [[b a]|] eqn:Hp; [|done].
  apply partition_Some in Hp as ->. exfalso.
  apply (Hno (b +:+ " ") a). by rewrite append_assoc.
Qed.

Lemma line_has_app (c : ascii) (p r : string) :
  c <> LF -> no_char LF p -> line_has c (p +:+ String c r) = true.
Proof.
  intros Hc. induction p as [|d p IH]; intros Hno; simpl.
  - destruct (Ascii.eqb_spec c LF); [done|]. by rewrite Ascii.eqb_refl.
  - apply no_char_cons in Hno as [Hne Hno].
    destruct (Ascii.eqb_spec d LF); [done|].
    destruct (Ascii.eqb d c); [done|]. by apply IH.
Qed.

Lemma line_has_absent (c : ascii) (s : string) :
  no_char c s -> line_has c s = false.
Proof.
  induction s as [|d s IH]; intros Hno; [done|]. simpl.
  apply no_char_cons in Hno as [Hne Hno].
  destruct (Ascii.eqb d LF); [done|].
  destruct (Ascii.eqb_spec d c); [done|]. by apply IH.
Qed.

Lemma sub_parens_cons (cutting : bool) (c : ascii) (s : string) :
  sub_parens cutting (String c s) =
    if Ascii.eqb c LF then String c (sub_parens false s)
    else if cutting then sub_parens true s
    else if line_has "(" (String c s) then sub_parens false s
    else if Ascii.eqb c ")" then sub_parens true s
    else String c (sub_parens false s).
Proof. done. Qed.

Lemma sub_parens_drop (p r : string) :
  no_char LF p -> sub_parens false (p +:+ String "(" r) = sub_parens false r.
Proof.
  induction p as [|d p IH]; intros Hno; [done|].
  pose proof (line_has_app "(" (String d p) r) as Hhas.
  apply no_char_cons in Hno as [Hne Hno].
  rewrite append_cons in *. rewrite sub_parens_cons.
  destruct (Ascii.eqb_spec d LF); [done|].
  rewrite Hhas; [by apply IH|done|].
  apply no_char_cons. by split.
Qed.

Lemma sub_parens_keep (u r : string) :
  no_char "(" (u +:+ r) -> no_char ")" u -> no_char LF u ->
  sub_parens false (u +:+ r) = u +:+ sub_parens false r.
Proof.
  induction u as [|d u IH]; intros Hopen Hclose Hlf; [done|].
  pose proof (line_has_absent "(" _ Hopen) as Hhas.
  rewrite append_cons in *.
  apply no_char_cons in Hopen as [_ Hopen].
  apply no_char_cons in Hclose as [Hne Hclose].
  apply no_char_cons in Hlf as [Hne' Hlf].
  rewrite sub_parens_cons, Hhas.
  destruct (Ascii.eqb_spec d LF); [done|].
  destruct (Ascii.eqb_spec d ")"); [done|].
  by rewrite IH.
Qed.

(** X19: a title written as a name, a blank, and the unit in parentheses gives
    back this name and this unit. *)
Theorem record_title_name_and_unit (name unit : string) :
  no_char "(" name -> no_char LF name ->
  no_char "(" unit -> no_char ")" unit -> no_char LF unit ->
  record_name (name +:+ " (" +:+ unit +:+ ")") = name /\
  record_unit (name +:+ " (" +:+ unit +:+ ")") = unit.
Proof.
  intros Hname Hname' Hopen Hclose Hlf. split.
  - unfold record_name. rewrite split_unfold by done.
    by rewrite partition_paren.
  - unfold record_unit.
    change (name +:+ " (" +:+ unit +:+ ")")
      with (name +:+ String " " (String "(" (unit +:+ ")"))).
    replace (name +:+ String " " (String "(" (unit +:+ ")")))
      with ((name +:+ " ") +:+ String "(" (unit +:+ ")"))
      by (by rewrite append_assoc).
    rewrite sub_parens_drop.
    2:{ apply no_char_app. split; [done|].
        apply no_char_cons. split; [done|apply no_char_nil]. }
    rewrite sub_parens_keep; [simpl; apply append_empty_r| |done..].
    apply no_char_app. split; [done|].
    apply no_char_cons. split; [done|apply no_char_nil].
Qed.

(** X20: a title without parentheses is its own name, and also its own unit:
    the unit is not left empty. *)
Theorem record_title_without_unit (title : string) :
  no_char "(" title -> no_char ")" title ->
  record_name title = title /\ record_unit title = title.
Proof.
  intros Hopen Hclose. split.
  - unfold record_name. rewrite split_unfold by done.
    by rewrite partition_no_paren.
  - unfold record_unit.
    assert (forall s, no_char "(" s -> no_char ")" s ->
                      sub_parens false s = s) as Hkeep; [|by apply Hkeep].
    clear. intros s Hopen Hclose. induction s as [|d s IH]; [done|].
    pose proof (line_has_absent "(" _ Hopen) as Hhas.
    apply no_char_cons in Hopen as [_ Hopen].
    apply no_char_cons in Hclose as [Hne Hclose].
    rewrite sub_parens_cons, Hhas, IH by done.
    destruct (Ascii.eqb d LF); [done|]. by destruct (Ascii.eqb_spec d ")").
Qed.

Lemma unit_loop_spec (titles : list string) (d0 : gmap string string)
    (name unit : string) :
  fold_left (fun d nu => <[fst nu := snd nu]> d)
    (zip (names titles) (units titles)) d0 !! name = Some unit <->
  (exists i t, titles !! i = Some t /\ record_name t = name /\
     record_unit t = unit /\
     forall j t', (i < j)%nat -> titles !! j = Some t' ->
                  record_name t' <> name) \/
  (d0 !! name = Some unit /\
   forall i t, titles !! i = Some t -> record_name t <> name).
Proof.
  revert d0. induction titles as [|t0 titles IH]; intros d0; simpl.
  { split; [by right|]. intros [(i & t & ? & _)|[? _]]; done. }
  rewrite IH. clear IH.
  destruct (decide (record_name t0 = name)) as [<-|Hne].
  - rewrite lookup_insert_eq. split.
    + intros [(i & t & Hi & Hn & Hu & Hlater)|[[= <-] Hall]]; left.
      * exists (S i), t. split_and!; [done..|].
        intros [|j] t' Hj Ht'; [lia|]. apply (Hlater j); [lia|done].
      * exists 0%nat, t0. split_and!; [done..|].
        intros [|j] t' Hj Ht'; [lia|]. by apply (Hall j).
    + intros [(i & t & Hi & Hn & Hu & Hlater)|[_ Hall]].
      * destruct i as [|i]; simplify_eq/=.
        -- right. split; [done|]. intros j t' Hj.
           apply (Hlater (S j)); [lia|done].
        -- left. exists i, t. split_and!; [done..|].
           intros j t' Hj Ht'. apply (Hlater (S j)); [lia|done].
      * by destruct (Hall 0%nat t0).
  - rewrite lookup_insert_ne by done. split.
    + intros [(i & t & Hi & Hn & Hu & Hlater)|[Hd Hall]].
      * left. exists (S i), t. split_and!; [done..|].
        intros [|j] t' Hj Ht'; [lia|]. apply (Hlater j); [lia|done].
      * right. split; [done|]. intros [|i] t Hi; simplify_eq/=; eauto.
    + intros [(i & t & Hi & Hn & Hu & Hlater)|[Hd Hall]].
      * destruct i as [|i]; simplify_eq/=.
        left. exists i, t. split_and!; [done..|].
        intros j t' Hj Ht'. apply (Hlater (S j)); [lia|done].
      * right. split; [done|]. intros i t Hi. by apply (Hall (S i)).
Qed.

(** X21: the unit dictionary holds, under every record name, the unit of the
    last title with this name, and holds nothing else. *)
Theorem record_unit_dict_last_title (titles : list string)
    (name unit : string) :
  record_unit_dict (names titles) (units titles) !! name = Some unit <->
  exists i t, titles !! i = Some t /\ record_name t = name /\
    record_unit t = unit /\
    forall j t', (i < j)%nat -> titles !! j = Some t' ->
                 record_name t' <> name.
Proof.
  unfold record_unit_dict. rewrite unit_loop_spec. split; [|by left].
  intros [?|[Hin _]]; [done|]. by rewrite lookup_empty in Hin.
Qed.

End RadiometerEdges.

Section RadiometerEdgesWitnesses.
Import Misc Spec Sample.

Lemma mwr_from_csv_no_header_witness :
  mwr_csvs ["2,01/01/17 00:00:05,401,Zenith,280.1" +:+ String LF EmptyString]
    = None.
Proof.
  apply mwr_from_csv_no_header.
  intros l [->|Hin%elem_of_nil]%elem_of_cons; [reflexivity|done].
Defined.

Lemma mwr_from_csv_blank_line_witness :
  mwr_csvs (mwr_lines ++ [String LF EmptyString]) = None.
Proof.
  apply (mwr_from_csv_blank_line _ (String LF EmptyString)); [|reflexivity].
  apply elem_of_app. right. by left.
Defined.

Lemma line_type_two_fields_witness :
  line_type ("7" +:+ "," +:+ "abc" +:+ String LF EmptyString) = Py.int "7".
Proof.
  apply line_type_two_fields; intros b a Heq;
    repeat (destruct b as [|? b]; [discriminate|injection Heq as _ Heq]);
    destruct b; discriminate.
Defined.


Lemma mwr_from_csv_no_titles_witness : mwr_units mwr_lines_400 = None.
Proof.
  apply mwr_from_csv_no_titles.
  intros l Hl Hrec.
  repeat (apply elem_of_cons in Hl as [->|Hl]; [vm_compute; congruence|]).
  by apply elem_of_nil in Hl.
Defined.

Lemma record_title_name_and_unit_witness :
  record_name ("T" +:+ " (" +:+ "K" +:+ ")") = "T" /\
  record_unit ("T" +:+ " (" +:+ "K" +:+ ")") = "K".
Proof.
  apply record_title_name_and_unit;
    (apply no_char_cons; split; [done|apply no_char_nil]).
Defined.

Lemma record_title_without_unit_witness :
  record_name "T" = "T" /\ record_unit "T" = "T".
Proof.
  apply record_title_without_unit;
    (apply no_char_cons; split; [done|apply no_char_nil]).
Defined.

End RadiometerEdgesWitnesses.

(** ** The lidar importer: rejected files, order and shape of the result *)

Section LidarEdges.
Import Misc Spec.
Context {T W : Type} `{TimestampColumn T} `{TimestampColumn W}.

(** X22: two rows of the CSV with the same timestamp and the same range make
    the importer raise, with or without a wind file. *)
Theorem lidar_from_csv_repeated_pair (csv : list (lidar_row T))
    (wind : option (list (wind_row W))) (i j : nat) (a b : lidar_row T) :
  i <> j -> csv !! i = Some a -> csv !! j = Some b ->
  Timestamp a = Timestamp b -> Range_m a = Range_m b ->
  lidar_from_csv csv wind = None.
Proof.
  intros Hij Hi Hj Ht Hr. unfold lidar_from_csv.
  destruct (pivot_keys_ok _) eqn:Hkeys; [|done].
  apply bool_decide_eq_true in Hkeys. destruct Hij.
  apply (NoDup_lookup _ _ _ (Timestamp a, Range_m a) Hkeys).
  - by rewrite list_lookup_fmap, Hi.
  - rewrite list_lookup_fmap, Hj. simpl. by rewrite Ht, Hr.
Qed.

Lemma axis_nil {K} `{EqDecision K} (le : relation K) `{!RelDecision le}
    (keys : list K) :
  axis le keys = [] <-> keys = [].
Proof.
  destruct (axis_spec le keys) as [_ Hel]. split.
  - intros Hnil. destruct keys as [|k keys]; [done|].
    assert (k ∈ axis le (k :: keys)) as Hk by (apply Hel; by left).
    rewrite Hnil in Hk. by apply elem_of_nil in Hk.
  - by intros ->.
Qed.

(** X23: without a wind file, the importer returns a dataset exactly when
    the CSV has a row, no (timestamp, range) pair occurs twice and every
    timestamp can be parsed. *)
Theorem lidar_from_csv_accepts (csv : list (lidar_row T)) :
  is_Some (lidar_from_csv csv (@None (list (wind_row W)))) <->
  csv <> [] /\
  NoDup ((fun r => (Timestamp r, Range_m r)) <$> csv) /\
  forall row, row ∈ csv -> is_Some (stamp_to_datetime (Timestamp row)).
Proof.
  destruct (axis_spec stamp_le (Timestamp <$> csv)) as [_ Hel].
  split.
  - intros [ds (Hkeys & time_coord & Htime & Hcols & _)%lidar_from_csv_inv].
    split_and!; [|done|].
    + intros ->. by apply Hcols.
    + assert (is_Some (mapM stamp_to_datetime
                         (axis stamp_le (Timestamp <$> csv)))) as Hall by done.
      rewrite mapM_is_Some, Forall_forall in Hall.
      intros row Hrow. apply Hall, Hel, list_elem_of_fmap. by exists row.
  - intros (Hrows & Hnd & Hparse). unfold lidar_from_csv.
    assert (pivot_keys_ok ((fun r => (Timestamp r, Range_m r)) <$> csv) = true)
      as -> by (by apply bool_decide_eq_true).
    assert (is_Some (mapM stamp_to_datetime
                       (axis stamp_le (Timestamp <$> csv))))
      as [time_coord ->].
    { rewrite mapM_is_Some, Forall_forall. intros t Ht.
      apply Hel, list_elem_of_fmap in Ht as (row & -> & Hrow).
      by apply Hparse. }
    simpl. destruct (decide _) as [Hnil|]; [|done].
    apply axis_nil, fmap_nil_inv in Hnil. done.
Qed.

(** X24: a wind file changes nothing but the wind field: the coordinates and
    the radial fields are those of the import without a wind file. *)
Theorem lidar_from_csv_radial_fields (csv : list (lidar_row T))
    (wind : option (list (wind_row W))) (ds : lidar_dataset) :
  lidar_from_csv csv wind = Some ds ->
  lidar_from_csv csv (@None (list (wind_row W))) =
    Some {| Time := Time ds; Range := Range ds; RWS := RWS ds;
            DRWS := DRWS ds; CNR := CNR ds; Windspeed := None |}.
Proof.
  unfold lidar_from_csv. destruct (pivot_keys_ok _); [|done].
  destruct (mapM stamp_to_datetime _) as [time_coord|]; [|done]. simpl.
  destruct (decide _); [done|].
  destruct (match wind with Some _ => _ | None => _ end) as [wspeed|];
    [|done].
  simpl. by intros [= <-].
Qed.

Lemma StronglySorted_lookup_lt {A} (R : relation A) (l : list A)
    (i j : nat) (a b : A) :
  StronglySorted R l -> (i < j)%nat -> l !! i = Some a -> l !! j = Some b ->
  R a b.
Proof.
  intros Hs. revert i j. induction Hs as [|x l _ IH Hall]; intros i j; [done|].
  destruct j as [|j]; [lia|]. destruct i as [|i]; simpl.
  - intros _ [= <-] Hb. rewrite Forall_forall in Hall.
    apply Hall. by eapply list_elem_of_lookup_2.
  - intros Hij. apply IH. lia.
Qed.

Lemma axis_increasing {K} `{EqDecision K} (le : relation K)
    `{!RelDecision le} `{!PartialOrder le} `{!Total le}
    (keys : list K) (i j : nat) (a b : K) :
  (i < j)%nat -> axis le keys !! i = Some a -> axis le keys !! j = Some b ->
  le a b /\ a <> b.
Proof.
  intros Hij Ha Hb. split.
  - apply (StronglySorted_lookup_lt le (axis le keys) i j); [|done..].
    apply StronglySorted_merge_sort; apply _.
  - intros ->. destruct (axis_spec le keys) as [Hnd _].
    pose proof (NoDup_lookup _ _ _ _ Hnd Ha Hb). lia.
Qed.

(** X25: the Range coordinate is strictly increasing.  The profiles stand
    in the strictly increasing order in which pandas sorts the labels of
    the timestamp column (numbers as numbers, text as text), each timestamp
    once. *)
Theorem lidar_from_csv_order (csv : list (lidar_row T))
    (wind : option (list (wind_row W))) (ds : lidar_dataset) :
  lidar_from_csv csv wind = Some ds ->
  (forall i j a b, (i < j)%nat ->
     Range ds !! i = Some a -> Range ds !! j = Some b -> a < b) /\
  exists index : list T,
    mapM stamp_to_datetime index = Some (Time ds) /\
    (forall t, t ∈ index <-> exists row, row ∈ csv /\ Timestamp row = t) /\
    (forall i j s t, (i < j)%nat ->
       index !! i = Some s -> index !! j = Some t ->
       stamp_le s t /\ s <> t).
Proof.
  intros (Hkeys & time_coord & Htime & _ & -> & _)%lidar_from_csv_inv.
  simpl. split.
  - intros i j a b Hij Ha Hb.
    destruct (axis_increasing Z.le _ i j a b Hij Ha Hb). lia.
  - exists (axis stamp_le (Timestamp <$> csv)). split_and!; [done| |].
    + intros t. destruct (axis_spec stamp_le (Timestamp <$> csv)) as [_ ->].
      rewrite list_elem_of_fmap.
      split; [intros (row & -> & ?)|intros (row & ? & <-)]; by exists row.
    + intros i j s t. apply axis_increasing; apply _.
Qed.

Lemma pivot_values_shape {K} `{EqDecision K} (index : list K) (cols : list Z)
    (entries : list (K * Z * float)) :
  length (pivot_values index cols entries) = length index /\
  forall cells, cells ∈ pivot_values index cols entries ->
                length cells = length cols.
Proof.
  unfold pivot_values. split; [by rewrite length_fmap|].
  intros cells (t & -> & _)%list_elem_of_fmap. by rewrite length_fmap.
Qed.

(** X26: the three radial fields are rectangular, with one row per entry of
    the Time coordinate and one cell per entry of the Range coordinate. *)
Theorem lidar_from_csv_shape (csv : list (lidar_row T))
    (wind : option (list (wind_row W))) (ds : lidar_dataset) (g : grid) :
  lidar_from_csv csv wind = Some ds ->
  g ∈ [RWS ds; DRWS ds; CNR ds] ->
  length g = length (Time ds) /\
  forall cells, cells ∈ g -> length cells = length (Range ds).
Proof.
  intros (Hkeys & time_coord & Htime & _ & -> & _)%lidar_from_csv_inv.
  simpl. apply length_mapM in Htime. rewrite <- Htime.
  rewrite !elem_of_cons, elem_of_nil.
  intros [->|[->|[->|[]]]]; apply pivot_values_shape.
Qed.

(** X27: the DRWS and CNR fields are filled like the RWS field: at the
    position of the timestamp and of the range of every CSV row they hold
    the values of that row, and the missing value where the CSV has no
    row. *)
Theorem lidar_from_csv_other_fields (csv : list (lidar_row T))
    (wind : option (list (wind_row W))) (ds : lidar_dataset) :
  lidar_from_csv csv wind = Some ds ->
  exists index : list T,
    mapM stamp_to_datetime index = Some (Time ds) /\
    (forall t, t ∈ index <-> exists row, row ∈ csv /\ Timestamp row = t) /\
    (forall i j row,
       row ∈ csv ->
       index !! i = Some (Timestamp row) ->
       Range ds !! j = Some (Range_m row) ->
       DRWS ds !! i ≫= (fun cells => cells !! j) = Some (DRWS_ms row) /\
       CNR ds !! i ≫= (fun cells => cells !! j) = Some (CNR_db row)) /\
    (forall i j t r,
       index !! i = Some t -> Range ds !! j = Some r ->
       (forall row, row ∈ csv -> ~ (Timestamp row = t /\ Range_m row = r)) ->
       DRWS ds !! i ≫= (fun cells => cells !! j) = Some nan /\
       CNR ds !! i ≫= (fun cells => cells !! j) = Some nan).
Proof.
  intros (Hkeys & time_coord & Htime & _ & -> & _)%lidar_from_csv_inv.
  simpl.
  exists (axis stamp_le (Timestamp <$> csv)). split_and!; [done| | |].
  - intros t. destruct (axis_spec stamp_le (Timestamp <$> csv)) as [_ ->].
    rewrite list_elem_of_fmap.
    split; [intros (row & -> & ?)|intros (row & ? & <-)]; by exists row.
  - intros i j row Hrow Hi Hj.
    rewrite !(pivot_values_lookup _ _ _ _ _ _ _ Hi Hj). split; f_equal.
    + by apply (pivot_cell_entry
                  (fun r : lidar_row T => (Timestamp r, Range_m r)) DRWS_ms).
    + by apply (pivot_cell_entry
                  (fun r : lidar_row T => (Timestamp r, Range_m r)) CNR_db).
  - intros i j t r Hi Hj Hnone.
    rewrite !(pivot_values_lookup _ _ _ _ _ _ _ Hi Hj). split; f_equal.
    + by apply (pivot_cell_missing
                  (fun r : lidar_row T => (Timestamp r, Range_m r)) DRWS_ms).
    + by apply (pivot_cell_missing
                  (fun r : lidar_row T => (Timestamp r, Range_m r)) CNR_db).
Qed.

Lemma axis_ext {K} `{EqDecision K} (le : relation K)
    `{!RelDecision le} `{!PartialOrder le} `{!Total le} (keys keys' : list K) :
  (forall k, k ∈ keys <-> k ∈ keys') -> axis le keys = axis le keys'.
Proof.
  intros Hel. apply (Sorted_unique le).
  - apply Sorted_merge_sort; apply _.
  - apply Sorted_merge_sort; apply _.
  - unfold axis. rewrite !merge_sort_Permutation.
    apply NoDup_Permutation; [apply NoDup_remove_dups..|].
    intros k. by rewrite !elem_of_remove_dups.
Qed.

Lemma pivot_cell_Permutation {K A} `{EqDecision K} (key : A -> K * Z)
    (val : A -> float) (rows rows' : list A) (t : K) (r : Z) :
  NoDup (key <$> rows) -> rows ≡ₚ rows' ->
  pivot_cell (zip (key <$> rows) (val <$> rows)) t r =
    pivot_cell (zip (key <$> rows') (val <$> rows')) t r.
Proof.
  intros Hnd Hperm.
  assert (NoDup (key <$> rows')) as Hnd' by (by rewrite <- Hperm).
  destruct (decide (Exists (fun row => key row = (t, r)) rows)) as [Hex|Hno].
  - apply Exists_exists in Hex as (row & Hrow & Hkey).
    pose proof (pivot_cell_entry key val rows row Hnd Hrow) as H1.
    assert (row ∈ rows') as Hrow' by (by rewrite <- Hperm).
    pose proof (pivot_cell_entry key val rows' row Hnd' Hrow') as H2.
    rewrite Hkey in H1, H2. simpl in H1, H2. by rewrite H1, H2.
  - rewrite !pivot_cell_missing; [done| |].
    + intros row Hrow [Ht Hr]. apply Hno, Exists_exists. exists row.
      split; [by rewrite Hperm|]. destruct (key row). by simplify_eq/=.
    + intros row Hrow [Ht Hr]. apply Hno, Exists_exists. exists row.
      split; [done|]. destruct (key row). by simplify_eq/=.
Qed.

(** X28: the Time and Range coordinates and the RWS, DRWS, CNR and
    Windspeed fields do not depend on the order of the rows of the CSV. *)
Theorem lidar_from_csv_row_order (csv csv' : list (lidar_row T))
    (wind : option (list (wind_row W))) :
  csv ≡ₚ csv' -> lidar_from_csv csv wind = lidar_from_csv csv' wind.
Proof.
  intros Hperm. unfold lidar_from_csv.
  assert (pivot_keys_ok ((fun r => (Timestamp r, Range_m r)) <$> csv) =
          pivot_keys_ok ((fun r => (Timestamp r, Range_m r)) <$> csv')) as Hok.
  { apply bool_decide_ext. by rewrite Hperm. }
  rewrite <- Hok.
  destruct (pivot_keys_ok _) eqn:Hkeys; [|done].
  apply bool_decide_eq_true in Hkeys.
  assert (axis stamp_le (Timestamp <$> csv) =
          axis stamp_le (Timestamp <$> csv')) as <-.
  { apply axis_ext; try apply _. intros k. by rewrite Hperm. }
  assert (axis Z.le (Range_m <$> csv) = axis Z.le (Range_m <$> csv')) as <-.
  { apply axis_ext; try apply _. intros k. by rewrite Hperm. }
  assert (forall val : lidar_row T -> float,
    pivot_values (axis stamp_le (Timestamp <$> csv))
      (axis Z.le (Range_m <$> csv))
      (zip ((fun r => (Timestamp r, Range_m r)) <$> csv) (val <$> csv)) =
    pivot_values (axis stamp_le (Timestamp <$> csv))
      (axis Z.le (Range_m <$> csv))
      (zip ((fun r => (Timestamp r, Range_m r)) <$> csv') (val <$> csv')))
    as Hdata.
  { intros val. unfold pivot_values.
    apply list_fmap_ext. intros _ t _. apply list_fmap_ext. intros _ r _.
    by apply (pivot_cell_Permutation
                (fun r : lidar_row T => (Timestamp r, Range_m r))). }
  cbv zeta. by rewrite !Hdata.
Qed.

Lemma scan_prefix_lookup (info : gmap string string) (key : string) :
  scan_prefix info !! ("scan_" +:+ key) = info !! key.
Proof.
  unfold scan_prefix.
  assert (NoDup ((fun kv : string * string => ("scan_" +:+ kv.1, kv.2))
                   <$> map_to_list info).*1) as Hnd.
  { rewrite <- list_fmap_compose.
    apply (NoDup_fmap_2_strong _).
    - intros [k1 v1] [k2 v2] H1 H2 Heq. simpl in Heq.
      apply (inj _) in Heq as ->.
      apply elem_of_map_to_list in H1, H2. f_equal. congruence.
    - apply NoDup_map_to_list. }
  destruct (info !! key) as [v|] eqn:Hv.
  - apply elem_of_list_to_map; [done|].
    apply list_elem_of_fmap. exists (key, v). split; [done|].
    by apply elem_of_map_to_list.
  - apply not_elem_of_list_to_map.
    intros ([k' v'] & Hk & Hin)%list_elem_of_fmap.
    apply list_elem_of_fmap in Hin as ([k v] & [= -> ->] & Hin).
    simpl in Hk. apply (inj _) in Hk as <-.
    apply elem_of_map_to_list in Hin. congruence.
Qed.

Lemma scan_prefix_other (info : gmap string string) (key : string) :
  (forall k, is_Some (info !! k) -> key <> "scan_" +:+ k) ->
  scan_prefix info !! key = None.
Proof.
  intros Hother. unfold scan_prefix. apply not_elem_of_list_to_map.
  intros ([k' v'] & Hk & Hin)%list_elem_of_fmap.
  apply list_elem_of_fmap in Hin as ([k v] & [= -> ->] & Hin).
  simpl in Hk. apply elem_of_map_to_list in Hin.
  by apply (Hother k).
Qed.

(** X29: with a scan file and attributes of the caller: every attribute of the
    scan is found under its key with the prefix [scan_], also where the
    caller had an attribute of that name; every other attribute of the
    caller is kept. *)
Theorem lidar_attrs_update (info attrs : gmap string string) :
  exists merged,
    lidar_attrs (Some info) (Some attrs) = Some merged /\
    (forall k v, info !! k = Some v ->
                 merged !! ("scan_" +:+ k) = Some v) /\
    (forall key, (forall k, is_Some (info !! k) -> key <> "scan_" +:+ k) ->
                 merged !! key = attrs !! key).
Proof.
  exists (scan_prefix info ∪ attrs). split_and!; [done| |].
  - intros k v Hk. apply lookup_union_Some_l. by rewrite scan_prefix_lookup.
  - intros key Hother. rewrite lookup_union_r; [done|].
    by apply scan_prefix_other.
Qed.

End LidarEdges.

Section LidarEdgesWitnesses.
Import Misc Spec Sample.

Lemma lidar_from_csv_repeated_pair_witness :
  lidar_from_csv (lidar2 ++ lidar2) None = None.
Proof.
  apply (lidar_from_csv_repeated_pair (lidar2 ++ lidar2) None 0 2
           {| Timestamp := 100; Range_m := 50;
              RWS_ms := f 1; DRWS_ms := f 0; CNR_db := f (-20) |}
           {| Timestamp := 100; Range_m := 50;
              RWS_ms := f 1; DRWS_ms := f 0; CNR_db := f (-20) |});
    [lia|reflexivity..].
Defined.

Lemma lidar_from_csv_radial_fields_witness :
  exists ds, lidar_from_csv lidar2 (Some wind1) = Some ds /\
  lidar_from_csv lidar2 None =
    Some {| Time := Time ds; Range := Range ds; RWS := RWS ds;
            DRWS := DRWS ds; CNR := CNR ds; Windspeed := None |}.
Proof.
  destruct (lidar_from_csv lidar2 (Some wind1)) as [ds|] eqn:E;
    [|vm_compute in E; discriminate].
  exists ds. split; [reflexivity|].
  exact (lidar_from_csv_radial_fields lidar2 (Some wind1) ds E).
Defined.

Lemma lidar_from_csv_order_witness :
  exists ds, lidar_from_csv lidar_10_9 None = Some ds /\
  (forall i j a b, (i < j)%nat ->
     Range ds !! i = Some a -> Range ds !! j = Some b -> a < b) /\
  exists index : list Z,
    mapM stamp_to_datetime index = Some (Time ds) /\
    (forall t, t ∈ index <-> exists row, row ∈ lidar_10_9 /\ Timestamp row = t) /\
    (forall i j s t, (i < j)%nat ->
       index !! i = Some s -> index !! j = Some t ->
       stamp_le s t /\ s <> t).
Proof.
  destruct (lidar_from_csv lidar_10_9 None) as [ds|] eqn:E;
    [|vm_compute in E; discriminate].
  exists ds. split; [reflexivity|].
  exact (lidar_from_csv_order lidar_10_9 None ds E).
Defined.

Lemma lidar_from_csv_shape_witness :
  exists ds, lidar_from_csv lidar2 None = Some ds /\
  length (DRWS ds) = length (Time ds) /\
  forall cells, cells ∈ DRWS ds -> length cells = length (Range ds).
Proof.
  destruct (lidar_from_csv lidar2 None) as [ds|] eqn:E;
    [|vm_compute in E; discriminate].
  exists ds. split; [reflexivity|].
  apply (lidar_from_csv_shape lidar2 None ds (DRWS ds) E).
  right. by left.
Defined.

Lemma lidar_from_csv_other_fields_witness :
  exists ds, lidar_from_csv lidar2 None = Some ds /\
  exists index : list Z,
    mapM stamp_to_datetime index = Some (Time ds) /\
    (forall t, t ∈ index <-> exists row, row ∈ lidar2 /\ Timestamp row = t) /\
    (forall i j row,
       row ∈ lidar2 ->
       index !! i = Some (Timestamp row) ->
       Range ds !! j = Some (Range_m row) ->
       DRWS ds !! i ≫= (fun cells => cells !! j) = Some (DRWS_ms row) /\
       CNR ds !! i ≫= (fun cells => cells !! j) = Some (CNR_db row)) /\
    (forall i j t r,
       index !! i = Some t -> Range ds !! j = Some r ->
       (forall row, row ∈ lidar2 ->
                    ~ (Timestamp row = t /\ Range_m row = r)) ->
       DRWS ds !! i ≫= (fun cells => cells !! j) = Some nan /\
       CNR ds !! i ≫= (fun cells => cells !! j) = Some nan).
Proof.
  destruct (lidar_from_csv lidar2 None) as [ds|] eqn:E;
    [|vm_compute in E; discriminate].
  exists ds. split; [reflexivity|].
  exact (lidar_from_csv_other_fields lidar2 None ds E).
Defined.

Lemma lidar_from_csv_row_order_witness :
  lidar_from_csv lidar2 (Some wind1) =
    lidar_from_csv lidar2_reversed (Some wind1).
Proof.
  apply lidar_from_csv_row_order. unfold lidar2_reversed.
  by rewrite reverse_Permutation.
Defined.

End LidarEdgesWitnesses.
